(** * DynamicWebToS3Migration: the crawl driver and the upload pass

  A shallow embedding of [WebHtmlDownload.py] and [AwsS3Upload.py].
  URLs, paths and file contents are byte strings; the three bookkeeping
  sets are finite sets of strings; the local mirror is a finite map from
  path to content.  The network, the HTML parser/serialiser and urllib's
  [urljoin] are collaborators outside the repository and appear as
  parameters.  [Crawl] is the crawl on a disk that takes every write;
  [CrawlIO] is the fetch and the worklist turn on a disk whose calls can
  raise. *)

From Stdlib Require Import String Ascii List Bool Arith Lia.
From Stdlib Require QArith.
From Stdlib Require Import Sorting.Sorted Sorting.Permutation.
From stdpp Require Import base option list gmap strings sets.

Local Open Scope string_scope.
Local Set Warnings "-register-all,-clear-no-such-hyp".

(** ** Python string primitives used by the scripts *)

Module PyStr.

(** [s.startswith(p)] *)
Definition startswith (s p : string) : bool := String.prefix p s.

(** [c in s] for a one-character needle *)
Fixpoint contains (c : ascii) (s : string) : bool :=
  match s with
  | EmptyString => false
  | String d s' => if Ascii.eqb c d then true else contains c s'
  end.

(** [s.split(c)[0]]: everything before the first [c] *)
Fixpoint split_head (c : ascii) (s : string) : string :=
  match s with
  | EmptyString => EmptyString
  | String d s' => if Ascii.eqb c d then EmptyString else String d (split_head c s')
  end.

(** [s.rstrip(c)]: every trailing [c] is removed *)
Fixpoint rstrip (c : ascii) (s : string) : string :=
  match s with
  | EmptyString => EmptyString
  | String d s' =>
      match rstrip c s' with
      | EmptyString => if Ascii.eqb c d then EmptyString else String d EmptyString
      | r => String d r
      end
  end.

(** [s.endswith(p)] *)
Fixpoint endswith (s p : string) : bool :=
  if String.eqb s p then true
  else match s with
       | EmptyString => false
       | String _ s' => endswith s' p
       end.

(** [s.replace(old, new)]: leftmost, non-overlapping occurrences.
  [skip] counts the characters of a match still to be dropped. *)
Fixpoint replace_from (skip : nat) (old new s : string) : string :=
  match s with
  | EmptyString =>
      if Nat.eqb skip 0 && String.eqb old EmptyString then new else EmptyString
  | String c s' =>
      match skip with
      | S k => replace_from k old new s'
      | O =>
          if String.prefix old s then
            new ++ match String.length old with
                   | O => String c (replace_from 0 old new s')
                   | S k => replace_from k old new s'
                   end
          else String c (replace_from 0 old new s')
      end
  end.

Definition replace (old new s : string) : string := replace_from 0 old new s.

(** [s.strip()] on ASCII text: the blanks are the characters below 128
    for which [str.isspace] holds (tab to carriage return, the four
    separators 28 to 31, and the space).  Beyond ASCII [str.strip] takes
    further blanks away (U+0085, U+00A0, U+3000 and others); what is proved
    of a text that was written and read back is proved of ASCII text. *)
Definition is_space (c : ascii) : bool :=
  match nat_of_ascii c with
  | 9 | 10 | 11 | 12 | 13 | 28 | 29 | 30 | 31 | 32 => true
  | _ => false
  end.

(** every character is below 128 *)
Fixpoint is_ascii (s : string) : bool :=
  match s with
  | EmptyString => true
  | String c s' => Nat.ltb (nat_of_ascii c) 128 && is_ascii s'
  end.

(** ASCII text without a line break *)
Definition one_line (s : string) : bool :=
  is_ascii s && negb (contains "010"%char s) && negb (contains "013"%char s).

Fixpoint lstrip_space (s : string) : string :=
  match s with
  | EmptyString => EmptyString
  | String c s' => if is_space c then lstrip_space s' else s
  end.

Fixpoint rstrip_space (s : string) : string :=
  match s with
  | EmptyString => EmptyString
  | String d s' =>
      match rstrip_space s' with
      | EmptyString => if is_space d then EmptyString else String d EmptyString
      | r => String d r
      end
  end.

Definition strip (s : string) : string := rstrip_space (lstrip_space s).

(** Text mode on the platform of the scripts: a write turns every line
    feed into carriage return and line feed *)
Fixpoint text_write (s : string) : string :=
  match s with
  | EmptyString => EmptyString
  | String c s' =>
      if Ascii.eqb c "010"%char
      then String "013"%char (String "010"%char (text_write s'))
      else String c (text_write s')
  end.

(** and a read (universal newlines) turns carriage return with line feed,
    and a carriage return on its own, into a line feed *)
Fixpoint universal (s : string) : string :=
  match s with
  | EmptyString => EmptyString
  | String c s' =>
      if Ascii.eqb c "013"%char
      then match s' with
           | String d s'' =>
               if Ascii.eqb d "010"%char
               then String "010"%char (universal s'')
               else String "010"%char (universal s')
           | EmptyString => String "010"%char EmptyString
           end
      else String c (universal s')
  end.

Fixpoint lines_from (cur : string) (s : string) : list string :=
  match s with
  | EmptyString => if String.eqb cur EmptyString then [] else [cur]
  | String c s' =>
      if Ascii.eqb c "010"%char
      then (cur ++ String c EmptyString) :: lines_from EmptyString s'
      else lines_from (cur ++ String c EmptyString) s'
  end.

(** Iterating a text file that holds the written text [s] yields its
    lines, each with its line feed. *)
Definition file_lines (s : string) : list string :=
  lines_from EmptyString (universal (text_write s)).

End PyStr.

(** ** [os.path] on the Windows paths the scripts build *)

Module NtPath.

Definition is_sep (c : ascii) : bool := Ascii.eqb c "\"%char || Ascii.eqb c "/"%char.

Fixpoint has_sep (s : string) : bool :=
  match s with
  | EmptyString => false
  | String c s' => is_sep c || has_sep s'
  end.

(** the part of [p] after its last separator *)
Fixpoint basename (p : string) : string :=
  match p with
  | EmptyString => EmptyString
  | String c p' =>
      if has_sep p' then basename p'
      else if is_sep c then p' else p
  end.

Fixpoint lstrip_dots (s : string) : string :=
  match s with
  | EmptyString => EmptyString
  | String c s' => if Ascii.eqb c "."%char then lstrip_dots s' else s
  end.

Fixpoint from_last_dot (s : string) : string :=
  match s with
  | EmptyString => EmptyString
  | String c s' =>
      if PyStr.contains "."%char s' then from_last_dot s'
      else if Ascii.eqb c "."%char then s else EmptyString
  end.

(** [os.path.splitext(p)[1]]: the extension starts at the last dot of
  the last component, provided a character other than a dot precedes
  it in that component. *)
Definition splitext_ext (p : string) : string :=
  from_last_dot (lstrip_dots (basename p)).

Definition last_char (s : string) : option ascii :=
  match rev (list_ascii_of_string s) with
  | [] => None
  | c :: _ => Some c
  end.

(** [os.path.join(a, b)] for a relative, drive-less [b] (the index
  document name). *)
Definition join (a b : string) : string :=
  match last_char a with
  | None => b
  | Some c => if is_sep c then a ++ b else a ++ "\" ++ b
  end.

End NtPath.

(** ** [sorted] and [list.sort(key=...)] *)

Module PySort.

Section Keyed.
Context {A : Type} (key : A -> string).

(** stable insertion: [x] goes after every element whose key is not
  greater than its own *)
Fixpoint insert_by (x : A) (l : list A) : list A :=
  match l with
  | [] => [x]
  | y :: l' => if String.leb (key y) (key x) then y :: insert_by x l' else x :: l
  end.

Definition sort_by (l : list A) : list A := fold_left (fun acc x => insert_by x acc) l [].

(** the order of two elements under [<=] on their keys *)
Definition key_le (x y : A) : Prop := String.leb (key x) (key y) = true.
End Keyed.

Definition sorted (l : list string) : list string := sort_by (fun x => x) l.

End PySort.

(** ** The parsed document (BeautifulSoup's tree) and the structural edits *)

Module Dom.

Inductive node : Type :=
  | Text (s : string)
  | Elem (tag : string) (attrs : list (string * string)) (children : list node).

(** [tag.get(k)] *)
Fixpoint get_attr (k : string) (attrs : list (string * string)) : option string :=
  match attrs with
  | [] => None
  | (k', v) :: rest => if String.eqb k k' then Some v else get_attr k rest
  end.

(** the whitespace-separated tokens of a [class] attribute *)
Fixpoint tokens_from (cur : string) (s : string) : list string :=
  match s with
  | EmptyString => if String.eqb cur EmptyString then [] else [cur]
  | String c s' =>
      if PyStr.is_space c
      then ((if String.eqb cur EmptyString then [] else [cur]) ++ tokens_from EmptyString s')%list
      else tokens_from (cur ++ String c EmptyString) s'
  end.

Definition has_class (c : string) (attrs : list (string * string)) : bool :=
  match get_attr "class" attrs with
  | Some v => existsb (String.eqb c) (tokens_from EmptyString v)
  | None => false
  end.

Definition has_id (i : string) (attrs : list (string * string)) : bool :=
  match get_attr "id" attrs with
  | Some v => String.eqb v i
  | None => false
  end.

Definition is_tag (t : string) (n : node) : bool :=
  match n with
  | Text _ => false
  | Elem t' _ _ => String.eqb t' t
  end.

Definition tag_with_id (t i : string) (n : node) : bool :=
  match n with
  | Text _ => false
  | Elem t' a _ => String.eqb t' t && has_id i a
  end.

Definition tag_with_class (t c : string) (n : node) : bool :=
  match n with
  | Text _ => false
  | Elem t' a _ => String.eqb t' t && has_class c a
  end.

(** [tag.text]: the strings below the node, in document order *)
Fixpoint text (n : node) : string :=
  match n with
  | Text s => s
  | Elem _ _ cs => String.concat EmptyString (map text cs)
  end.

Definition first_some {A B} (g : A -> option B) : list A -> option B :=
  fix go l :=
    match l with
    | [] => None
    | c :: l' => match g c with
                 | Some r => Some r
                 | None => go l'
                 end
    end.

(** the first node, in document order, that satisfies [q] *)
Fixpoint find_node (q : node -> bool) (n : node) : option node :=
  if q n then Some n
  else match n with
       | Text _ => None
       | Elem _ _ cs => first_some (find_node q) cs
       end.

(** [soup.find(...)] over a list of siblings *)
Definition find (q : node -> bool) (l : list node) : option node :=
  first_some (find_node q) l.

Definition first_rewrite {A} (g : A -> option (list A)) : list A -> option (list A) :=
  fix go l :=
    match l with
    | [] => None
    | c :: l' => match g c with
                 | Some r => Some (r ++ l')%list
                 | None => option_map (cons c) (go l')
                 end
    end.

(** the first node satisfying [q] is replaced, in its parent, by the
  nodes [f n]; [None] when no node satisfies [q] *)
Fixpoint rewrite_node (q : node -> bool) (f : node -> list node) (n : node)
  : option (list node) :=
  if q n then Some (f n)
  else match n with
       | Text _ => None
       | Elem t a cs =>
           option_map (fun cs' => [Elem t a cs']) (first_rewrite (rewrite_node q f) cs)
       end.

Definition rewrite_first (q : node -> bool) (f : node -> list node) (l : list node)
  : option (list node) :=
  first_rewrite (rewrite_node q f) l.

(** number of nodes satisfying [q] *)
Fixpoint count_node (q : node -> bool) (n : node) : nat :=
  (if q n then 1 else 0) +
  match n with
  | Text _ => 0
  | Elem _ _ cs => list_sum (map (count_node q) cs)
  end.

Definition count (q : node -> bool) (l : list node) : nat :=
  list_sum (map (count_node q) l).

(** *** The edits of [download_html] *)

Definition ranking_title : string := "人気記事ランキング".

(** [widget.find('h3') and widget.find('h3').text == '人気記事ランキング'] *)
Definition is_ranking_widget (n : node) : bool :=
  match n with
  | Text _ => false
  | Elem _ _ cs =>
      tag_with_class "div" "widget" n &&
      match find (is_tag "h3") cs with
      | Some h3 => String.eqb (text h3) ranking_title
      | None => false
      end
  end.

(** every widget block found by [find_all] is tested in document order
  and decomposed when it carries the ranking heading; a block inside a
  decomposed block is gone with it *)
Fixpoint cut_widgets_node (n : node) : list node :=
  match n with
  | Text _ => [n]
  | Elem t a cs =>
      if is_ranking_widget n then []
      else [Elem t a (flat_map cut_widgets_node cs)]
  end.

Definition cut_widgets (l : list node) : list node := flat_map cut_widgets_node l.

Definition is_view_sp : node -> bool := tag_with_id "li" "view_sp".
Definition is_header_banner : node -> bool := tag_with_id "div" "headerBanner".
Definition is_body_grid : node -> bool := tag_with_id "div" "bodyGrid".

Definition newline : string := String "010"%char EmptyString.

(** the parse of the banner literal: the [div] and the line feed after it *)
Definition new_banner : list node :=
  [ Elem "div" [("id", "headerBanner")]
      [ Elem "span" [("class", "da-fg da-gray")]
          [ Elem "span" [("class", "da-bg da-yellow")]
              [ Text "　　本ページはアーカイブです。　　" ] ] ];
    Text newline ].

Definition cut_view_sp (l : list node) : list node :=
  match rewrite_first is_view_sp (fun _ => []) l with
  | Some l' => l'
  | None => l
  end.

Definition place_banner (l : list node) : list node :=
  match rewrite_first is_header_banner (fun _ => new_banner) l with
  | Some l' => l'
  | None =>
      match rewrite_first is_body_grid (fun n => (new_banner ++ [n])%list) l with
      | Some l' => l'
      | None => l
      end
  end.

Definition structural_edits (soup : list node) : list node :=
  place_banner (cut_view_sp (cut_widgets soup)).

(** [soup.find_all(...)]: every node satisfying [q], in document order *)
Fixpoint find_all_node (q : node -> bool) (n : node) : list node :=
  ((if q n then [n] else []) ++
   match n with
   | Text _ => []
   | Elem _ _ cs => flat_map (find_all_node q) cs
   end)%list.

Definition find_all (q : node -> bool) (l : list node) : list node :=
  flat_map (find_all_node q) l.

End Dom.

(** ** The crawl: configuration, collaborators and state *)

Module Crawl.

(** the [Web] section of [config.ini] *)
Record Config : Type := {
    domain_name : string;
    top_local_name : string;
    sitemap_url_path : string;
    index_file_name : string
  }.

Definition top_page_url (cfg : Config) : string := "https://" ++ domain_name cfg.
Definition top_local_dir (cfg : Config) : string := ".\" ++ top_local_name cfg.
Definition sitemap_url (cfg : Config) : string := top_page_url cfg ++ sitemap_url_path cfg.
Definition sitemap_file_path (cfg : Config) : string :=
  PyStr.replace "/" "\" (top_local_dir cfg ++ sitemap_url_path cfg).
Definition top_local_file (cfg : Config) : string :=
  ".\" ++ top_local_name cfg ++ "\" ++ index_file_name cfg.
Definition processed_file_path (cfg : Config) : string :=
  ".\" ++ top_local_name cfg ++ "_processed_log.txt".
Definition skipped_file_path (cfg : Config) : string :=
  ".\" ++ top_local_name cfg ++ "_skipped_log.txt".
Definition retry_file_path (cfg : Config) : string :=
  ".\" ++ top_local_name cfg ++ "_download_retry.txt".

Definition WEB_RETRY_COUNT : nat := 3.

(** what [requests.get] followed by [raise_for_status] hands back *)
Record Response : Type := {
    history : list string;
    content : string;
    content_type : option string
  }.

Inductive Reply : Type :=
  | Failed                    (* a RequestException: transport error or error status *)
  | Answered (r : Response).

(** The collaborators.  [web n url] is the reply to the [n]-th request
  of the run when it asks for [url]. *)
(** one [<url>] element of the feed: what [find] returns for each child
  (absent, or present with its text, [None] when the text is empty) *)
Record UrlElem : Type := {
    find_loc : option (option string);
    find_lastmod : option (option string);
    find_changefreq : option (option string);
    find_priority : option (option string)
  }.

(** a timestamp is kept as its rendering under the one format the
  script reads and writes, [%Y-%m-%dT%H:%M:%S%z] *)
Definition datetime : Type := string.

Record SitemapEntry : Type := {
    loc : option string;
    lastmod : option datetime;
    changefreq : string;
    priority : QArith_base.Q
  }.

Record Env : Type := {
    web : nat -> string -> Reply;
    parse_html : string -> list Dom.node;
    str_soup : list Dom.node -> string;
    urljoin : string -> string -> string;
    (* [ET.fromstring] and [findall('ns:url')]; [None] is a ParseError *)
    parse_sitemap : string -> option (list UrlElem);
    (* [datetime.strptime] with the fixed format; [None] is a ValueError *)
    strptime : string -> option datetime;
    (* [datetime.now().strftime(...)] *)
    current_time : datetime;
    (* [parseString(...).toprettyxml(...)]; [None] is an ExpatError *)
    pretty_xml : string -> option string
  }.

(** the module-level sets, the worklist, the local files and the
  requests issued so far (newest first) *)
Record State : Type := {
    page_links : gset string;
    processed_urls : gset string;
    skipped_urls : gset string;
    retry_urls : gset string;
    files : gmap string string;
    requests : list string
  }.

Definition with_page_links (f : gset string -> gset string) (s : State) : State :=
  {| page_links := f (page_links s); processed_urls := processed_urls s;
     skipped_urls := skipped_urls s; retry_urls := retry_urls s;
     files := files s; requests := requests s |}.
Definition with_processed (f : gset string -> gset string) (s : State) : State :=
  {| page_links := page_links s; processed_urls := f (processed_urls s);
     skipped_urls := skipped_urls s; retry_urls := retry_urls s;
     files := files s; requests := requests s |}.
Definition with_skipped (f : gset string -> gset string) (s : State) : State :=
  {| page_links := page_links s; processed_urls := processed_urls s;
     skipped_urls := f (skipped_urls s); retry_urls := retry_urls s;
     files := files s; requests := requests s |}.
Definition with_retry (f : gset string -> gset string) (s : State) : State :=
  {| page_links := page_links s; processed_urls := processed_urls s;
     skipped_urls := skipped_urls s; retry_urls := f (retry_urls s);
     files := files s; requests := requests s |}.
Definition with_files (f : gmap string string -> gmap string string) (s : State) : State :=
  {| page_links := page_links s; processed_urls := processed_urls s;
     skipped_urls := skipped_urls s; retry_urls := retry_urls s;
     files := f (files s); requests := requests s |}.

(** [requests.get(url)]: the reply, and the request on record *)
Definition get (env : Env) (url : string) (s : State) : Reply * State :=
  (web env (length (requests s)) url,
   {| page_links := page_links s; processed_urls := processed_urls s;
      skipped_urls := skipped_urls s; retry_urls := retry_urls s;
      files := files s; requests := url :: requests s |}).

Definition add (x : string) (X : gset string) : gset string := {[x]} ∪ X.
Definition remove (x : string) (X : gset string) : gset string := X ∖ {[x]}.
Definition mem (x : string) (X : gset string) : bool := bool_decide (x ∈ X).

Definition metadata_line (ct : string) : string :=
  "Content-Type: " ++ ct ++ Dom.newline.

(** the file and its sidecar, on a disk that takes every write
  ([CrawlIO] below has the disk that can refuse) *)
Definition save (local_path body ct : string) (s : State) : State :=
  with_files (fun fs => <[local_path ++ ".metadata" := metadata_line ct]>
                          (<[local_path := body]> fs)) s.

Section Fetch.

Variable cfg : Config.
Variable env : Env.

Definition same_origin (u : string) : bool := PyStr.startswith u (top_page_url cfg).

Definition candidate (u : string) : bool :=
  PyStr.startswith u (top_page_url cfg) || negb (PyStr.startswith u "http").

(** an anchor target: resolved, cut at the fragment, trailing slashes off *)
Definition href_link (url href : string) : option string :=
  if candidate href then
    let full_url := PyStr.rstrip "/"%char (PyStr.split_head "#"%char (urljoin env url href)) in
    if same_origin full_url then Some full_url else None
  else None.

(** an image source: resolved only *)
Definition src_link (url src : string) : option string :=
  if candidate src then
    let full_url := urljoin env url src in
    if same_origin full_url then Some full_url else None
  else None.

Definition attr_nonempty (k : string) (n : Dom.node) : option string :=
  match n with
  | Dom.Text _ => None
  | Dom.Elem _ a _ =>
      match Dom.get_attr k a with
      | Some v => if String.eqb v EmptyString then None else Some v
      | None => None
      end
  end.

Definition tag_links (url : string) (tag : Dom.node) : list string :=
  (match attr_nonempty "href" tag with
   | Some href => match href_link url href with Some u => [u] | None => [] end
   | None => []
   end ++
   match attr_nonempty "src" tag with
   | Some src => match src_link url src with Some u => [u] | None => [] end
   | None => []
   end)%list.

Definition is_a_or_img (n : Dom.node) : bool := Dom.is_tag "a" n || Dom.is_tag "img" n.

Definition collect_links (url : string) (soup : list Dom.node) : gset string :=
  list_to_set (flat_map (tag_links url) (Dom.find_all is_a_or_img soup)).

(** the body of one successful, non-redirected attempt *)
Definition save_html (url local_path : string) (recursive : bool) (r : Response)
           (s : State) : gset string * State :=
  let soup := Dom.structural_edits (parse_html env (content r)) in
  let body := PyStr.replace "/tagcloud?tag=" "/tagcloud/" (str_soup env soup) in
  let ct := default "text/html" (content_type r) in
  let s1 := save local_path body ct s in
  let s2 := with_retry (remove url) s1 in
  (if recursive then collect_links url soup else ∅, s2).

(** [for attempt in range(WEB_RETRY_COUNT)], with [todo] attempts left;
  the last attempt is the one with [todo = 1] *)
Fixpoint html_attempts (todo : nat) (url local_path : string) (recursive : bool)
         (s : State) : option (gset string) * State :=
  match todo with
  | O => (None, s)
  | S k =>
      match get env url s with
      | (Answered r, s1) =>
          match history r with
          | _ :: _ => (None, with_skipped (add url) s1)
          | [] => let '(links, s2) := save_html url local_path recursive r s1 in
                  (Some links, s2)
          end
      | (Failed, s1) =>
          let s2 := if Nat.eqb k 0 then with_retry (add url) s1 else s1 in
          html_attempts k url local_path recursive s2
      end
  end.

Definition download_html (url local_path : string) (retry_mode recursive : bool)
           (s : State) : option (gset string) * State :=
  if retry_mode && negb (mem url (retry_urls s)) then (Some ∅, s)
  else html_attempts WEB_RETRY_COUNT url local_path recursive s.

End Fetch.

(** *** [load_sitemap] *)

Section Sitemap.

Variable env : Env.

(** one [<url>] element; [None] is the exception of [None.text] or of
  [strptime] *)
Definition read_entry (u : UrlElem) : option SitemapEntry :=
  match find_loc u with
  | None => None
  | Some loc_text =>
      match find_lastmod u with
      | None => None
      | Some lastmod_text =>
          let parsed :=
            match lastmod_text with
            | None => Some None
            | Some t => if String.eqb t EmptyString then Some None
                        else match strptime env t with
                             | Some d => Some (Some d)
                             | None => None
                             end
            end in
          match parsed with
          | None => None
          | Some lm =>
              Some {| loc := loc_text; lastmod := lm; changefreq := "never";
                      priority := QArith_base.Qmake 1 2 |}
          end
      end
  end.

Fixpoint read_entries (us : list UrlElem) : option (list SitemapEntry) :=
  match us with
  | [] => Some []
  | u :: us' =>
      match read_entry u with
      | None => None
      | Some e => match read_entries us' with
                  | None => None
                  | Some es => Some (e :: es)
                  end
      end
  end.

Definition loc_key (e : SitemapEntry) : string := default EmptyString (loc e).

(** [sitemap.sort(key=lambda x: x['loc'])]; comparing a [None] key
  is a TypeError, and with two or more entries every key is compared *)
Definition sort_entries (es : list SitemapEntry) : option (list SitemapEntry) :=
  match es with
  | [] | [_] => Some es
  | _ => if forallb (fun e => match loc e with Some _ => true | None => false end) es
         then Some (PySort.sort_by loc_key es)
         else None
  end.

(** every exception ends in the empty list *)
Definition load_sitemap (url : string) (s : State) : list SitemapEntry * State :=
  match get env url s with
  | (Failed, s1) => ([], s1)
  | (Answered r, s1) =>
      match parse_sitemap env (content r) with
      | None => ([], s1)
      | Some us =>
          match read_entries us with
          | None => ([], s1)
          | Some es => (default [] (sort_entries es), s1)
          end
      end
  end.

End Sitemap.

(** *** The driver *)

Section Driver.

Variable cfg : Config.
Variable env : Env.
Variable retry_mode : bool.

Definition local_path_of (url : string) : string :=
  PyStr.replace "/" "\" (PyStr.replace (top_page_url cfg) (top_local_dir cfg) url).

(** the raw download of the extension branch *)
Fixpoint raw_attempts (todo : nat) (url local_path : string) (s : State) : State :=
  match todo with
  | O => s
  | S k =>
      match get env url s with
      | (Answered r, s1) =>
          let ct := default "application/octet-stream" (content_type r) in
          with_processed (add url)
            (with_retry (remove url) (save local_path (content r) ct s1))
      | (Failed, s1) =>
          let s2 := if Nat.eqb k 0 then with_retry (add url) s1 else s1 in
          raw_attempts k url local_path s2
      end
  end.

Definition is_tagcloud_param (url : string) : bool :=
  PyStr.startswith url (top_page_url cfg ++ "/tagcloud?tag=").

(** the query cut at the head of the loop body *)
Definition cut_query (url : string) (s : State) : string * State :=
  if PyStr.contains "?"%char url && negb (is_tagcloud_param url)
  then (PyStr.split_head "?"%char url, with_skipped (add url) s)
  else (url, s).

Definition worklist_local_path (popped url : string) : string :=
  let local_path := local_path_of url in
  if is_tagcloud_param popped
  then PyStr.replace "\tagcloud?tag=" "\tagcloud\" local_path
  else local_path.

(** what a caller does with the result of [download_html] *)
Definition record_result (url : string) (merge : bool)
           (res : option (gset string) * State) : State :=
  match res with
  | (None, s) => s
  | (Some links, s) =>
      let s1 := with_processed (add url) s in
      if merge then with_page_links (fun pl => pl ∪ links) s1 else s1
  end.

(** one turn of [while page_links:], after [url = page_links.pop()] *)
Definition worklist_body (popped : string) (s : State) : State :=
  let '(url, s1) := cut_query popped s in
  if mem url (processed_urls s1) then s1
  else
    let local_path := worklist_local_path popped url in
    let ext := NtPath.splitext_ext local_path in
    let '(local_path', s2) :=
      if negb (String.eqb ext EmptyString) && negb (is_tagcloud_param popped)
      then (local_path, raw_attempts WEB_RETRY_COUNT url local_path s1)
      else (NtPath.join local_path (index_file_name cfg), s1) in
    record_result url true (download_html cfg env url local_path' retry_mode true s2).

Definition pop (url : string) (s : State) : State :=
  with_page_links (remove url) s.

(** the loop: [pop] hands out any member of the worklist *)
Inductive drains : State -> State -> Prop :=
  | drains_done s : page_links s = ∅ -> drains s s
  | drains_turn s url s' :
      url ∈ page_links s ->
      drains (worklist_body url (pop url s)) s' ->
      drains s s'.

(** the states the loop passes through *)
Inductive turns : State -> State -> Prop :=
  | turns_here s : turns s s
  | turns_turn s url s' :
      url ∈ page_links s ->
      turns (worklist_body url (pop url s)) s' ->
      turns s s'.

(** every URL of the worklist and of the three records is on the site *)
Definition origin_closed (s : State) : Prop :=
  forall u, u ∈ page_links s \/ u ∈ processed_urls s \/ u ∈ skipped_urls s \/ u ∈ retry_urls s ->
            same_origin cfg u = true.

(** the loop run with the least member popped each turn *)
Fixpoint drain_first (fuel : nat) (s : State) : option State :=
  match elements (page_links s) with
  | [] => Some s
  | url :: _ =>
      match fuel with
      | O => None
      | S k => drain_first k (worklist_body url (pop url s))
      end
  end.

(** the top page *)
Definition seed (s : State) : State :=
  match download_html cfg env (top_page_url cfg) (top_local_file cfg) retry_mode true s with
  | (None, s1) => with_page_links (fun _ => ∅) s1
  | (Some links, s1) =>
      with_processed (add (top_page_url cfg)) (with_page_links (fun _ => links) s1)
  end.

(** one sitemap entry, fetched without link extraction *)
Definition sitemap_step (url : string) (s : State) : State :=
  if mem url (processed_urls s) then s
  else
    let local_path := local_path_of url in
    let local_path' :=
      if String.eqb (NtPath.splitext_ext local_path) EmptyString
      then NtPath.join local_path (index_file_name cfg) else local_path in
    record_result url false (download_html cfg env url local_path' retry_mode false s).

(** [None]: an entry without a location stops the script *)
Fixpoint sitemap_pass (entries : list SitemapEntry) (s : State) : option State :=
  match entries with
  | [] => Some s
  | e :: rest =>
      match loc e with
      | None => None
      | Some url => sitemap_pass rest (sitemap_step url s)
      end
  end.

End Driver.

(** *** Start and end of a run *)

Section Run.

Variable cfg : Config.
Variable env : Env.

Definition write_lines (path : string) (urls : gset string) (s : State) : State :=
  with_files
    (fun fs => <[path := String.concat EmptyString
                           (map (fun u => u ++ Dom.newline) (PySort.sorted (elements urls)))]> fs)
    s.

(** the ledger file as the script finds it: its stripped lines, and
  retry mode, when it exists; created empty otherwise *)
Definition load_ledger (s : State) : bool * State :=
  match files s !! retry_file_path cfg with
  | Some text =>
      (true, with_retry (fun _ => list_to_set (map PyStr.strip (PyStr.file_lines text))) s)
  | None =>
      (false, with_files (fun fs => <[retry_file_path cfg := EmptyString]> fs) s)
  end.

Definition initial (fs : gmap string string) : State :=
  {| page_links := ∅; processed_urls := ∅; skipped_urls := ∅; retry_urls := ∅;
     files := fs; requests := [] |}.

(** [None]: the feed could not be loaded and the script exits *)
Definition prepare (fs : gmap string string)
  : option (bool * list SitemapEntry * State) :=
  match load_sitemap env (sitemap_url cfg) (initial fs) with
  | ([], _) => None
  | (sitemap_data, s) =>
      let '(retry_mode, s1) := load_ledger s in
      Some (retry_mode, sitemap_data, s1)
  end.

Definition dq : string := String "034"%char EmptyString.

(** [next((entry['lastmod'].strftime(...) ...), current_time)];
  [None]: the matching entry has no timestamp to format *)
Fixpoint lastmod_for (sitemap_data : list SitemapEntry) (url : string) : option string :=
  match sitemap_data with
  | [] => Some (current_time env)
  | e :: rest =>
      if bool_decide (loc e = Some url) then lastmod e
      else lastmod_for rest url
  end.

Definition output_entry (sitemap_data : list SitemapEntry) (url : string) : option string :=
  let priority := if String.eqb url (top_page_url cfg) then "0.8" else "0.5" in
  match lastmod_for sitemap_data url with
  | None => None
  | Some lm =>
      Some ("<url><loc>" ++ PyStr.replace "/tagcloud?tag=" "/tagcloud/" url
            ++ "</loc><lastmod>" ++ lm
            ++ "</lastmod><changefreq>never</changefreq><priority>" ++ priority
            ++ "</priority></url>")
  end.

Fixpoint output_entries (sitemap_data : list SitemapEntry) (urls : list string)
  : option (list string) :=
  match urls with
  | [] => Some []
  | u :: rest =>
      match output_entry sitemap_data u with
      | None => None
      | Some x => match output_entries sitemap_data rest with
                  | None => None
                  | Some xs => Some (x :: xs)
                  end
      end
  end.

Definition xml_declaration : string := "<?xml version=" ++ dq ++ "1.0" ++ dq ++ " ?>".

(** the sitemap for the search engine, its sidecar, and the feed URL
  counted as processed *)
Definition build_output (sitemap_data : list SitemapEntry) (s : State) : option State :=
  match output_entries sitemap_data (PySort.sorted (elements (processed_urls s))) with
  | None => None
  | Some sitemap_entries =>
      let sitemap_content :=
        xml_declaration ++ "<urlset xmlns=" ++ dq
        ++ "http://www.google.com/schemas/sitemap/0.84" ++ dq ++ ">"
        ++ String.concat EmptyString sitemap_entries ++ "</urlset>" in
      match pretty_xml env sitemap_content with
      | None => None
      | Some pretty =>
          let formatted := PyStr.replace (xml_declaration ++ Dom.newline) EmptyString pretty in
          Some (with_processed (add (sitemap_url cfg))
                  (with_files
                     (fun fs => <[sitemap_file_path cfg ++ ".metadata" :=
                                    metadata_line "application/xml"]>
                                  (<[sitemap_file_path cfg := formatted]> fs)) s))
      end
  end.

Definition write_logs (s : State) : State :=
  let s1 := write_lines (processed_file_path cfg) (processed_urls s) s in
  if bool_decide (skipped_urls s1 = ∅) then s1
  else write_lines (skipped_file_path cfg) (skipped_urls s1) s1.

(** the ledger is rewritten when failures remain and removed otherwise *)
Definition persist_ledger (s : State) : State :=
  if bool_decide (retry_urls s = ∅)
  then with_files (fun fs => delete (retry_file_path cfg) fs) s
  else write_lines (retry_file_path cfg) (retry_urls s) s.

Definition finish (sitemap_data : list SitemapEntry) (s : State) : option State :=
  match build_output sitemap_data s with
  | None => None
  | Some s1 => Some (persist_ledger (write_logs s1))
  end.

(** a run of the script that reaches its last line in state [final] *)
Definition completes (fs : gmap string string) (final : State) : Prop :=
  exists retry_mode sitemap_data s0 s1 s2,
    prepare fs = Some (retry_mode, sitemap_data, s0) /\
    drains cfg env retry_mode (seed cfg env retry_mode s0) s1 /\
    sitemap_pass cfg env retry_mode sitemap_data s1 = Some s2 /\
    finish sitemap_data s2 = Some final.

(** the same run with the least worklist member popped each turn *)
Definition run_first (fuel : nat) (fs : gmap string string) : option State :=
  match prepare fs with
  | None => None
  | Some (retry_mode, sitemap_data, s0) =>
      match drain_first cfg env retry_mode fuel (seed cfg env retry_mode s0) with
      | None => None
      | Some s1 =>
          match sitemap_pass cfg env retry_mode sitemap_data s1 with
          | None => None
          | Some s2 => finish sitemap_data s2
          end
      end
  end.

End Run.

(** *** Footprints *)

(** what one fetch of [url] may change: the worklist and the processed
  set not at all, the skipped set and the ledger by [url] at most *)
Definition fetch_frame (url : string) (s s' : State) : Prop :=
  page_links s' = page_links s /\
  processed_urls s' = processed_urls s /\
  skipped_urls s' ⊆ {[url]} ∪ skipped_urls s /\
  retry_urls s' ⊆ {[url]} ∪ retry_urls s.

(** every URL that [s'] has and [s] has not satisfies [P] *)
Definition within (P : string -> Prop) (s s' : State) : Prop :=
  forall u,
    (u ∈ page_links s' -> u ∈ page_links s \/ P u) /\
    (u ∈ processed_urls s' -> u ∈ processed_urls s \/ P u) /\
    (u ∈ skipped_urls s' -> u ∈ skipped_urls s \/ P u) /\
    (u ∈ retry_urls s' -> u ∈ retry_urls s \/ P u).

Definition on_site (cfg : Config) (u : string) : Prop := same_origin cfg u = true.

End Crawl.

(** ** The fetch and the worklist turn on a disk that can refuse

  In [Crawl] every write goes through.  Here [os.makedirs], [open] and
  [write] can raise an IOError, which the handlers of the two attempt
  loops catch together with the request errors. *)

Module CrawlIO.
Import Crawl.

(** what became of [with open(path, mode) as file: file.write(data)] *)
Inductive WriteReply : Type :=
  | Stored                  (* written in full *)
  | Refused                 (* [open] raised: the disk is as it was *)
  | Torn (rest : string).   (* [open] went through, [write] raised and left this content *)

(** The disk, asked after [n] requests with the files [fs] in place:
  [makedirs n fs path] tells whether
  [os.makedirs(os.path.dirname(path), exist_ok=True)] returns, and
  [write n fs path data] what writing [data] to [path] does. *)
Record Disk : Type := {
    makedirs : nat -> gmap string string -> string -> bool;
    write : nat -> gmap string string -> string -> string -> WriteReply
  }.

(** the disk of [Crawl] *)
Definition reliable : Disk :=
  {| makedirs := fun _ _ _ => true; write := fun _ _ _ _ => Stored |}.

Section Fetch.

Variable cfg : Config.
Variable env : Env.
Variable disk : Disk.

(** one file; [false] is an IOError *)
Definition put (path data : string) (s : State) : bool * State :=
  match write disk (length (requests s)) (files s) path data with
  | Stored => (true, with_files (fun fs => <[path := data]> fs) s)
  | Refused => (false, s)
  | Torn rest => (false, with_files (fun fs => <[path := rest]> fs) s)
  end.

(** the directory, the file and then its sidecar *)
Definition save (local_path body ct : string) (s : State) : bool * State :=
  if makedirs disk (length (requests s)) (files s) local_path then
    match put local_path body s with
    | (true, s1) => put (local_path ++ ".metadata") (metadata_line ct) s1
    | (false, s1) => (false, s1)
    end
  else (false, s).

(** the body of one non-redirected attempt; [None] is an IOError *)
Definition save_html (url local_path : string) (recursive : bool) (r : Response)
           (s : State) : option (gset string) * State :=
  let soup := Dom.structural_edits (parse_html env (content r)) in
  let body := PyStr.replace "/tagcloud?tag=" "/tagcloud/" (str_soup env soup) in
  let ct := default "text/html" (content_type r) in
  match save local_path body ct s with
  | (true, s1) =>
      (Some (if recursive then collect_links cfg env url soup else ∅),
       with_retry (remove url) s1)
  | (false, s1) => (None, s1)
  end.

(** the handler of lines 202 to 206: the ledger entry on the last attempt *)
Definition note_failure (k : nat) (url : string) (s : State) : State :=
  if Nat.eqb k 0 then with_retry (add url) s else s.

Fixpoint html_attempts (todo : nat) (url local_path : string) (recursive : bool)
         (s : State) : option (gset string) * State :=
  match todo with
  | O => (None, s)
  | S k =>
      match get env url s with
      | (Answered r, s1) =>
          match history r with
          | _ :: _ => (None, with_skipped (add url) s1)
          | [] =>
              match save_html url local_path recursive r s1 with
              | (Some links, s2) => (Some links, s2)
              | (None, s2) =>
                  html_attempts k url local_path recursive (note_failure k url s2)
              end
          end
      | (Failed, s1) => html_attempts k url local_path recursive (note_failure k url s1)
      end
  end.

Definition download_html (url local_path : string) (retry_mode recursive : bool)
           (s : State) : option (gset string) * State :=
  if retry_mode && negb (mem url (retry_urls s)) then (Some ∅, s)
  else html_attempts WEB_RETRY_COUNT url local_path recursive s.

(** the raw download of the extension branch *)
Fixpoint raw_attempts (todo : nat) (url local_path : string) (s : State) : State :=
  match todo with
  | O => s
  | S k =>
      match get env url s with
      | (Answered r, s1) =>
          let ct := default "application/octet-stream" (content_type r) in
          match save local_path (content r) ct s1 with
          | (true, s2) => with_processed (add url) (with_retry (remove url) s2)
          | (false, s2) => raw_attempts k url local_path (note_failure k url s2)
          end
      | (Failed, s1) => raw_attempts k url local_path (note_failure k url s1)
      end
  end.

(** one turn of [while page_links:], after [url = page_links.pop()] *)
Definition worklist_body (retry_mode : bool) (popped : string) (s : State) : State :=
  let '(url, s1) := cut_query cfg popped s in
  if mem url (processed_urls s1) then s1
  else
    let local_path := worklist_local_path cfg popped url in
    let ext := NtPath.splitext_ext local_path in
    let '(local_path', s2) :=
      if negb (String.eqb ext EmptyString) && negb (is_tagcloud_param cfg popped)
      then (local_path, raw_attempts WEB_RETRY_COUNT url local_path s1)
      else (NtPath.join local_path (index_file_name cfg), s1) in
    record_result url true (download_html url local_path' retry_mode true s2).

End Fetch.

End CrawlIO.

(** ** What a fetch and a turn do, for the statements below *)

Module TurnSpec.
Import Crawl.

(** the disk takes the page and its sidecar *)
Definition accepts (disk : CrawlIO.Disk) (n : nat) (fs : gmap string string)
           (local_path body ct : string) : Prop :=
  CrawlIO.makedirs disk n fs local_path = true /\
  CrawlIO.write disk n fs local_path body = CrawlIO.Stored /\
  CrawlIO.write disk n (<[local_path := body]> fs) (local_path ++ ".metadata")
                (metadata_line ct) = CrawlIO.Stored.

(** the page as [download_html] writes it *)
Definition page_body (env : Env) (r : Response) : string :=
  PyStr.replace "/tagcloud?tag=" "/tagcloud/"
    (str_soup env (Dom.structural_edits (parse_html env (content r)))).

(** from [s] to [s'] the URL [target] was fetched into [local_path]: every
  request went to [target], at least one unless the URL was processed
  already or the ledger gate held it back; no other file than the page and
  its sidecar was touched; and a clean first reply that the disk took is
  saved, its URL processed and its links in the worklist *)
Definition fetches (cfg : Config) (env : Env) (disk : CrawlIO.Disk) (retry_mode : bool)
           (target local_path : string) (s s' : State) : Prop :=
  (exists k, k <= WEB_RETRY_COUNT /\
             requests s' = (repeat target k ++ requests s)%list /\
             (target ∉ processed_urls s ->
              retry_mode = false \/ target ∈ retry_urls s -> 1 <= k)) /\
  (forall q, q <> local_path -> q <> local_path ++ ".metadata" ->
             files s' !! q = files s !! q) /\
  (forall r,
      target ∉ processed_urls s ->
      retry_mode = false \/ target ∈ retry_urls s ->
      web env (length (requests s)) target = Answered r ->
      history r = [] ->
      accepts disk (S (length (requests s))) (files s) local_path (page_body env r)
              (default "text/html" (content_type r)) ->
      files s' !! local_path = Some (page_body env r) /\
      files s' !! (local_path ++ ".metadata")
      = Some (metadata_line (default "text/html" (content_type r))) /\
      target ∈ processed_urls s' /\
      (target ∉ retry_urls s') /\
      collect_links cfg env target (Dom.structural_edits (parse_html env (content r)))
        ⊆ page_links s').

(** what a fetch of [url] into [local_path] with at most [todo] requests
  leaves of the state it started from *)
Definition fetched (url local_path : string) (todo : nat) (s s' : State) : Prop :=
  page_links s' = page_links s /\
  processed_urls s' = processed_urls s /\
  skipped_urls s ⊆ skipped_urls s' /\
  skipped_urls s' ⊆ {[url]} ∪ skipped_urls s /\
  retry_urls s' ⊆ {[url]} ∪ retry_urls s /\
  (forall q, q <> local_path -> q <> local_path ++ ".metadata" ->
             files s' !! q = files s !! q) /\
  exists k, k <= todo /\ requests s' = (repeat url k ++ requests s)%list.

End TurnSpec.

(** ** The origin of a URL in the words of the specification *)

Module SpecOrigin.

Definition ends_authority (c : ascii) : bool :=
  Ascii.eqb c "/"%char || Ascii.eqb c "?"%char || Ascii.eqb c "#"%char.

Fixpoint authority (s : string) : string :=
  match s with
  | EmptyString => EmptyString
  | String c s' => if ends_authority c then EmptyString else String c (authority s')
  end.

(** scheme, [://] and authority of an absolute URL *)
Fixpoint origin (u : string) : option string :=
  match u with
  | EmptyString => None
  | String c u' =>
      match u' with
      | String ":" (String "/" (String "/" rest)) =>
          Some (String c ("://" ++ authority rest))
      | _ => option_map (String c) (origin u')
      end
  end.

(** two URLs of one origin *)
Definition equal_origin (a b : string) : bool :=
  match origin a, origin b with
  | Some x, Some y => String.eqb x y
  | _, _ => false
  end.

End SpecOrigin.

(** ** The upload pass of [AwsS3Upload.py] *)

Module Upload.

Definition local_path (bucket : string) : string := ".\" ++ bucket.
Definition retry_file_path (bucket : string) : string := ".\" ++ bucket ++ "_upload_retry.txt".

Inductive LogRecord : Type :=
  | WarnNoMetadata (metadata_file_path : string)
  | WarnNoContentType (metadata_file_path : string)
  | InfoUploaded (file_path s3_key : string)
  | ErrorUpload (file_path s3_key : string).

Record Object : Type := { obj_file : string; obj_key : string; obj_type : string }.

Record State : Type := {
    retry_files : gset string;
    uploaded : list Object;          (* newest first *)
    log : list LogRecord;            (* newest first *)
    processed_files : nat
  }.

(** how the walk ends: at its last file, or at an exception nobody catches *)
Inductive Outcome : Type :=
  | Finished (s : State)
  | Crashed (s : State).

(** the value of [content_type] after the sidecar has been read *)
Fixpoint read_content_type (lines : list string) : option string :=
  match lines with
  | [] => None
  | line :: rest =>
      if PyStr.startswith line "Content-Type:"
      then Some (PyStr.strip (String.substring 13 (String.length line - 13) line))
      else read_content_type rest
  end.

(** [os.path.relpath] for a file below [base] *)
Definition relpath (file_path base : string) : string :=
  if String.prefix (base ++ "\") file_path
  then String.substring (String.length base + 1)
         (String.length file_path - (String.length base + 1)) file_path
  else file_path.

Definition s3_key_of (bucket file_path : string) : string :=
  let k := PyStr.replace "\" "/" (relpath file_path (local_path bucket)) in
  if PyStr.startswith k "$root/"
  then String.substring 6 (String.length k - 6) k else k.

Section Walk.

Variable bucket : string.
  (* the local files *)
Variable fs : gmap string string.
  (* [s3_client.upload_file]: [false] when it raises *)
Variable upload_file : string -> string -> string -> bool.
Variable retry_mode : bool.

Definition logged (r : LogRecord) (s : State) : State :=
  {| retry_files := retry_files s; uploaded := uploaded s;
     log := r :: log s; processed_files := processed_files s |}.

(** the body of the inner loop for one file name; [inl]: on to the
  next file, [inr]: the walk is over *)
Definition visit (root file : string) (s : State) : State + State :=
  if PyStr.endswith file ".metadata" then inl s
  else
    let file_path := NtPath.join root file in
    let metadata_file_path := file_path ++ ".metadata" in
    if retry_mode && negb (bool_decide (file_path ∈ retry_files s)) then inl s
    else
      match fs !! metadata_file_path with
      | None => inl (logged (WarnNoMetadata metadata_file_path) s)
      | Some text =>
          match read_content_type (PyStr.file_lines text) with
          | None => inl (logged (WarnNoContentType metadata_file_path) s)
          | Some content_type =>
              if String.eqb content_type EmptyString
              then inl (logged (WarnNoContentType metadata_file_path) s)
              else
                let s3_key := s3_key_of bucket file_path in
                if upload_file file_path s3_key content_type
                then inl {| retry_files := retry_files s ∖ {[file_path]};
                            uploaded := {| obj_file := file_path; obj_key := s3_key;
                                           obj_type := content_type |} :: uploaded s;
                            log := InfoUploaded file_path s3_key :: log s;
                            processed_files := S (processed_files s) |}
                else
                  (* [retry_file.add(file_path)]: [retry_file] is not the
                     set but the ledger's file object, or unbound; the
                     handler itself raises *)
                  inr (logged (ErrorUpload file_path s3_key) s)
          end
      end.

Fixpoint visit_files (root : string) (names : list string) (s : State) : State + State :=
  match names with
  | [] => inl s
  | f :: rest =>
      match visit root f s with
      | inl s1 => visit_files root rest s1
      | inr s1 => inr s1
      end
  end.

(** [for root, dirs, files in os.walk(local_path)] *)
Fixpoint walk (tree : list (string * list string)) (s : State) : Outcome :=
  match tree with
  | [] => Finished s
  | (root, names) :: rest =>
      match visit_files root names s with
      | inl s1 => walk rest s1
      | inr s1 => Crashed s1
      end
  end.

End Walk.

(** the ledger as read at start *)
Definition start (bucket : string) (fs : gmap string string) : bool * State :=
  match fs !! retry_file_path bucket with
  | Some text =>
      (true, {| retry_files := list_to_set (map PyStr.strip (PyStr.file_lines text));
                uploaded := []; log := []; processed_files := 0 |})
  | None =>
      (false, {| retry_files := ∅; uploaded := []; log := []; processed_files := 0 |})
  end.

(** the ledger file after a walk that reached its end: rewritten when
  files remain to be retried, removed otherwise *)
Definition ledger_after (s : State) : option string :=
  if bool_decide (retry_files s = ∅) then None
  else Some (String.concat EmptyString
               (map (fun f => f ++ String "010"%char EmptyString) (elements (retry_files s)))).

Definition upload_pass (bucket : string) (fs : gmap string string)
           (upload_file : string -> string -> string -> bool)
           (tree : list (string * list string)) : Outcome :=
  let '(retry_mode, s) := start bucket fs in
  walk bucket fs upload_file retry_mode tree s.

End Upload.

(** ** A small site, used to run the scripts on concrete input *)

Module Demo.
Import Crawl.

Definition cfg : Config :=
  {| domain_name := "ex.com"; top_local_name := "mirror";
     sitemap_url_path := "/sitemap.xml"; index_file_name := "index.html" |}.

Definition page (body : string) : Reply :=
  Answered {| history := []; content := body; content_type := Some "text/html" |}.

(** the top page: a query link with a fragment, a tagcloud link, a link
  to another site and an image *)
Definition top_soup : list Dom.node :=
  [ Dom.Elem "a" [("href", "https://ex.com/p?x=1#frag")] [Dom.Text "p"];
    Dom.Elem "a" [("href", "/tagcloud?tag=news")] [Dom.Text "news"];
    Dom.Elem "a" [("href", "https://other.com/x")] [Dom.Text "x"];
    Dom.Elem "img" [("src", "/a.png")] [] ].

Definition render_attr (kv : string * string) : string :=
  " " ++ fst kv ++ "=" ++ dq ++ snd kv ++ dq.

Fixpoint render_node (n : Dom.node) : string :=
  match n with
  | Dom.Text s => s
  | Dom.Elem t a cs =>
      "<" ++ t ++ String.concat EmptyString (map render_attr a) ++ ">"
      ++ String.concat EmptyString (map render_node cs) ++ "</" ++ t ++ ">"
  end.

Definition render (l : list Dom.node) : string :=
  String.concat EmptyString (map render_node l).

Definition site (asset : Reply) (url : string) : Reply :=
  if String.eqb url "https://ex.com/sitemap.xml"
  then Answered {| history := []; content := "FEED"; content_type := Some "application/xml" |}
  else if String.eqb url "https://ex.com" then page "TOP"
  else if String.eqb url "https://ex.com/p" then page "P"
  else if String.eqb url "https://ex.com/p?x=1" then page "P1"
  else if String.eqb url "https://ex.com/tagcloud?tag=news" then page "NEWS"
  else if String.eqb url "https://ex.com/a.png" then asset
  else Failed.

Definition entry_of (l : string) (lm : option string) : UrlElem :=
  {| find_loc := Some (Some l); find_lastmod := option_map Some lm;
     find_changefreq := Some (Some "daily"); find_priority := Some (Some "1.0") |}.

(** the site: [asset] is what the image URL answers, [feed] the [<url>]
  elements of its sitemap.  References on the pages are absolute or
  start at the root, where [urljoin] is the plain concatenation below. *)
Definition env (asset : Reply) (feed : list UrlElem) : Env :=
  {| web := fun _ url => site asset url;
     parse_html := fun c => if String.eqb c "TOP" then top_soup else [Dom.Text c];
     str_soup := render;
     urljoin := fun base href =>
                  if String.prefix "http" href then href else "https://ex.com" ++ href;
     parse_sitemap := fun c => if String.eqb c "FEED" then Some feed else None;
     strptime := fun t => Some t;
     current_time := "2025-01-01T00:00:00";
     pretty_xml := fun x => Some x |}.

Definition png : Reply :=
  Answered {| history := []; content := "PNG"; content_type := Some "image/png" |}.

Definition tagged_asset : Reply :=
  Answered {| history := []; content := "see /tagcloud?tag=news";
              content_type := Some "text/plain" |}.

Definition moved_png : Reply :=
  Answered {| history := ["https://ex.com/a.png"]; content := "PNG";
              content_type := Some "image/png" |}.

Definition feed : list UrlElem :=
  [ entry_of "https://ex.com/p?x=1" (Some "2024-01-01T00:00:00+0900") ].

(** a state of retry mode: the ledger names one other page *)
Definition retry_state : State :=
  with_retry (fun _ => {["https://ex.com/q"]}) (initial ∅).

(** a ledger file that names the top page *)
Definition ledger_fs : gmap string string :=
  {[ retry_file_path cfg := "https://ex.com" ++ Dom.newline ]}.

(** a page with one link *)
Definition linking (href : string) : list Dom.node :=
  [ Dom.Elem "div" [("class", "main")]
      [ Dom.Elem "a" [("href", href)] [Dom.Text "next"] ] ].

(** a site whose top page links to a host that begins like its own *)
Definition prefix_env : Env :=
  {| web := fun _ url =>
              if String.eqb url "https://ex.com" then page "TOP"
              else if String.eqb url "https://ex.com.evil.org/x" then page "X"
              else Failed;
     parse_html := fun c => if String.eqb c "TOP" then linking "https://ex.com.evil.org/x"
                            else [Dom.Text c];
     str_soup := render;
     urljoin := fun base href =>
                  if String.prefix "http" href then href else "https://ex.com" ++ href;
     parse_sitemap := fun _ => None;
     strptime := fun t => Some t;
     current_time := "2025-01-01T00:00:00";
     pretty_xml := fun x => Some x |}.

(** membership tests on the outcome of a run *)
Definition in_processed (o : option State) (u : string) : bool :=
  match o with Some s => mem u (processed_urls s) | None => false end.
Definition in_skipped (o : option State) (u : string) : bool :=
  match o with Some s => mem u (skipped_urls s) | None => false end.

End Demo.

Module DemoUpload.

Definition bucket : string := "bkt".

(** two pages with their sidecars *)
Definition fs : gmap string string :=
  <[".\bkt\a.html.metadata" := Crawl.metadata_line "text/html"]>
    (<[".\bkt\b.html.metadata" := Crawl.metadata_line "text/html"]>
       (<[".\bkt\a.html" := "A"]> (<[".\bkt\b.html" := "B"]> ∅))).

Definition tree : list (string * list string) :=
  [ (".\bkt", ["a.html"; "a.html.metadata"; "b.html"; "b.html.metadata"]) ].

(** the store refuses the first page and takes everything else *)
Definition refuse_a (file_path s3_key content_type : string) : bool :=
  negb (String.eqb file_path ".\bkt\a.html").

Definition accept_all (file_path s3_key content_type : string) : bool := true.

End DemoUpload.

Module DemoFlaky.
Import Crawl.

(** a site whose first [k] requests fail and whose later ones answer [body] *)
Definition env (k : nat) (body : string) : Env :=
  {| web := fun n _ => if Nat.ltb n k then Failed else Demo.page body;
     parse_html := fun c => [Dom.Text c];
     str_soup := Demo.render;
     urljoin := fun base href =>
                  if String.prefix "http" href then href else "https://ex.com" ++ href;
     parse_sitemap := fun _ => None;
     strptime := fun t => Some t;
     current_time := "2025-01-01T00:00:00";
     pretty_xml := fun x => Some x |}.

(** a disk that takes the page and refuses the sidecar *)
Definition no_sidecar : CrawlIO.Disk :=
  {| CrawlIO.makedirs := fun _ _ _ => true;
     CrawlIO.write := fun _ _ path _ =>
       if PyStr.endswith path ".metadata" then CrawlIO.Refused else CrawlIO.Stored |}.

(** a disk on which no directory can be made *)
Definition no_directory : CrawlIO.Disk :=
  {| CrawlIO.makedirs := fun _ _ _ => false;
     CrawlIO.write := fun _ _ _ _ => CrawlIO.Stored |}.

End DemoFlaky.

Module CrawlOrder.
Import Crawl.

(** nothing leaves the processed set, the skipped set or the mirror *)
Definition grows (s s' : State) : Prop :=
  processed_urls s ⊆ processed_urls s' /\
  skipped_urls s ⊆ skipped_urls s' /\
  dom (files s) ⊆ dom (files s').

End CrawlOrder.

Module UploadSpec.
Import Upload.

Definition outcome_state (o : Outcome) : State :=
  match o with
  | Finished s => s
  | Crashed s => s
  end.

(** an object in the store that stands for a mirrored file other than a
    sidecar, sent under the key of its path with the non-empty content type
    of its sidecar, and accepted *)
Definition from_sidecar (bucket : string) (fs : gmap string string)
           (upload_file : string -> string -> string -> bool) (o : Object) : Prop :=
  exists root file text,
    obj_file o = NtPath.join root file /\
    PyStr.endswith file ".metadata" = false /\
    fs !! (obj_file o ++ ".metadata") = Some text /\
    read_content_type (PyStr.file_lines text) = Some (obj_type o) /\
    obj_type o <> EmptyString /\
    obj_key o = s3_key_of bucket (obj_file o) /\
    upload_file (obj_file o) (obj_key o) (obj_type o) = true.

(** what the walk keeps true of its state; [ledger] is the retry set it
    started from *)
Definition kept (bucket : string) (fs : gmap string string)
           (upload_file : string -> string -> string -> bool) (retry_mode : bool)
           (ledger : gset string) (s : State) : Prop :=
  Forall (from_sidecar bucket fs upload_file) (uploaded s) /\
  processed_files s = length (uploaded s) /\
  retry_files s ⊆ ledger /\
  (retry_mode = true -> Forall (fun o => obj_file o ∈ ledger) (uploaded s)).

End UploadSpec.

(** * Properties *)

(** ** The document tree *)

Module DomFacts.
Import Dom.

Lemma node_forall_ind (P : node -> Prop) :
  (forall s, P (Text s)) ->
  (forall t a cs, Forall P cs -> P (Elem t a cs)) ->
  forall n, P n.
Proof.
  intros HT HE. fix IH 1. intros [s | t a cs].
  - apply HT.
  - apply HE. induction cs as [| c cs IHcs]; constructor; [apply IH | exact IHcs].
Qed.

Lemma count_app q (l1 l2 : list node) :
  count q (l1 ++ l2)%list = count q l1 + count q l2.
Proof. unfold count. rewrite List.map_app, list_sum_app. reflexivity. Qed.

Lemma count_cons q n (l : list node) :
  count q (n :: l) = count_node q n + count q l.
Proof. reflexivity. Qed.

Lemma count_node_elem q t a cs :
  count_node q (Elem t a cs) = (if q (Elem t a cs) then 1 else 0) + count q cs.
Proof. reflexivity. Qed.

Section Shallow.
(** a test that looks at the tag and its attributes only *)
Variable q : node -> bool.
Hypothesis q_shallow : forall t a cs cs', q (Elem t a cs) = q (Elem t a cs').

Lemma count_cut_widgets_node n : count q (cut_widgets_node n) <= count_node q n.
Proof.
  induction n as [s | t a cs IH] using node_forall_ind.
  - cbn. lia.
  - cbn [cut_widgets_node]. destruct (is_ranking_widget (Elem t a cs)).
    + cbn. lia.
    + rewrite count_cons, !count_node_elem, (q_shallow t a _ cs).
      assert (count q (flat_map cut_widgets_node cs) <= count q cs) as Hle.
      { induction IH as [| c cs' Hc _ IHcs]; [reflexivity |].
        cbn [flat_map]. rewrite count_app, count_cons. lia. }
      cbn. lia.
Qed.

Lemma count_cut_widgets l : count q (cut_widgets l) <= count q l.
Proof.
  induction l as [| n l IH]; [reflexivity |].
  unfold cut_widgets in *. cbn [flat_map]. rewrite count_app, count_cons.
  pose proof (count_cut_widgets_node n). lia.
Qed.

Section Rewrite.
Variable r : node -> bool.
Variable f : node -> list node.

Lemma first_rewrite_count_le k (l l' : list node) :
  Forall (fun n => forall o, rewrite_node r f n = Some o -> count q o <= count_node q n + k) l ->
  rewrite_first r f l = Some l' -> count q l' <= count q l + k.
Proof.
  intros HF. revert l'. induction HF as [| n l Hn _ IH]; intros l' H; [discriminate |].
  unfold rewrite_first in *. cbn [first_rewrite] in H.
  destruct (rewrite_node r f n) as [o |] eqn:E.
  - injection H as <-. rewrite count_app, count_cons. specialize (Hn o eq_refl). lia.
  - destruct (first_rewrite (rewrite_node r f) l) as [l1 |] eqn:E1; [| discriminate].
    injection H as <-. rewrite !count_cons. specialize (IH l1 eq_refl). lia.
Qed.

Lemma rewrite_node_count_le k :
  (forall n, r n = true -> count q (f n) <= count_node q n + k) ->
  forall n o, rewrite_node r f n = Some o -> count q o <= count_node q n + k.
Proof.
  intros Hf. induction n as [s | t a cs IH] using node_forall_ind; intros o H.
  - cbn in H. destruct (r (Text s)) eqn:E; [| discriminate].
    injection H as <-. apply Hf, E.
  - cbn [rewrite_node] in H. destruct (r (Elem t a cs)) eqn:E.
    + injection H as <-. apply Hf, E.
    + destruct (first_rewrite (rewrite_node r f) cs) as [cs' |] eqn:E1; [| discriminate].
      injection H as <-.
      rewrite count_cons, !count_node_elem, (q_shallow t a _ cs).
      pose proof (first_rewrite_count_le k cs cs' IH E1). cbn. lia.
Qed.

Lemma rewrite_first_count_le k l l' :
  (forall n, r n = true -> count q (f n) <= count_node q n + k) ->
  rewrite_first r f l = Some l' -> count q l' <= count q l + k.
Proof.
  intros Hf. apply first_rewrite_count_le, Forall_forall.
  intros n _. apply rewrite_node_count_le, Hf.
Qed.

Lemma first_rewrite_count_ge j (l l' : list node) :
  Forall (fun n => forall o, rewrite_node r f n = Some o -> j <= count q o) l ->
  rewrite_first r f l = Some l' -> j <= count q l'.
Proof.
  intros HF. revert l'. induction HF as [| n l Hn _ IH]; intros l' H; [discriminate |].
  unfold rewrite_first in *. cbn [first_rewrite] in H.
  destruct (rewrite_node r f n) as [o |] eqn:E.
  - injection H as <-. rewrite count_app. specialize (Hn o eq_refl). lia.
  - destruct (first_rewrite (rewrite_node r f) l) as [l1 |] eqn:E1; [| discriminate].
    injection H as <-. rewrite !count_cons. specialize (IH l1 eq_refl). lia.
Qed.

Lemma rewrite_first_count_ge j l l' :
  (forall n, r n = true -> j <= count q (f n)) ->
  rewrite_first r f l = Some l' -> j <= count q l'.
Proof.
  intros Hf. apply first_rewrite_count_ge, Forall_forall. intros n _. revert n.
  induction n as [s | t a cs IH] using node_forall_ind; intros o H.
  - cbn in H. destruct (r (Text s)) eqn:E; [| discriminate].
    injection H as <-. apply Hf, E.
  - cbn [rewrite_node] in H. destruct (r (Elem t a cs)) eqn:E.
    + injection H as <-. apply Hf, E.
    + destruct (first_rewrite (rewrite_node r f) cs) as [cs' |] eqn:E1; [| discriminate].
      injection H as <-. rewrite count_cons, count_node_elem.
      pose proof (first_rewrite_count_ge j cs cs' IH E1). lia.
Qed.
End Rewrite.
End Shallow.

Lemma rewrite_node_none r f n : rewrite_node r f n = None <-> count_node r n = 0.
Proof.
  induction n as [s | t a cs IH] using node_forall_ind.
  - cbn. destruct (r (Text s)); split; intros H; try discriminate; reflexivity.
  - cbn [rewrite_node]. rewrite count_node_elem. destruct (r (Elem t a cs)).
    + split; intros H; discriminate.
    + assert (first_rewrite (rewrite_node r f) cs = None <-> count r cs = 0) as Hcs.
      { induction IH as [| c cs' Hc _ IHcs]; [split; reflexivity |].
        cbn [first_rewrite]. rewrite count_cons.
        destruct (rewrite_node r f c) as [o |] eqn:E.
        - split; [discriminate |]. intros H.
          assert (count_node r c = 0) as H0 by lia. apply Hc in H0. discriminate.
        - assert (count_node r c = 0) as -> by (apply Hc; reflexivity).
          destruct (first_rewrite (rewrite_node r f) cs') eqn:E1; cbn.
          + split; [discriminate |]. intros H. apply IHcs in H. discriminate.
          + split; [intros _; apply IHcs; reflexivity | reflexivity]. }
      destruct (first_rewrite (rewrite_node r f) cs) eqn:E1; cbn.
      * split; [discriminate |]. intros H. apply Hcs in H. discriminate.
      * split; [intros _; apply Hcs; reflexivity | reflexivity].
Qed.

Lemma rewrite_first_none r f l : rewrite_first r f l = None <-> count r l = 0.
Proof.
  unfold rewrite_first. induction l as [| c l IH]; [split; reflexivity |].
  cbn [first_rewrite]. rewrite count_cons.
  destruct (rewrite_node r f c) as [o |] eqn:E.
  - split; [discriminate |]. intros H.
    assert (count_node r c = 0) as H0 by lia. apply (rewrite_node_none r f) in H0. congruence.
  - assert (count_node r c = 0) as -> by (apply (rewrite_node_none r f); exact E).
    destruct (first_rewrite (rewrite_node r f) l) eqn:E1; cbn.
    + split; [discriminate |]. intros H. apply IH in H. discriminate.
    + split; [intros _; apply IH; reflexivity | reflexivity].
Qed.

Lemma tag_with_id_shallow tg i t a cs cs' :
  tag_with_id tg i (Elem t a cs) = tag_with_id tg i (Elem t a cs').
Proof. reflexivity. Qed.

Lemma count_cut_view_sp tg i l :
  count (tag_with_id tg i) (cut_view_sp l) <= count (tag_with_id tg i) l.
Proof.
  unfold cut_view_sp. destruct (rewrite_first is_view_sp (fun _ => []) l) as [l' |] eqn:E; [| lia].
  pose proof (rewrite_first_count_le _ (tag_with_id_shallow tg i)
                is_view_sp (fun _ => []) 0 l l') as H.
  rewrite Nat.add_0_r in H. apply H; [| exact E]. intros n _. cbn. lia.
Qed.

(** the two removals never add an element with a given tag and id *)
Lemma count_removals tg i l :
  count (tag_with_id tg i) (cut_view_sp (cut_widgets l)) <= count (tag_with_id tg i) l.
Proof.
  etransitivity; [apply count_cut_view_sp |].
  apply count_cut_widgets, tag_with_id_shallow.
Qed.

Lemma count_banner_positive n :
  is_header_banner n = true -> 1 <= count_node is_header_banner n.
Proof. intros H. destruct n; cbn in *; [discriminate |]. unfold is_header_banner in H. cbn in H. rewrite H. lia. Qed.

Lemma place_banner_count l :
  (1 <= count is_header_banner l ->
   1 <= count is_header_banner (place_banner l) <= count is_header_banner l) /\
  (count is_header_banner l = 0 -> 1 <= count is_body_grid l ->
   count is_header_banner (place_banner l) = 1) /\
  (count is_header_banner l = 0 -> count is_body_grid l = 0 -> place_banner l = l).
Proof.
  unfold place_banner.
  destruct (rewrite_first is_header_banner (fun _ => new_banner) l) as [l1 |] eqn:E1.
  - assert (count is_header_banner l <> 0) as Hpos.
    { intros H0. apply (rewrite_first_none _ (fun _ => new_banner)) in H0. congruence. }
    split; [| split]; try (intros; lia). intros _. split.
    + apply (rewrite_first_count_ge is_header_banner is_header_banner (fun _ => new_banner) 1 l l1);
        [| exact E1]. intros n _. cbn. lia.
    + pose proof (rewrite_first_count_le _ (tag_with_id_shallow "div" "headerBanner")
                    is_header_banner (fun _ => new_banner) 0 l l1) as H.
      rewrite Nat.add_0_r in H. apply H; [| exact E1].
      intros n Hn. apply count_banner_positive in Hn.
      change (count (tag_with_id "div" "headerBanner") new_banner) with 1.
      fold is_header_banner. lia.
  - apply rewrite_first_none in E1.
    destruct (rewrite_first is_body_grid (fun n => (new_banner ++ [n])%list) l) as [l2 |] eqn:E2.
    + assert (count is_body_grid l <> 0) as Hpos.
      { intros H0. apply (rewrite_first_none _ (fun n => (new_banner ++ [n])%list)) in H0. congruence. }
      split; [| split]; try (intros; lia). intros _ _.
      pose proof (rewrite_first_count_le _ (tag_with_id_shallow "div" "headerBanner")
                    is_body_grid (fun n => (new_banner ++ [n])%list) 1 l l2) as Hle.
      pose proof (rewrite_first_count_ge is_header_banner
                    is_body_grid (fun n => (new_banner ++ [n])%list) 1 l l2) as Hge.
      assert (count is_header_banner l2 <= count is_header_banner l + 1) as H1.
      { apply Hle; [| exact E2]. intros n _. rewrite count_app, count_cons. cbn. lia. }
      assert (1 <= count is_header_banner l2) as H2.
      { apply Hge; [| exact E2]. intros n _. rewrite count_app. cbn. lia. }
      lia.
    + apply rewrite_first_none in E2.
      split; [| split]; try (intros; lia). reflexivity.
Qed.

End DomFacts.

(** C10, as stated, fails: a page that carries the banner comes out of a
  second application with one more line feed after the banner (and a page
  with two [view_sp] items loses one per application). *)
Lemma structural_edits_not_idempotent :
  ~ (forall d, Dom.structural_edits (Dom.structural_edits d) = Dom.structural_edits d).
Proof.
  intros H. specialize (H [Dom.Elem "div" [("id", "headerBanner")] []]).
  vm_compute in H. discriminate H.
Qed.

Example structural_edits_view_sp_twice :
  let d := [Dom.Elem "li" [("id", "view_sp")] []; Dom.Elem "li" [("id", "view_sp")] []] in
  Dom.structural_edits d = [Dom.Elem "li" [("id", "view_sp")] []] /\
  Dom.structural_edits (Dom.structural_edits d) = [].
Proof. split; reflexivity. Qed.

(** C10 (amended): the structural edits never duplicate the archive
  banner.  Applying them to an already-edited document does not raise the
  number of [headerBanner] elements, and one application to a document with
  [n] of them leaves at most [max 1 n]. *)
Theorem structural_edits_banner_not_duplicated (d : list Dom.node) :
  Dom.count Dom.is_header_banner (Dom.structural_edits (Dom.structural_edits d))
    <= Dom.count Dom.is_header_banner (Dom.structural_edits d) /\
  Dom.count Dom.is_header_banner (Dom.structural_edits d)
    <= Nat.max 1 (Dom.count Dom.is_header_banner d).
Proof.
  assert (forall l, Dom.count Dom.is_header_banner (Dom.structural_edits l)
                    <= Nat.max 1 (Dom.count Dom.is_header_banner l)) as Hone.
  { intros l. unfold Dom.structural_edits.
    pose proof (DomFacts.count_removals "div" "headerBanner" l) as Hrm.
    fold Dom.is_header_banner in Hrm.
    destruct (DomFacts.place_banner_count (Dom.cut_view_sp (Dom.cut_widgets l))) as (H1 & H2 & H3).
    destruct (Nat.eq_dec (Dom.count Dom.is_header_banner (Dom.cut_view_sp (Dom.cut_widgets l))) 0) as [Hz | Hnz].
    - destruct (Nat.eq_dec (Dom.count Dom.is_body_grid (Dom.cut_view_sp (Dom.cut_widgets l))) 0) as [Hg | Hg].
      + rewrite (H3 Hz Hg). lia.
      + rewrite (H2 Hz); lia.
    - specialize (H1 ltac:(lia)). lia. }
  split; [| apply Hone].
  set (e := Dom.structural_edits d).
  unfold Dom.structural_edits at 1.
  set (l2 := Dom.cut_view_sp (Dom.cut_widgets e)).
  pose proof (DomFacts.count_removals "div" "headerBanner" e) as Hp.
  pose proof (DomFacts.count_removals "div" "bodyGrid" e) as Hg.
  fold Dom.is_header_banner in Hp. fold Dom.is_body_grid in Hg. fold l2 in Hp, Hg.
  destruct (DomFacts.place_banner_count l2) as (H1 & H2 & H3).
  destruct (Nat.eq_dec (Dom.count Dom.is_header_banner l2) 0) as [Hz | Hnz].
  - destruct (Nat.eq_dec (Dom.count Dom.is_body_grid l2) 0) as [Hgz | Hgnz].
    + rewrite (H3 Hz Hgz). lia.
    + rewrite (H2 Hz ltac:(lia)).
      (* a body grid survives in [e], so the first application placed a banner *)
      subst e. unfold Dom.structural_edits in *.
      set (l1 := Dom.cut_view_sp (Dom.cut_widgets d)) in *.
      destruct (DomFacts.place_banner_count l1) as (G1 & G2 & G3).
      destruct (Nat.eq_dec (Dom.count Dom.is_header_banner l1) 0) as [Kz | Knz].
      * destruct (Nat.eq_dec (Dom.count Dom.is_body_grid l1) 0) as [Kg | Kg].
        -- rewrite (G3 Kz Kg) in Hg. lia.
        -- rewrite (G2 Kz); lia.
      * specialize (G1 ltac:(lia)). lia.
  - specialize (H1 ltac:(lia)). lia.
Qed.

(** ** [load_sitemap] *)

Module SitemapFacts.
Import Crawl.

Lemma read_entry_fixed env u e :
  read_entry env u = Some e ->
  changefreq e = "never" /\ priority e = QArith_base.Qmake 1 2 /\ find_loc u = Some (loc e).
Proof.
  unfold read_entry. destruct (find_loc u) as [l |]; [| discriminate].
  destruct (find_lastmod u) as [[t |] |]; try discriminate.
  - destruct (String.eqb t EmptyString).
    + intros [= <-]. auto.
    + destruct (strptime env t); [| discriminate]. intros [= <-]. auto.
  - intros [= <-]. auto.
Qed.

Lemma read_entry_no_lastmod env u : find_lastmod u = None -> read_entry env u = None.
Proof. intros H. unfold read_entry. rewrite H. destruct (find_loc u); reflexivity. Qed.

Lemma read_entries_no_lastmod env us u :
  In u us -> find_lastmod u = None -> read_entries env us = None.
Proof.
  intros Hin Hu. induction us as [| v us IH]; [destruct Hin |].
  cbn. destruct Hin as [-> | Hin].
  - rewrite (read_entry_no_lastmod env u Hu). reflexivity.
  - destruct (read_entry env v); [| reflexivity]. rewrite (IH Hin). reflexivity.
Qed.

Lemma read_entries_fixed env us es :
  read_entries env us = Some es ->
  Forall (fun e => changefreq e = "never" /\ priority e = QArith_base.Qmake 1 2) es.
Proof.
  revert es. induction us as [| u us IH]; intros es H; cbn in H.
  - injection H as <-. constructor.
  - destruct (read_entry env u) as [e |] eqn:E; [| discriminate].
    destruct (read_entries env us) as [es' |]; [| discriminate].
    injection H as <-. constructor; [| apply IH; reflexivity].
    apply read_entry_fixed in E. tauto.
Qed.

Lemma insert_by_Forall {A} (key : A -> string) (P : A -> Prop) x l :
  P x -> Forall P l -> Forall P (PySort.insert_by key x l).
Proof.
  intros Hx Hl. induction Hl as [| y l Hy Hl IH]; cbn.
  - constructor; [exact Hx | constructor].
  - destruct (String.leb (key y) (key x)); constructor; auto.
Qed.

Lemma sort_by_Forall {A} (key : A -> string) (P : A -> Prop) l :
  Forall P l -> Forall P (PySort.sort_by key l).
Proof.
  unfold PySort.sort_by. intros Hl.
  assert (forall acc, Forall P acc -> Forall P (fold_left (fun a x => PySort.insert_by key x a) l acc)) as H.
  { induction Hl as [| x l Hx Hl IH]; intros acc Hacc; cbn; [exact Hacc |].
    apply IH, insert_by_Forall; assumption. }
  apply H. constructor.
Qed.

(** whatever the feed says, every entry that is returned carries the
  fixed change frequency and priority *)
Lemma load_sitemap_fixed_fields env url s :
  Forall (fun e => changefreq e = "never" /\ priority e = QArith_base.Qmake 1 2)
         (fst (load_sitemap env url s)).
Proof.
  unfold load_sitemap. destruct (get env url s) as [[| r] s1]; cbn; [constructor |].
  destruct (parse_sitemap env (content r)) as [us |]; cbn; [| constructor].
  destruct (read_entries env us) as [es |] eqn:E; cbn; [| constructor].
  apply read_entries_fixed in E. unfold sort_entries.
  destruct es as [| e1 [| e2 es]]; cbn [default]; try exact E.
  destruct (forallb _ (e1 :: e2 :: es)); cbn [default]; [| constructor].
  apply sort_by_Forall, E.
Qed.

End SitemapFacts.

(** C5: the code departs from the claim where a [<url>] element has no
  [<lastmod>] child.  [find] gives [None], the [.text] on it raises, the
  catch-all handler answers with the empty list: the entry is not emitted,
  and neither is any other entry of the feed. *)
Theorem load_sitemap_absent_lastmod_empties_feed
        (env : Crawl.Env) (url : string) (s : Crawl.State) (r : Crawl.Response)
        (us : list Crawl.UrlElem) (u : Crawl.UrlElem) :
  Crawl.web env (length (Crawl.requests s)) url = Crawl.Answered r ->
  Crawl.parse_sitemap env (Crawl.content r) = Some us ->
  In u us ->
  Crawl.find_lastmod u = None ->
  fst (Crawl.load_sitemap env url s) = [].
Proof.
  intros Hweb Hparse Hin Hu. unfold Crawl.load_sitemap, Crawl.get.
  rewrite Hweb, Hparse, (SitemapFacts.read_entries_no_lastmod env us u Hin Hu).
  reflexivity.
Qed.

(** ** Strings *)

Example splitext_png : NtPath.splitext_ext ".\mirror\img\a.png" = ".png".
Proof. reflexivity. Qed.

Example splitext_dotted_dir : NtPath.splitext_ext ".\mirror\v1.2\news" = "".
Proof. reflexivity. Qed.

Example splitext_hidden : NtPath.splitext_ext ".\mirror\.htaccess" = "".
Proof. reflexivity. Qed.

Example replace_tagcloud :
  PyStr.replace "/tagcloud?tag=" "/tagcloud/" "a/tagcloud?tag=x/tagcloud?tag=y"
  = "a/tagcloud/x/tagcloud/y".
Proof. reflexivity. Qed.

Example rstrip_all_slashes : PyStr.rstrip "/" "https://ex.com/a//" = "https://ex.com/a".
Proof. reflexivity. Qed.

Example split_head_fragment : PyStr.split_head "#" "https://ex.com/p?x=1#frag" = "https://ex.com/p?x=1".
Proof. reflexivity. Qed.

Example ledger_lines :
  map PyStr.strip (PyStr.file_lines ("https://ex.com/a" ++ Dom.newline ++ "https://ex.com/b" ++ Dom.newline))
  = ["https://ex.com/a"; "https://ex.com/b"].
Proof. reflexivity. Qed.

Example class_tokens : Dom.has_class "widget" [("class", "box widget  wide")] = true.
Proof. reflexivity. Qed.

Module StrFacts.

Lemma prefix_trans a : forall b c,
  String.prefix a b = true -> String.prefix b c = true -> String.prefix a c = true.
Proof.
  induction a as [| x a IH]; intros b c Hab Hbc; [destruct c; reflexivity |].
  destruct b as [| y b]; [discriminate |]. destruct c as [| z c]; [discriminate |].
  cbn in *. destruct (ascii_dec x y) as [-> |]; [| discriminate].
  destruct (ascii_dec y z) as [-> |]; [| discriminate].
  destruct (ascii_dec z z); [| congruence]. eapply IH; eassumption.
Qed.

Lemma prefix_refl a : String.prefix a a = true.
Proof. induction a as [| x a IH]; cbn; [reflexivity |]. destruct (ascii_dec x x); congruence. Qed.

Lemma prefix_empty a : String.prefix EmptyString a = true.
Proof. destruct a; reflexivity. Qed.

Lemma split_head_prefix c s : String.prefix (PyStr.split_head c s) s = true.
Proof.
  induction s as [| d s IH]; cbn; [reflexivity |].
  destruct (Ascii.eqb c d); cbn; [reflexivity |]. destruct (ascii_dec d d); congruence.
Qed.

Lemma rstrip_prefix c s : String.prefix (PyStr.rstrip c s) s = true.
Proof.
  induction s as [| d s IH]; cbn; [reflexivity |].
  destruct (PyStr.rstrip c s) as [| e r] eqn:E.
  - destruct (Ascii.eqb c d); cbn; [reflexivity |].
    destruct (ascii_dec d d); [apply prefix_empty | congruence].
  - cbn. destruct (ascii_dec d d); [exact IH | congruence].
Qed.

(** cutting at a character that the prefix does not contain keeps the prefix *)
Lemma split_head_keeps_prefix c top : forall u,
  PyStr.contains c top = false ->
  String.prefix top u = true -> String.prefix top (PyStr.split_head c u) = true.
Proof.
  induction top as [| x top IH]; intros u Hc Hp; [apply prefix_empty |].
  destruct u as [| y u]; [discriminate |]. cbn in Hc, Hp |- *.
  destruct (ascii_dec x y) as [-> |]; [| discriminate].
  destruct (Ascii.eqb c y) eqn:E; [discriminate |]. cbn.
  destruct (ascii_dec y y); [| congruence]. apply IH; assumption.
Qed.

Lemma app_cons x a b : String x a ++ b = String x (a ++ b).
Proof. reflexivity. Qed.

Lemma contains_app c a b :
  PyStr.contains c (a ++ b) = PyStr.contains c a || PyStr.contains c b.
Proof.
  induction a as [| x a IH]; [reflexivity |].
  rewrite app_cons. cbn. destruct (Ascii.eqb c x); [reflexivity | exact IH].
Qed.

End StrFacts.

(** ** The fetch and the worklist *)

Module CrawlFacts.
Import Crawl.

Ltac frame_goal :=
  unfold fetch_frame, add, remove; cbn; repeat split; try reflexivity; clear; set_solver.

Lemma fetch_frame_refl url s : fetch_frame url s s.
Proof. frame_goal. Qed.

Lemma fetch_frame_trans url s1 s2 s3 :
  fetch_frame url s1 s2 -> fetch_frame url s2 s3 -> fetch_frame url s1 s3.
Proof.
  unfold fetch_frame. intros (A & B & C & D) (A' & B' & C' & D').
  repeat split; [congruence | congruence | |].
  - etransitivity; [exact C' |]. apply union_least; [apply union_subseteq_l | exact C].
  - etransitivity; [exact D' |]. apply union_least; [apply union_subseteq_l | exact D].
Qed.

Section WithSite.
Variable cfg : Config.
Variable env : Env.

Lemma href_link_same_origin url href u :
  href_link cfg env url href = Some u -> same_origin cfg u = true.
Proof.
  unfold href_link. destruct (candidate cfg href); [| discriminate].
  destruct (same_origin cfg _) eqn:E; [| discriminate]. intros [= <-]. exact E.
Qed.

Lemma src_link_same_origin url src u :
  src_link cfg env url src = Some u -> same_origin cfg u = true.
Proof.
  unfold src_link. destruct (candidate cfg src); [| discriminate].
  destruct (same_origin cfg _) eqn:E; [| discriminate]. intros [= <-]. exact E.
Qed.

(** a reference that resolves off the site yields no link *)
Lemma off_origin_reference url ref :
  same_origin cfg (urljoin env url ref) = false ->
  href_link cfg env url ref = None /\ src_link cfg env url ref = None.
Proof.
  intros Hoff. unfold href_link, src_link. destruct (candidate cfg ref); [| auto].
  rewrite Hoff. split; [| reflexivity].
  destruct (same_origin cfg (PyStr.rstrip "/" (PyStr.split_head "#" (urljoin env url ref)))) eqn:E;
    [| reflexivity].
  exfalso. unfold same_origin, PyStr.startswith in *.
  rewrite (StrFacts.prefix_trans _ _ _ E) in Hoff; [discriminate |].
  eapply StrFacts.prefix_trans; [apply StrFacts.rstrip_prefix | apply StrFacts.split_head_prefix].
Qed.

Lemma tag_links_same_origin url tag u :
  In u (tag_links cfg env url tag) -> same_origin cfg u = true.
Proof.
  unfold tag_links. intros H. apply in_app_or in H. destruct H as [H | H].
  - destruct (attr_nonempty "href" tag) as [href |]; [| destruct H].
    destruct (href_link cfg env url href) as [v |] eqn:E; [| destruct H].
    destruct H as [<- | []]. eapply href_link_same_origin, E.
  - destruct (attr_nonempty "src" tag) as [src |]; [| destruct H].
    destruct (src_link cfg env url src) as [v |] eqn:E; [| destruct H].
    destruct H as [<- | []]. eapply src_link_same_origin, E.
Qed.

Lemma collect_links_same_origin url soup u :
  u ∈ collect_links cfg env url soup -> same_origin cfg u = true.
Proof.
  unfold collect_links. rewrite elem_of_list_to_set, list_elem_of_In, in_flat_map.
  intros (tag & _ & H). eapply tag_links_same_origin, H.
Qed.

Lemma html_attempts_frame todo url local_path recursive : forall s res s',
  html_attempts cfg env todo url local_path recursive s = (res, s') ->
  fetch_frame url s s' /\
  (forall links u, res = Some links -> u ∈ links -> same_origin cfg u = true).
Proof.
  induction todo as [| k IH]; intros s res s' H; cbn in H.
  - injection H as <- <-. split; [apply fetch_frame_refl | discriminate].
  - destruct (web env (length (requests s)) url) as [| r] eqn:Hweb.
    + apply IH in H. destruct H as [Hf Hl]. split; [| exact Hl].
      eapply fetch_frame_trans; [| exact Hf].
      destruct (Nat.eqb k 0); frame_goal.
    + destruct (history r) as [| h hs].
      * unfold save_html in H. injection H as <- <-. split.
        -- frame_goal.
        -- intros links u [= <-] Hu. destruct recursive.
           ++ eapply collect_links_same_origin, Hu.
           ++ apply not_elem_of_empty in Hu. destruct Hu.
      * injection H as <- <-. split; [| discriminate]. frame_goal.
Qed.

Lemma download_html_frame url local_path retry_mode recursive s res s' :
  download_html cfg env url local_path retry_mode recursive s = (res, s') ->
  fetch_frame url s s' /\
  (forall links u, res = Some links -> u ∈ links -> same_origin cfg u = true).
Proof.
  unfold download_html. destruct (retry_mode && negb (mem url (retry_urls s))).
  - intros [= <- <-]. split; [apply fetch_frame_refl |].
    intros links u [= <-] Hu. apply not_elem_of_empty in Hu. destruct Hu.
  - apply html_attempts_frame.
Qed.

(** the gate of retry mode *)
Lemma download_html_gate url local_path recursive s :
  url ∉ retry_urls s ->
  download_html cfg env url local_path true recursive s = (Some ∅, s).
Proof.
  intros H. unfold download_html, mem. rewrite bool_decide_eq_false_2 by exact H. reflexivity.
Qed.

(** *** Growth of the worklist and the records *)

Lemma within_refl P s : within P s s.
Proof. intros u. tauto. Qed.

Lemma within_trans P s1 s2 s3 : within P s1 s2 -> within P s2 s3 -> within P s1 s3.
Proof.
  intros H12 H23 u. destruct (H12 u) as (A & B & C & D). destruct (H23 u) as (A' & B' & C' & D').
  tauto.
Qed.

Lemma fetch_frame_within (P : string -> Prop) url s s' :
  P url -> fetch_frame url s s' -> within P s s'.
Proof.
  intros HP (A & B & C & D) u. rewrite A, B. repeat split; try tauto.
  - intros Hu. apply C, elem_of_union in Hu. destruct Hu as [Hu | Hu]; [| tauto].
    apply elem_of_singleton in Hu. subst. tauto.
  - intros Hu. apply D, elem_of_union in Hu. destruct Hu as [Hu | Hu]; [| tauto].
    apply elem_of_singleton in Hu. subst. tauto.
Qed.

Lemma add_within (P : string -> Prop) url X u : P url -> u ∈ add url X -> u ∈ X \/ P u.
Proof.
  intros HP Hu. unfold add in Hu. apply elem_of_union in Hu.
  destruct Hu as [Hu | Hu]; [| tauto].
  apply elem_of_singleton in Hu. subst. tauto.
Qed.

Lemma remove_within (P : string -> Prop) url X u : u ∈ remove url X -> u ∈ X \/ P u.
Proof. intros Hu. unfold remove in Hu. apply elem_of_difference in Hu. tauto. Qed.

Lemma raw_attempts_within (P : string -> Prop) todo url local_path :
  P url -> forall s, within P s (raw_attempts env todo url local_path s).
Proof.
  intros HP. induction todo as [| k IH]; intros s; cbn; [apply within_refl |].
  destruct (web env (length (requests s)) url) as [| r].
  - eapply within_trans; [| apply IH]. destruct (Nat.eqb k 0); intros u; cbn;
      repeat split; try tauto. apply add_within, HP.
  - intros u; cbn; repeat split; try tauto.
    + apply add_within, HP.
    + apply remove_within.
Qed.

Lemma record_result_within (P : string -> Prop) url merge res s s0 :
  P url -> within P s0 s ->
  (forall links u, res = Some links -> u ∈ links -> P u) ->
  within P s0 (record_result url merge (res, s)).
Proof.
  intros HP Hs Hres. destruct res as [links |]; cbn; [| exact Hs].
  eapply within_trans; [exact Hs |].
  destruct merge; intros u; cbn; repeat split; try tauto; try (apply add_within, HP).
  intros Hu. apply elem_of_union in Hu. destruct Hu as [Hu | Hu]; [tauto |].
  right. eapply Hres; [reflexivity | exact Hu].
Qed.

Local Abbreviation on_site := (Crawl.on_site cfg).

Lemma top_page_on_site : on_site (top_page_url cfg).
Proof. apply StrFacts.prefix_refl. Qed.

Lemma cut_on_site u :
  PyStr.contains "?" (domain_name cfg) = false ->
  on_site u -> on_site (PyStr.split_head "?" u).
Proof.
  intros Hq Hu. unfold on_site, same_origin, PyStr.startswith in *.
  apply StrFacts.split_head_keeps_prefix; [| exact Hu].
  unfold top_page_url. rewrite StrFacts.contains_app, Hq. reflexivity.
Qed.

Lemma download_html_within url local_path retry_mode recursive s res s' :
  on_site url ->
  download_html cfg env url local_path retry_mode recursive s = (res, s') ->
  within on_site s s' /\ (forall links u, res = Some links -> u ∈ links -> on_site u).
Proof.
  intros Hu H. apply download_html_frame in H. destruct H as [Hf Hl].
  split; [eapply fetch_frame_within; eassumption | exact Hl].
Qed.

Lemma worklist_body_within retry_mode popped s :
  PyStr.contains "?" (domain_name cfg) = false ->
  on_site popped ->
  within on_site s (worklist_body cfg env retry_mode popped s).
Proof.
  intros Hq Hp. unfold worklist_body, cut_query.
  set (cut := PyStr.contains "?" popped && negb (is_tagcloud_param cfg popped)).
  assert (exists url s1, (if cut then (PyStr.split_head "?" popped, with_skipped (add popped) s)
                          else (popped, s)) = (url, s1)
                         /\ on_site url /\ within on_site s s1) as (url & s1 & -> & Hurl & H1).
  { destruct cut; eexists _, _; (split; [reflexivity |]); split.
    - apply cut_on_site; assumption.
    - intros u; cbn; repeat split; try tauto. apply add_within, Hp.
    - exact Hp.
    - apply within_refl. }
  destruct (mem url (processed_urls s1)); [exact H1 |].
  set (lp := worklist_local_path cfg popped url).
  destruct (negb (String.eqb (NtPath.splitext_ext lp) EmptyString)
            && negb (is_tagcloud_param cfg popped)).
  - destruct (download_html cfg env url lp retry_mode true
                (raw_attempts env WEB_RETRY_COUNT url lp s1)) as [res s3] eqn:E.
    apply download_html_within in E; [| exact Hurl]. destruct E as [Hw Hl].
    apply record_result_within; [exact Hurl | | exact Hl].
    eapply within_trans; [exact H1 |]. eapply within_trans; [| exact Hw].
    apply raw_attempts_within, Hurl.
  - destruct (download_html cfg env url (NtPath.join lp (index_file_name cfg)) retry_mode true s1)
      as [res s3] eqn:E.
    apply download_html_within in E; [| exact Hurl]. destruct E as [Hw Hl].
    apply record_result_within; [exact Hurl | | exact Hl].
    eapply within_trans; eassumption.
Qed.

Lemma within_closed s s' :
  origin_closed cfg s -> within on_site s s' -> origin_closed cfg s'.
Proof.
  intros Hc Hw u Hu. destruct (Hw u) as (A & B & C & D).
  destruct Hu as [Hu | [Hu | [Hu | Hu]]];
    [apply A in Hu | apply B in Hu | apply C in Hu | apply D in Hu];
    (destruct Hu as [Hu | Hu]; [apply Hc; tauto | exact Hu]).
Qed.

Lemma seed_closed retry_mode s :
  origin_closed cfg s -> origin_closed cfg (seed cfg env retry_mode s).
Proof.
  intros Hc. unfold seed.
  destruct (download_html cfg env (top_page_url cfg) (top_local_file cfg) retry_mode true s)
    as [res s1] eqn:E.
  apply download_html_within in E; [| apply top_page_on_site]. destruct E as [Hw Hl].
  pose proof (within_closed _ _ Hc Hw) as Hc1.
  destruct res as [links |]; intros u; cbn.
  - intros [Hu | [Hu | Hu]].
    + eapply Hl; [reflexivity | exact Hu].
    + apply (add_within on_site) in Hu; [| apply top_page_on_site].
      destruct Hu as [Hu | Hu]; [apply Hc1; tauto | exact Hu].
    + apply Hc1. tauto.
  - intros [Hu | Hu]; [apply not_elem_of_empty in Hu; destruct Hu | apply Hc1; tauto].
Qed.

Lemma turns_closed retry_mode s s' :
  PyStr.contains "?" (domain_name cfg) = false ->
  turns cfg env retry_mode s s' -> origin_closed cfg s -> origin_closed cfg s'.
Proof.
  intros Hq Ht. induction Ht as [s | s url s' Hin _ IH]; intros Hc; [exact Hc |].
  apply IH. eapply within_closed; [| apply worklist_body_within; [exact Hq |]].
  - intros u Hu. apply Hc. cbn in Hu. unfold remove in Hu.
    rewrite elem_of_difference in Hu. tauto.
  - apply Hc. tauto.
Qed.

Lemma drains_turns retry_mode s s' :
  drains cfg env retry_mode s s' -> turns cfg env retry_mode s s'.
Proof.
  induction 1 as [s _ | s url s' Hin _ IH]; [constructor |].
  econstructor; eassumption.
Qed.

Lemma drains_empty retry_mode s s' :
  drains cfg env retry_mode s s' -> page_links s' = ∅.
Proof. induction 1; assumption. Qed.

Lemma drain_first_drains retry_mode fuel : forall s s',
  drain_first cfg env retry_mode fuel s = Some s' -> drains cfg env retry_mode s s'.
Proof.
  induction fuel as [| k IH]; intros s s' H; cbn in H;
    destruct (elements (page_links s)) as [| url rest] eqn:E.
  - injection H as <-. constructor. apply elements_empty_inv in E.
    apply leibniz_equiv. exact E.
  - discriminate.
  - injection H as <-. constructor. apply elements_empty_inv in E.
    apply leibniz_equiv. exact E.
  - apply drains_turn with (url := url); [| apply IH, H].
    apply elem_of_elements. rewrite E. apply list_elem_of_here.
Qed.

End WithSite.

End CrawlFacts.


Lemma initial_origin_closed cfg fs : Crawl.origin_closed cfg (Crawl.initial fs).
Proof.
  intros u [H | [H | [H | H]]]; cbn in H; apply not_elem_of_empty in H; destruct H.
Qed.


(** the origin in the words of the specification tells the two hosts apart *)
Example origins_differ :
  SpecOrigin.origin "https://ex.com" = Some "https://ex.com" /\
  SpecOrigin.origin "https://ex.com/p?x=1#frag" = Some "https://ex.com" /\
  SpecOrigin.origin "https://ex.com.evil.org/x" = Some "https://ex.com.evil.org" /\
  SpecOrigin.equal_origin "https://ex.com" "https://ex.com.evil.org/x" = false.
Proof. repeat split; reflexivity. Qed.


(** and the turn on it fetches the other host, saves the page beside the
  mirror and records the URL as processed *)
Example prefix_sharing_host_processed :
  let s := Crawl.seed Demo.cfg Demo.prefix_env false (Crawl.initial ∅) in
  let s' := Crawl.worklist_body Demo.cfg Demo.prefix_env false "https://ex.com.evil.org/x"
              (Crawl.pop "https://ex.com.evil.org/x" s) in
  Crawl.mem "https://ex.com.evil.org/x" (Crawl.processed_urls s') = true /\
  Crawl.files s' !! ".\mirror.evil.org\x\index.html" = Some "X" /\
  Crawl.requests s' = ["https://ex.com.evil.org/x"; "https://ex.com"].
Proof. repeat split; vm_compute; reflexivity. Qed.

(** a tagcloud URL is never cut and never recorded as a query duplicate,
  whatever the tag *)
Lemma tagcloud_not_cut cfg u s :
  Crawl.is_tagcloud_param cfg u = true -> Crawl.cut_query cfg u s = (u, s).
Proof. intros H. unfold Crawl.cut_query. rewrite H, andb_false_r. reflexivity. Qed.

Lemma demo_page_not_in_ledger : "https://ex.com/p" ∉ Crawl.retry_urls Demo.retry_state.
Proof. intros Hin. cbn in Hin. apply elem_of_singleton in Hin. discriminate Hin. Qed.

(** C3, as stated, fails: in retry mode the caller of a gated fetch
  records the URL as processed. *)
Lemma retry_gate_marks_processed :
  ~ (forall cfg env url s,
        url ∉ Crawl.retry_urls s ->
        Crawl.processed_urls (Crawl.sitemap_step cfg env true url s) = Crawl.processed_urls s).
Proof.
  intros H.
  specialize (H Demo.cfg (Demo.env Demo.png Demo.feed) "https://ex.com/p" Demo.retry_state
                demo_page_not_in_ledger).
  assert (Crawl.mem "https://ex.com/p"
            (Crawl.processed_urls
               (Crawl.sitemap_step Demo.cfg (Demo.env Demo.png Demo.feed) true
                  "https://ex.com/p" Demo.retry_state)) = true) as Hm
      by (vm_compute; reflexivity).
  unfold Crawl.mem in Hm. apply bool_decide_eq_true in Hm. rewrite H in Hm.
  apply not_elem_of_empty in Hm. exact Hm.
Qed.

(** C3 (amended): in retry mode [download_html], called for a URL that is
  not in the ledger, returns the empty set of links at once: no request, no
  file, no change to any set.  Its caller takes the result for a success
  and adds the URL to the processed set; skipped set, ledger, files,
  requests and worklist stay as they were. *)
Theorem retry_gate (cfg : Crawl.Config) (env : Crawl.Env) (url local_path : string)
        (recursive merge : bool) (s : Crawl.State) :
  url ∉ Crawl.retry_urls s ->
  Crawl.download_html cfg env url local_path true recursive s = (Some ∅, s) /\
  let s' := Crawl.record_result url merge
              (Crawl.download_html cfg env url local_path true recursive s) in
  Crawl.processed_urls s' = {[url]} ∪ Crawl.processed_urls s /\
  Crawl.skipped_urls s' = Crawl.skipped_urls s /\
  Crawl.retry_urls s' = Crawl.retry_urls s /\
  Crawl.files s' = Crawl.files s /\
  Crawl.requests s' = Crawl.requests s /\
  Crawl.page_links s' = Crawl.page_links s.
Proof.
  intros H. rewrite (CrawlFacts.download_html_gate cfg env url local_path recursive s H).
  split; [reflexivity |]. destruct merge; cbn; repeat split; try reflexivity.
  apply (right_id_L ∅ (∪)).
Qed.

Lemma retry_gate_witness :
  Crawl.download_html Demo.cfg (Demo.env Demo.png Demo.feed) "https://ex.com/p"
    ".\mirror\p\index.html" true false Demo.retry_state = (Some ∅, Demo.retry_state).
Proof.
  apply (retry_gate Demo.cfg (Demo.env Demo.png Demo.feed) "https://ex.com/p"
           ".\mirror\p\index.html" false false Demo.retry_state).
  intros Hin. cbn in Hin. apply elem_of_singleton in Hin. discriminate Hin.
Defined.

(** ** Whole runs *)

Module RunFacts.
Import Crawl.

Lemma sitemap_step_page_links cfg env retry_mode url s :
  page_links (sitemap_step cfg env retry_mode url s) = page_links s.
Proof.
  unfold sitemap_step. destruct (mem url (processed_urls s)); [reflexivity |].
  match goal with |- context [download_html ?c ?e ?u ?l ?r ?b ?t] =>
    destruct (download_html c e u l r b t) as [res s1] eqn:E end.
  apply CrawlFacts.download_html_frame in E. destruct E as [(A & _) _].
  destruct res; cbn; exact A.
Qed.

Lemma sitemap_pass_page_links cfg env retry_mode entries : forall s s',
  sitemap_pass cfg env retry_mode entries s = Some s' -> page_links s' = page_links s.
Proof.
  induction entries as [| e rest IH]; intros s s' H; cbn in H.
  - injection H as <-. reflexivity.
  - destruct (loc e) as [url |]; [| discriminate].
    rewrite (IH _ _ H). apply sitemap_step_page_links.
Qed.

Lemma finish_shape cfg env sitemap_data s final :
  finish cfg env sitemap_data s = Some final ->
  exists s1, final = persist_ledger cfg s1 /\ page_links s1 = page_links s.
Proof.
  unfold finish, build_output.
  destruct (output_entries cfg env sitemap_data _) as [xs |]; [| discriminate].
  destruct (pretty_xml env _) as [pretty |]; [| discriminate].
  intros [= <-]. eexists. split; [reflexivity |].
  unfold write_logs. destruct (bool_decide _); reflexivity.
Qed.

Lemma run_first_completes cfg env fuel fs final :
  run_first cfg env fuel fs = Some final -> completes cfg env fs final.
Proof.
  unfold run_first, completes.
  destruct (prepare cfg env fs) as [[[retry_mode sitemap_data] s0] |]; [| discriminate].
  destruct (drain_first cfg env retry_mode fuel _) as [s1 |] eqn:E1; [| discriminate].
  destruct (sitemap_pass cfg env retry_mode sitemap_data s1) as [s2 |] eqn:E2; [| discriminate].
  intros H. exists retry_mode, sitemap_data, s0, s1, s2.
  repeat split; try assumption.
  apply CrawlFacts.drain_first_drains with (fuel := fuel), E1.
Qed.

Lemma length_app (a b : string) : String.length (a ++ b) = String.length a + String.length b.
Proof.
  induction a as [| x a IH]; [reflexivity |].
  rewrite StrFacts.app_cons. cbn. rewrite IH. reflexivity.
Qed.

Lemma length_insert_by {A} (key : A -> string) x l :
  length (PySort.insert_by key x l) = S (length l).
Proof.
  induction l as [| y l IH]; cbn; [reflexivity |].
  destruct (String.leb (key y) (key x)); cbn; [rewrite IH |]; reflexivity.
Qed.

Lemma length_sort_by {A} (key : A -> string) (l : list A) :
  length (PySort.sort_by key l) = length l.
Proof.
  unfold PySort.sort_by.
  assert (forall acc, length (fold_left (fun a x => PySort.insert_by key x a) l acc)
                      = length l + length acc) as H.
  { induction l as [| x l IH]; intros acc; cbn; [reflexivity |].
    rewrite IH, length_insert_by. lia. }
  rewrite H. cbn. lia.
Qed.

(** the text that [write_lines] produces for a non-empty set is not empty *)
Lemma lines_nonempty (urls : gset string) :
  urls <> ∅ ->
  String.concat EmptyString (map (fun u => u ++ Dom.newline) (PySort.sorted (elements urls)))
    <> EmptyString.
Proof.
  intros Hne. unfold PySort.sorted.
  destruct (PySort.sort_by (fun x => x) (elements urls)) as [| u rest] eqn:E.
  - exfalso. apply Hne. apply leibniz_equiv, elements_empty_inv.
    apply (f_equal (@length string)) in E. rewrite length_sort_by in E.
    destruct (elements urls); [reflexivity | discriminate].
  - intros H. apply (f_equal String.length) in H. cbn [map String.concat] in H.
    destruct (map _ rest); rewrite !length_app in H; cbn in H; lia.
Qed.

Lemma persist_ledger_file cfg s :
  (retry_urls s = ∅ -> files (persist_ledger cfg s) !! retry_file_path cfg = None) /\
  (retry_urls s <> ∅ ->
   files (persist_ledger cfg s) !! retry_file_path cfg
   = Some (String.concat EmptyString
             (map (fun u => u ++ Dom.newline) (PySort.sorted (elements (retry_urls s)))))).
Proof.
  unfold persist_ledger. split; intros H.
  - rewrite bool_decide_eq_true_2 by exact H. cbn. apply lookup_delete_eq.
  - rewrite bool_decide_eq_false_2 by exact H. cbn. apply lookup_insert_eq.
Qed.

Lemma persist_ledger_retry cfg s : retry_urls (persist_ledger cfg s) = retry_urls s.
Proof. unfold persist_ledger. destruct (bool_decide _); reflexivity. Qed.

Lemma persist_ledger_page_links cfg s : page_links (persist_ledger cfg s) = page_links s.
Proof. unfold persist_ledger. destruct (bool_decide _); reflexivity. Qed.

End RunFacts.

(** C9: at the end of a run the ledger file is gone when no failure
  remains, and otherwise holds the remaining URLs, sorted, one per line, and
  is not empty. *)
Theorem ledger_lifecycle (cfg : Crawl.Config) (env : Crawl.Env)
        (fs : gmap string string) (final : Crawl.State) :
  Crawl.completes cfg env fs final ->
  (Crawl.retry_urls final = ∅ ->
   Crawl.files final !! Crawl.retry_file_path cfg = None) /\
  (Crawl.retry_urls final <> ∅ ->
   exists text,
     Crawl.files final !! Crawl.retry_file_path cfg = Some text /\
     text <> EmptyString /\
     text = String.concat EmptyString
              (map (fun u => u ++ Dom.newline)
                   (PySort.sorted (elements (Crawl.retry_urls final))))).
Proof.
  intros (retry_mode & sitemap_data & s0 & s1 & s2 & _ & _ & _ & Hfin).
  apply RunFacts.finish_shape in Hfin. destruct Hfin as (s3 & -> & _).
  rewrite RunFacts.persist_ledger_retry.
  destruct (RunFacts.persist_ledger_file cfg s3) as [Hgone Hkept].
  split; [exact Hgone |]. intros Hne. eexists. split; [apply Hkept, Hne |].
  split; [apply RunFacts.lines_nonempty, Hne | reflexivity].
Qed.

Lemma ledger_lifecycle_witness :
  exists final,
    Crawl.completes Demo.cfg (Demo.env Demo.png Demo.feed) ∅ final /\
    (Crawl.retry_urls final = ∅ ->
     Crawl.files final !! Crawl.retry_file_path Demo.cfg = None).
Proof.
  destruct (Crawl.run_first Demo.cfg (Demo.env Demo.png Demo.feed) 10 ∅) as [final |] eqn:E;
    [| vm_compute in E; discriminate E].
  exists final.
  pose proof (RunFacts.run_first_completes _ _ _ _ _ E) as Hc.
  split; [exact Hc |].
  apply (ledger_lifecycle Demo.cfg (Demo.env Demo.png Demo.feed) ∅ final Hc).
Defined.

(** the run in retry mode from a ledger that names the top page *)
Lemma retry_run_overlap :
  let final := Crawl.run_first Demo.cfg (Demo.env Demo.png Demo.feed) 10 Demo.ledger_fs in
  Demo.in_processed final "https://ex.com/p?x=1" = true /\
  Demo.in_skipped final "https://ex.com/p?x=1" = true.
Proof. split; vm_compute; reflexivity. Qed.

(** that run writes no file whose name carries a question mark *)
Example retry_run_paths :
  match Crawl.run_first Demo.cfg (Demo.env Demo.png Demo.feed) 10 Demo.ledger_fs with
  | Some final =>
      forallb (fun kv => negb (PyStr.contains "?" (fst kv))) (map_to_list (Crawl.files final))
  | None => false
  end = true.
Proof. vm_compute. reflexivity. Qed.

(** C1, as stated, fails.  In retry mode, with the top page in the ledger,
  the worklist cuts the query of [https://ex.com/p?x=1] and records the URL
  as skipped; the sitemap lists the same URL, the fetch is held back by the
  ledger gate, and the caller records the URL as processed. *)
Lemma processed_skipped_overlap :
  ~ (forall cfg env fs final,
        Crawl.completes cfg env fs final ->
        Crawl.processed_urls final ∩ Crawl.skipped_urls final = ∅).
Proof.
  intros H.
  pose proof retry_run_overlap as [Hp Hs]. cbv zeta in Hp, Hs.
  destruct (Crawl.run_first Demo.cfg (Demo.env Demo.png Demo.feed) 10 Demo.ledger_fs)
    as [final |] eqn:E; [| discriminate Hp].
  apply RunFacts.run_first_completes, H in E.
  cbn in Hp, Hs. unfold Crawl.mem in Hp, Hs.
  apply bool_decide_eq_true in Hp. apply bool_decide_eq_true in Hs.
  assert ("https://ex.com/p?x=1" ∈ Crawl.processed_urls final ∩ Crawl.skipped_urls final) as Hin
      by (apply elem_of_intersection; split; assumption).
  rewrite E in Hin. apply not_elem_of_empty in Hin. exact Hin.
Qed.

(** C1 (amended): at completion of a run the worklist is empty, so no URL
  is pending and also processed or skipped.  (The processed and the skipped
  set are not kept apart by the driver.) *)
Theorem worklist_empty_at_completion (cfg : Crawl.Config) (env : Crawl.Env)
        (fs : gmap string string) (final : Crawl.State) :
  Crawl.completes cfg env fs final ->
  Crawl.page_links final = ∅ /\
  Crawl.page_links final ∩ Crawl.processed_urls final = ∅ /\
  Crawl.page_links final ∩ Crawl.skipped_urls final = ∅.
Proof.
  intros (retry_mode & sitemap_data & s0 & s1 & s2 & _ & Hd & Hs & Hfin).
  assert (Crawl.page_links final = ∅) as Hempty.
  { apply RunFacts.finish_shape in Hfin. destruct Hfin as (s3 & -> & H3).
    rewrite RunFacts.persist_ledger_page_links, H3.
    rewrite (RunFacts.sitemap_pass_page_links _ _ _ _ _ _ Hs).
    eapply CrawlFacts.drains_empty, Hd. }
  rewrite Hempty. repeat split; try reflexivity; apply (left_absorb_L ∅ (∩)).
Qed.

Lemma worklist_empty_at_completion_witness :
  exists final,
    Crawl.completes Demo.cfg (Demo.env Demo.png Demo.feed) ∅ final /\
    Crawl.page_links final = ∅.
Proof.
  destruct (Crawl.run_first Demo.cfg (Demo.env Demo.png Demo.feed) 10 ∅) as [final |] eqn:E;
    [| vm_compute in E; discriminate E].
  exists final.
  pose proof (RunFacts.run_first_completes _ _ _ _ _ E) as Hc.
  split; [exact Hc |].
  apply (worklist_empty_at_completion Demo.cfg (Demo.env Demo.png Demo.feed) ∅ final Hc).
Defined.

(** ** The extension branch of the worklist loop *)

Lemma metadata_path_differs (p : string) : p <> p ++ ".metadata".
Proof.
  intros H. apply (f_equal String.length) in H. rewrite RunFacts.length_app in H.
  cbn in H. lia.
Qed.

(** ** The fetch and the turn on a disk that can refuse *)

Module IOFacts.
Import Crawl TurnSpec.

Ltac frame k :=
  unfold fetched, add, remove; cbn;
  do 6 (split; [try reflexivity; try (clear; set_solver) |]);
  exists k; (split; [lia | reflexivity]).

Lemma fetched_refl url lp todo s : fetched url lp todo s s.
Proof. frame 0. Qed.

Lemma fetched_trans url lp a b s1 s2 s3 :
  fetched url lp a s1 s2 -> fetched url lp b s2 s3 -> fetched url lp (a + b) s1 s3.
Proof.
  intros (A & B & C & D & E & F & k1 & Hk1 & R1) (A' & B' & C' & D' & E' & F' & k2 & Hk2 & R2).
  unfold fetched. repeat split.
  - congruence.
  - congruence.
  - clear - C C'. set_solver.
  - clear - D D'. set_solver.
  - clear - E E'. set_solver.
  - intros q H1 H2. rewrite F', F by assumption. reflexivity.
  - exists (k2 + k1). split; [lia |]. rewrite R2, R1, repeat_app, <- app_assoc. reflexivity.
Qed.

Lemma fetched_more url lp a b s s' : a <= b -> fetched url lp a s s' -> fetched url lp b s s'.
Proof.
  intros Hab (A & B & C & D & E & F & k & Hk & R). unfold fetched. repeat split; try assumption.
  exists k. split; [lia | exact R].
Qed.

Section WithDisk.
Variable cfg : Config.
Variable env : Env.
Variable disk : CrawlIO.Disk.

Lemma asked url lp s : fetched url lp 1 s (snd (get env url s)).
Proof.
  unfold get. frame 1.
Qed.

Lemma noted url lp k s : fetched url lp 0 s (CrawlIO.note_failure k url s).
Proof.
  unfold CrawlIO.note_failure. destruct (Nat.eqb k 0); [| apply fetched_refl].
  frame 0.
Qed.

Lemma skipped_noted url lp s : fetched url lp 0 s (with_skipped (add url) s).
Proof.
  frame 0.
Qed.

Lemma ledger_cleared url lp s : fetched url lp 0 s (with_retry (remove url) s).
Proof.
  frame 0.
Qed.

(** one write changes the one file at most *)
Lemma put_shape path data s :
  let res := CrawlIO.put disk path data s in
  page_links (snd res) = page_links s /\ processed_urls (snd res) = processed_urls s /\
  skipped_urls (snd res) = skipped_urls s /\ retry_urls (snd res) = retry_urls s /\
  requests (snd res) = requests s /\
  (forall q, q <> path -> files (snd res) !! q = files s !! q) /\
  (fst res = true ->
   CrawlIO.write disk (length (requests s)) (files s) path data = CrawlIO.Stored /\
   files (snd res) = <[path := data]> (files s)) /\
  (CrawlIO.write disk (length (requests s)) (files s) path data = CrawlIO.Stored ->
   fst res = true).
Proof.
  unfold CrawlIO.put.
  destruct (CrawlIO.write disk (length (requests s)) (files s) path data); cbn;
    repeat split; try reflexivity; try discriminate;
    intros q Hq; apply lookup_insert_ne; congruence.
Qed.

Lemma put_fetched url lp path data s :
  path = lp \/ path = lp ++ ".metadata" ->
  fetched url lp 0 s (snd (CrawlIO.put disk path data s)).
Proof.
  intros Hp. destruct (put_shape path data s) as (A & B & C & D & E & F & _).
  unfold fetched. rewrite A, B, C, D, E.
  do 6 (split; [try reflexivity; try (clear; set_solver) |]).
  - intros q H1 H2. apply F. destruct Hp; congruence.
  - exists 0. split; [lia | reflexivity].
Qed.

Lemma save_shape url lp body ct s :
  let res := CrawlIO.save disk lp body ct s in
  fetched url lp 0 s (snd res) /\
  skipped_urls (snd res) = skipped_urls s /\ retry_urls (snd res) = retry_urls s /\
  requests (snd res) = requests s /\
  (fst res = true ->
   files (snd res) = <[lp ++ ".metadata" := metadata_line ct]> (<[lp := body]> (files s))).
Proof.
  unfold CrawlIO.save.
  destruct (CrawlIO.makedirs disk (length (requests s)) (files s) lp).
  2:{ cbn [fst snd]. split; [apply fetched_refl |]. repeat split; discriminate. }
  pose proof (put_shape lp body s) as P1.
  pose proof (put_fetched url lp lp body s (or_introl eq_refl)) as Q1.
  destruct (CrawlIO.put disk lp body s) as [ok1 s1]. cbn [fst snd] in P1, Q1.
  destruct P1 as (A1 & B1 & C1 & D1 & E1 & F1 & G1 & _).
  destruct ok1.
  - pose proof (put_shape (lp ++ ".metadata") (metadata_line ct) s1) as P2.
    pose proof (put_fetched url lp (lp ++ ".metadata") (metadata_line ct) s1
                  (or_intror eq_refl)) as Q2.
    destruct (CrawlIO.put disk (lp ++ ".metadata") (metadata_line ct) s1) as [ok2 s2].
    cbn [fst snd] in P2, Q2 |- *.
    destruct P2 as (A2 & B2 & C2 & D2 & E2 & F2 & G2 & _).
    split; [exact (fetched_trans _ _ _ _ _ _ _ Q1 Q2) |].
    rewrite C2, C1, D2, D1, E2, E1. do 3 (split; [reflexivity |]).
    intros Hok. destruct (G2 Hok) as [_ ->]. destruct (G1 eq_refl) as [_ ->]. reflexivity.
  - cbn [fst snd]. split; [exact Q1 |]. rewrite C1, D1, E1.
    do 3 (split; [reflexivity |]). discriminate.
Qed.

Lemma saved url lp body ct s : fetched url lp 0 s (snd (CrawlIO.save disk lp body ct s)).
Proof. apply (save_shape url lp body ct s). Qed.

Lemma save_accepted lp body ct s :
  TurnSpec.accepts disk (length (requests s)) (files s) lp body ct ->
  CrawlIO.save disk lp body ct s
  = (true, with_files (fun fs => <[lp ++ ".metadata" := metadata_line ct]> (<[lp := body]> fs)) s).
Proof.
  intros (Hd & Hw1 & Hw2). unfold CrawlIO.save, CrawlIO.put. rewrite Hd, Hw1. cbn.
  rewrite Hw2. reflexivity.
Qed.

Lemma save_html_shape url lp recursive r s :
  let res := CrawlIO.save_html cfg env disk url lp recursive r s in
  fetched url lp 0 s (snd res) /\
  skipped_urls (snd res) = skipped_urls s /\
  requests (snd res) = requests s /\
  (forall links, fst res = Some links ->
     links = (if recursive
              then collect_links cfg env url (Dom.structural_edits (parse_html env (content r)))
              else ∅) /\
     (url ∉ retry_urls (snd res)) /\
     files (snd res)
     = <[lp ++ ".metadata" := metadata_line (default "text/html" (content_type r))]>
         (<[lp := TurnSpec.page_body env r]> (files s))) /\
  (fst res = None -> retry_urls (snd res) = retry_urls s).
Proof.
  unfold CrawlIO.save_html.
  set (body := PyStr.replace "/tagcloud?tag=" "/tagcloud/" _).
  set (ct := default "text/html" (content_type r)).
  pose proof (saved url lp body ct s) as Hf.
  destruct (save_shape url lp body ct s) as (_ & Hs & Hr & Hq & Hok).
  destruct (CrawlIO.save disk lp body ct s) as [ok s1]. cbn [fst snd] in *.
  destruct ok; cbn [fst snd].
  - split; [exact (fetched_trans _ _ _ _ _ _ _ Hf (ledger_cleared url lp s1)) |].
    split; [exact Hs |]. split; [exact Hq |]. split; [| discriminate].
    intros links [= <-]. split; [reflexivity |]. split.
    + cbn. unfold remove. clear. set_solver.
    + cbn. rewrite (Hok eq_refl). reflexivity.
  - split; [exact Hf |]. split; [exact Hs |]. split; [exact Hq |].
    split; [discriminate | intros _; exact Hr].
Qed.

(** every attempt loop of [download_html] is a fetch *)
Lemma html_attempts_fetched url lp recursive todo : forall s res s',
  CrawlIO.html_attempts cfg env disk todo url lp recursive s = (res, s') ->
  fetched url lp todo s s'.
Proof.
  induction todo as [| k IH]; intros s res s' H; cbn [CrawlIO.html_attempts] in H.
  - injection H as _ <-. apply fetched_refl.
  - pose proof (asked url lp s) as Hask. unfold get in H, Hask. cbn [snd] in Hask.
    destruct (web env (length (requests s)) url) as [| r].
    + apply IH in H. change (S k) with (1 + k).
      eapply fetched_trans; [exact Hask |].
      change k with (0 + k). eapply fetched_trans; [apply noted | exact H].
    + destruct (history r).
      * match type of H with context [CrawlIO.save_html _ _ _ _ _ _ _ ?t] => set (s1 := t) in * end.
        destruct (save_html_shape url lp recursive r s1) as (Hf & _).
        destruct (CrawlIO.save_html cfg env disk url lp recursive r s1) as [[links |] s2].
        -- injection H as _ <-. cbn [snd] in Hf. apply fetched_more with (a := 1 + 0); [lia |].
           eapply fetched_trans; [exact Hask | exact Hf].
        -- apply IH in H. cbn [snd] in Hf. change (S k) with (1 + k).
           eapply fetched_trans; [exact Hask |].
           change k with (0 + k). eapply fetched_trans; [exact Hf |].
           change k with (0 + k). eapply fetched_trans; [apply noted | exact H].
      * injection H as _ <-. apply fetched_more with (a := 1 + 0); [lia |].
        eapply fetched_trans; [exact Hask | apply skipped_noted].
Qed.

(** a loop that ran asked at least once *)
Lemma html_attempts_asks url lp recursive todo : forall s res s',
  todo <> 0 ->
  CrawlIO.html_attempts cfg env disk todo url lp recursive s = (res, s') ->
  length (requests s) < length (requests s').
Proof.
  intros s res s' Hne H. destruct todo as [| k]; [congruence |].
  cbn [CrawlIO.html_attempts] in H. unfold get in H.
  destruct (web env (length (requests s)) url) as [| r].
  - apply html_attempts_fetched in H. destruct H as (_ & _ & _ & _ & _ & _ & j & _ & R).
    rewrite R, length_app. unfold CrawlIO.note_failure. destruct (Nat.eqb k 0); cbn; lia.
  - destruct (history r).
    + match type of H with context [CrawlIO.save_html _ _ _ _ _ _ _ ?t] => set (s1 := t) in * end.
      destruct (save_html_shape url lp recursive r s1) as (_ & _ & Hq & _).
      destruct (CrawlIO.save_html cfg env disk url lp recursive r s1) as [[links |] s2];
        cbn [snd] in Hq.
      * injection H as _ <-. rewrite Hq. cbn. lia.
      * apply html_attempts_fetched in H. destruct H as (_ & _ & _ & _ & _ & _ & j & _ & R).
        rewrite R, length_app. unfold CrawlIO.note_failure.
        destruct (Nat.eqb k 0); cbn; rewrite Hq; cbn; lia.
    + injection H as _ <-. cbn. lia.
Qed.

(** no result: a redirect is on record as skipped, three failures are on
  record in the ledger *)
Lemma html_attempts_null url lp recursive todo : forall s s',
  todo <> 0 ->
  CrawlIO.html_attempts cfg env disk todo url lp recursive s = (None, s') ->
  url ∈ skipped_urls s' \/ url ∈ retry_urls s'.
Proof.
  induction todo as [| k IH]; intros s s' Hne H; [congruence |].
  cbn [CrawlIO.html_attempts] in H. unfold get in H.
  assert (forall t, CrawlIO.html_attempts cfg env disk k url lp recursive
                      (CrawlIO.note_failure k url t) = (None, s') ->
                    url ∈ skipped_urls s' \/ url ∈ retry_urls s') as Hnext.
  { intros t Ht. destruct k as [| k'].
    - cbn in Ht. injection Ht as <-. right. cbn. unfold add.
      apply elem_of_union_l, elem_of_singleton. reflexivity.
    - eapply IH; [discriminate | exact Ht]. }
  destruct (web env (length (requests s)) url) as [| r]; [eapply Hnext, H |].
  destruct (history r).
  - destruct (CrawlIO.save_html cfg env disk url lp recursive r _) as [[links |] s2];
      [discriminate | eapply Hnext, H].
  - injection H as <-. left. cbn. unfold add. apply elem_of_union_l, elem_of_singleton.
    reflexivity.
Qed.

(** without a redirect among the replies the skipped set is as it was *)
Lemma html_attempts_no_redirect url lp recursive todo : forall s res s',
  (forall i r, i < todo -> web env (length (requests s) + i) url = Answered r ->
               history r = []) ->
  CrawlIO.html_attempts cfg env disk todo url lp recursive s = (res, s') ->
  skipped_urls s' = skipped_urls s.
Proof.
  induction todo as [| k IH]; intros s res s' Hclean H; cbn [CrawlIO.html_attempts] in H.
  - injection H as _ <-. reflexivity.
  - unfold get in H.
    assert (forall t, skipped_urls t = skipped_urls s ->
                      length (requests t) = S (length (requests s)) ->
                      CrawlIO.html_attempts cfg env disk k url lp recursive
                        (CrawlIO.note_failure k url t) = (res, s') ->
                      skipped_urls s' = skipped_urls s) as Hnext.
    { intros t Hs Hn Ht. apply IH in Ht.
      - rewrite Ht. unfold CrawlIO.note_failure. destruct (Nat.eqb k 0); exact Hs.
      - intros i r Hi Hw. apply (Hclean (S i) r); [lia |].
        replace (length (requests s) + S i) with (length (requests (CrawlIO.note_failure k url t)) + i);
          [exact Hw |].
        unfold CrawlIO.note_failure. destruct (Nat.eqb k 0); cbn; lia. }
    pose proof (Hclean 0) as H0. rewrite Nat.add_0_r in H0.
    destruct (web env (length (requests s)) url) as [| r].
    + eapply Hnext; [| | exact H]; reflexivity.
    + rewrite (H0 r) in H by (lia || reflexivity).
      match type of H with context [CrawlIO.save_html _ _ _ _ _ _ _ ?t] => set (s1 := t) in * end.
      destruct (save_html_shape url lp recursive r s1) as (_ & Hs & Hq & _).
      destruct (CrawlIO.save_html cfg env disk url lp recursive r s1) as [[links |] s2];
        cbn [snd] in Hs, Hq.
      * injection H as _ <-. exact Hs.
      * eapply Hnext; [| | exact H]; [exact Hs | rewrite Hq; reflexivity].
Qed.

(** [k] failed requests, then a clean reply that the disk takes *)
Lemma html_attempts_later_success url lp recursive r k : forall todo s,
  k < todo ->
  (forall i, i < k -> web env (length (requests s) + i) url = Failed) ->
  web env (length (requests s) + k) url = Answered r ->
  history r = [] ->
  TurnSpec.accepts disk (length (requests s) + k + 1) (files s) lp (TurnSpec.page_body env r)
                   (default "text/html" (content_type r)) ->
  exists s',
    CrawlIO.html_attempts cfg env disk todo url lp recursive s
    = (Some (if recursive
             then collect_links cfg env url (Dom.structural_edits (parse_html env (content r)))
             else ∅), s') /\
    (url ∉ retry_urls s') /\
    files s' = <[lp ++ ".metadata" := metadata_line (default "text/html" (content_type r))]>
                 (<[lp := TurnSpec.page_body env r]> (files s)) /\
    skipped_urls s' = skipped_urls s /\ processed_urls s' = processed_urls s /\
    page_links s' = page_links s /\
    requests s' = (repeat url (k + 1) ++ requests s)%list.
Proof.
  induction k as [| k IH]; intros todo s Hk Hfail Hok Hh Hacc.
  - destruct todo as [| t]; [lia |]. cbn [CrawlIO.html_attempts]. unfold get.
    rewrite Nat.add_0_r in Hok, Hacc. rewrite Hok, Hh.
    unfold CrawlIO.save_html. fold (TurnSpec.page_body env r).
    rewrite save_accepted by (cbn; rewrite Nat.add_1_r in Hacc; exact Hacc).
    eexists. split; [reflexivity |]. cbn. repeat split.
    unfold remove. clear. set_solver.
  - destruct todo as [| t]; [lia |]. cbn [CrawlIO.html_attempts]. unfold get.
    pose proof (Hfail 0 ltac:(lia)) as H0. rewrite Nat.add_0_r in H0. rewrite H0.
    unfold CrawlIO.note_failure.
    assert (Nat.eqb t 0 = false) as -> by (apply Nat.eqb_neq; lia).
    match goal with |- context [CrawlIO.html_attempts _ _ _ t _ _ _ ?u] => set (s2 := u) end.
    destruct (IH t s2) as (s' & E & Hr & Hf & Hs & Hp & Hl & Hn).
    + lia.
    + intros i Hi. subst s2. cbn.
      replace (S (length (requests s) + i)) with (length (requests s) + S i) by lia.
      apply Hfail. lia.
    + subst s2. cbn.
      replace (S (length (requests s) + k)) with (length (requests s) + S k) by lia. exact Hok.
    + exact Hh.
    + subst s2. cbn.
      replace (S (length (requests s) + k + 1)) with (length (requests s) + S k + 1) by lia.
      exact Hacc.
    + exists s'. subst s2. cbn in Hr, Hf, Hs, Hp, Hl, Hn.
      split; [exact E |]. repeat split; try assumption.
      rewrite Hn. change (S k + 1) with (S (k + 1)). cbn [repeat Crawl.requests].
      rewrite (repeat_cons (k + 1) url), <- app_assoc. reflexivity.
Qed.

(** when no directory can be made every clean reply is lost *)
Lemma html_attempts_no_directory url lp recursive todo : forall s res s',
  (forall n fs, CrawlIO.makedirs disk n fs lp = false) ->
  CrawlIO.html_attempts cfg env disk todo url lp recursive s = (res, s') ->
  res = None /\ files s' = files s.
Proof.
  induction todo as [| k IH]; intros s res s' Hd H; cbn [CrawlIO.html_attempts] in H.
  - injection H as <- <-. split; reflexivity.
  - unfold get in H. destruct (web env (length (requests s)) url) as [| r].
    + apply IH in H; [| exact Hd]. destruct H as [-> ->]. split; [reflexivity |].
      unfold CrawlIO.note_failure. destruct (Nat.eqb k 0); reflexivity.
    + destruct (history r).
      * unfold CrawlIO.save_html, CrawlIO.save in H. rewrite Hd in H.
        apply IH in H; [| exact Hd]. destruct H as [-> ->]. split; [reflexivity |].
        unfold CrawlIO.note_failure. destruct (Nat.eqb k 0); reflexivity.
      * injection H as <- <-. split; reflexivity.
Qed.

Lemma not_gated url lp retry_mode recursive s :
  retry_mode = false \/ url ∈ retry_urls s ->
  CrawlIO.download_html cfg env disk url lp retry_mode recursive s
  = CrawlIO.html_attempts cfg env disk WEB_RETRY_COUNT url lp recursive s.
Proof.
  intros [-> | Hin]; unfold CrawlIO.download_html; [reflexivity |].
  unfold mem. rewrite bool_decide_eq_true_2 by exact Hin.
  rewrite andb_false_r. reflexivity.
Qed.

Lemma download_html_fetched url lp retry_mode recursive s res s' :
  CrawlIO.download_html cfg env disk url lp retry_mode recursive s = (res, s') ->
  fetched url lp WEB_RETRY_COUNT s s'.
Proof.
  unfold CrawlIO.download_html. destruct (retry_mode && negb (mem url (retry_urls s))).
  - intros [= _ <-]. apply fetched_refl.
  - apply html_attempts_fetched.
Qed.

End WithDisk.

(** on the disk that takes every write the fetch and the turn are those of
  [Crawl] *)
Section Reliable.
Variable cfg : Config.
Variable env : Env.

Lemma reliable_html_attempts url lp recursive todo : forall s,
  CrawlIO.html_attempts cfg env CrawlIO.reliable todo url lp recursive s
  = html_attempts cfg env todo url lp recursive s.
Proof.
  induction todo as [| k IH]; intros s; [reflexivity |].
  cbn [CrawlIO.html_attempts html_attempts]. unfold get.
  destruct (web env (length (requests s)) url) as [| r]; [apply IH |].
  destruct (history r); reflexivity.
Qed.

Lemma reliable_download_html url lp retry_mode recursive s :
  CrawlIO.download_html cfg env CrawlIO.reliable url lp retry_mode recursive s
  = download_html cfg env url lp retry_mode recursive s.
Proof.
  unfold CrawlIO.download_html, download_html.
  destruct (retry_mode && negb (mem url (retry_urls s))); [reflexivity |].
  apply reliable_html_attempts.
Qed.

Lemma reliable_raw_attempts url lp todo : forall s,
  CrawlIO.raw_attempts env CrawlIO.reliable todo url lp s = raw_attempts env todo url lp s.
Proof.
  induction todo as [| k IH]; intros s; [reflexivity |].
  cbn [CrawlIO.raw_attempts raw_attempts]. unfold get.
  destruct (web env (length (requests s)) url) as [| r]; [apply IH | reflexivity].
Qed.

Lemma reliable_worklist_body retry_mode popped s :
  CrawlIO.worklist_body cfg env CrawlIO.reliable retry_mode popped s
  = worklist_body cfg env retry_mode popped s.
Proof.
  unfold CrawlIO.worklist_body, worklist_body.
  destruct (cut_query cfg popped s) as [url s1].
  destruct (mem url (processed_urls s1)); [reflexivity |].
  destruct (negb (String.eqb (NtPath.splitext_ext (worklist_local_path cfg popped url)) EmptyString)
            && negb (is_tagcloud_param cfg popped));
    rewrite ?reliable_raw_attempts, reliable_download_html; reflexivity.
Qed.

End Reliable.

End IOFacts.

Module TurnIOFacts.
Import Crawl.

Section WithDisk.
Variable cfg : Config.
Variable env : Env.
Variable disk : CrawlIO.Disk.

(** the query cut touches the skipped set only *)
Lemma cut_query_frame popped s :
  let s1 := snd (cut_query cfg popped s) in
  page_links s1 = page_links s /\ processed_urls s1 = processed_urls s /\
  retry_urls s1 = retry_urls s /\ files s1 = files s /\ requests s1 = requests s /\
  skipped_urls s ⊆ skipped_urls s1.
Proof.
  unfold cut_query.
  destruct (PyStr.contains "?" popped && negb (is_tagcloud_param cfg popped)); cbn;
    repeat split; try reflexivity; unfold add; clear; set_solver.
Qed.

Lemma record_result_frame url merge res s :
  let s' := record_result url merge (res, s) in
  files s' = files s /\ requests s' = requests s /\
  skipped_urls s' = skipped_urls s /\ retry_urls s' = retry_urls s.
Proof. destruct res as [links |]; [destruct merge |]; cbn; repeat split. Qed.

(** a turn on the index branch is one fetch of the cut URL into the index
  document of its directory *)
Lemma index_turn retry_mode popped s :
  negb (String.eqb (NtPath.splitext_ext
                      (worklist_local_path cfg popped (fst (cut_query cfg popped s))))
                   EmptyString)
  && negb (is_tagcloud_param cfg popped) = false ->
  let url := fst (cut_query cfg popped s) in
  let lp := NtPath.join (worklist_local_path cfg popped url) (index_file_name cfg) in
  let s' := CrawlIO.worklist_body cfg env disk retry_mode popped s in
  TurnSpec.fetches cfg env disk retry_mode url lp s s' /\
  skipped_urls (snd (cut_query cfg popped s)) ⊆ skipped_urls s' /\
  ((forall i r, i < WEB_RETRY_COUNT ->
                web env (length (requests s) + i) url = Answered r -> history r = []) ->
   skipped_urls s' = skipped_urls (snd (cut_query cfg popped s))).
Proof.
  intros Hbranch url lp s'. subst s'. unfold CrawlIO.worklist_body.
  pose proof (cut_query_frame popped s) as Hcut.
  destruct (cut_query cfg popped s) as [url0 s1]. cbn [fst snd] in *. subst url.
  destruct Hcut as (Hl1 & Hp1 & Hr1 & Hf1 & Hq1 & Hs1).
  unfold mem. destruct (bool_decide (url0 ∈ processed_urls s1)) eqn:Hproc.
  - apply bool_decide_eq_true in Hproc. rewrite Hp1 in Hproc.
    split; [| split; [reflexivity | reflexivity]].
    unfold TurnSpec.fetches. split; [| split].
    + exists 0. split; [lia |]. split; [exact Hq1 | tauto].
    + intros q _ _. rewrite Hf1. reflexivity.
    + tauto.
  - apply bool_decide_eq_false in Hproc. rewrite Hbranch. fold lp.
    destruct (CrawlIO.download_html cfg env disk url0 lp retry_mode true s1) as [res s2] eqn:E.
    pose proof (record_result_frame url0 true res s2) as (Rf & Rq & Rs & Rr).
    pose proof (IOFacts.download_html_fetched _ _ _ _ _ _ _ _ _ _ E)
      as (A & B & C & D & _ & F & k & Hk & R).
    split; [| split].
    + unfold TurnSpec.fetches. split; [| split].
      * exists k. split; [exact Hk |]. split; [rewrite Rq, R, Hq1; reflexivity |].
        intros _ Hg. rewrite <- Hr1 in Hg.
        rewrite (IOFacts.not_gated _ _ _ _ _ _ _ _ Hg) in E.
        apply IOFacts.html_attempts_asks in E; [| discriminate].
        rewrite R, length_app, repeat_length in E. lia.
      * intros q H1 H2. rewrite Rf, F, Hf1 by assumption. reflexivity.
      * intros r _ Hg Hweb Hh Hacc. rewrite <- Hr1 in Hg.
        rewrite (IOFacts.not_gated _ _ _ _ _ _ _ _ Hg) in E.
        destruct (IOFacts.html_attempts_later_success cfg env disk url0 lp true r 0
                    WEB_RETRY_COUNT s1) as (s3 & E3 & Hnr & Hfs & _ & _ & Hpl & _).
        -- unfold WEB_RETRY_COUNT. lia.
        -- intros i Hi. lia.
        -- rewrite Hq1, Nat.add_0_r. exact Hweb.
        -- exact Hh.
        -- rewrite Hq1, Hf1, Nat.add_0_r, Nat.add_1_r. exact Hacc.
        -- rewrite E3 in E. injection E as <- <-. cbn.
           rewrite Hfs, Hf1. repeat split.
           ++ rewrite lookup_insert_ne; [apply lookup_insert_eq |].
              intros Heq. symmetry in Heq. exact (metadata_path_differs lp Heq).
           ++ apply lookup_insert_eq.
           ++ unfold add. apply elem_of_union_l, elem_of_singleton. reflexivity.
           ++ exact Hnr.
           ++ apply union_subseteq_r.
    + rewrite Rs. exact C.
    + intros Hclean. rewrite Rs.
      unfold CrawlIO.download_html in E.
      destruct (retry_mode && negb (mem url0 (retry_urls s1))).
      * injection E as _ <-. reflexivity.
      * eapply IOFacts.html_attempts_no_redirect; [| exact E].
        rewrite Hq1. exact Hclean.
Qed.

(** an anchor of the page yields its link *)
Lemma collect_links_href url soup tag href u :
  In tag (Dom.find_all is_a_or_img soup) ->
  attr_nonempty "href" tag = Some href ->
  href_link cfg env url href = Some u ->
  u ∈ collect_links cfg env url soup.
Proof.
  intros Hin Hattr Hlink. unfold collect_links.
  rewrite elem_of_list_to_set, list_elem_of_In, in_flat_map.
  exists tag. split; [exact Hin |]. unfold tag_links. rewrite Hattr, Hlink.
  apply in_or_app. left. left. reflexivity.
Qed.

End WithDisk.

End TurnIOFacts.

(** C8: on the site [https://ex.com] with the mirror in [.\mirror].  An
  anchor [https://ex.com/p?x=1#frag] of the page [https://ex.com/p] is
  collected as [https://ex.com/p?x=1], and a turn on the page puts the
  links collected from a saved reply into the worklist.  A turn on
  [https://ex.com/p?x=1] records that URL as skipped and fetches
  [https://ex.com/p], into [.\mirror\p\index.html].  A turn on
  [https://ex.com/tagcloud?tag=news] fetches that very URL, into
  [.\mirror\tagcloud\news\index.html], and leaves the skipped set as it
  was unless a reply is a redirect. *)
Theorem normalization_examples
        (env : Crawl.Env) (disk : CrawlIO.Disk) (retry_mode : bool) (s : Crawl.State) :
  Crawl.urljoin env "https://ex.com/p" "https://ex.com/p?x=1#frag" = "https://ex.com/p?x=1#frag" ->
  Crawl.urljoin env "https://ex.com/p" "https://ex.com/tagcloud?tag=news"
    = "https://ex.com/tagcloud?tag=news" ->
  let turn := CrawlIO.worklist_body Demo.cfg env disk retry_mode in
  let fetches := TurnSpec.fetches Demo.cfg env disk retry_mode in
  (forall soup tag,
      In tag (Dom.find_all Crawl.is_a_or_img soup) ->
      (Crawl.attr_nonempty "href" tag = Some "https://ex.com/p?x=1#frag" ->
       "https://ex.com/p?x=1" ∈ Crawl.collect_links Demo.cfg env "https://ex.com/p" soup) /\
      (Crawl.attr_nonempty "href" tag = Some "https://ex.com/tagcloud?tag=news" ->
       "https://ex.com/tagcloud?tag=news"
         ∈ Crawl.collect_links Demo.cfg env "https://ex.com/p" soup)) /\
  fetches "https://ex.com/p" ".\mirror\p\index.html" s (turn "https://ex.com/p" s) /\
  fetches "https://ex.com/p" ".\mirror\p\index.html" s (turn "https://ex.com/p?x=1" s) /\
  "https://ex.com/p?x=1" ∈ Crawl.skipped_urls (turn "https://ex.com/p?x=1" s) /\
  fetches "https://ex.com/tagcloud?tag=news" ".\mirror\tagcloud\news\index.html" s
          (turn "https://ex.com/tagcloud?tag=news" s) /\
  ((forall i r, i < 3 ->
                Crawl.web env (length (Crawl.requests s) + i) "https://ex.com/tagcloud?tag=news"
                = Crawl.Answered r ->
                Crawl.history r = []) ->
   Crawl.skipped_urls (turn "https://ex.com/tagcloud?tag=news" s) = Crawl.skipped_urls s).
Proof.
  intros H1 H2 turn fetches. subst turn fetches.
  split; [| split; [| split; [| split; [| split]]]].
  - intros soup tag Hin. split; intros Hattr;
      eapply TurnIOFacts.collect_links_href; try eassumption;
      unfold Crawl.href_link; [rewrite H1 | rewrite H2]; reflexivity.
  - exact (proj1 (TurnIOFacts.index_turn Demo.cfg env disk retry_mode "https://ex.com/p" s
                    eq_refl)).
  - exact (proj1 (TurnIOFacts.index_turn Demo.cfg env disk retry_mode "https://ex.com/p?x=1" s
                    eq_refl)).
  - apply (proj1 (proj2 (TurnIOFacts.index_turn Demo.cfg env disk retry_mode
                           "https://ex.com/p?x=1" s eq_refl))).
    change ("https://ex.com/p?x=1"
              ∈ Crawl.skipped_urls (Crawl.with_skipped (Crawl.add "https://ex.com/p?x=1") s)).
    cbn. unfold Crawl.add. apply elem_of_union_l, elem_of_singleton. reflexivity.
  - exact (proj1 (TurnIOFacts.index_turn Demo.cfg env disk retry_mode
                    "https://ex.com/tagcloud?tag=news" s eq_refl)).
  - exact (proj2 (proj2 (TurnIOFacts.index_turn Demo.cfg env disk retry_mode
                           "https://ex.com/tagcloud?tag=news" s eq_refl))).
Qed.

Lemma normalization_examples_witness :
  let env := Demo.env Demo.png Demo.feed in
  let turn := CrawlIO.worklist_body Demo.cfg env CrawlIO.reliable false in
  "https://ex.com/p?x=1"
    ∈ Crawl.collect_links Demo.cfg env "https://ex.com/p" (Demo.linking "https://ex.com/p?x=1#frag") /\
  "https://ex.com/p?x=1" ∈ Crawl.skipped_urls (turn "https://ex.com/p?x=1" (Crawl.initial ∅)) /\
  Crawl.requests (turn "https://ex.com/p?x=1" (Crawl.initial ∅)) = ["https://ex.com/p"] /\
  Crawl.files (turn "https://ex.com/tagcloud?tag=news" (Crawl.initial ∅))
    !! ".\mirror\tagcloud\news\index.html" = Some "NEWS" /\
  Crawl.skipped_urls (turn "https://ex.com/tagcloud?tag=news" (Crawl.initial ∅)) = ∅.
Proof.
  intros env turn.
  destruct (normalization_examples env CrawlIO.reliable false (Crawl.initial ∅)
              eq_refl eq_refl) as (A & _ & _ & C & D & E).
  split; [| split; [exact C | split; [reflexivity | split]]].
  - apply (A (Demo.linking "https://ex.com/p?x=1#frag")
             (Dom.Elem "a" [("href", "https://ex.com/p?x=1#frag")] [Dom.Text "next"])).
    + vm_compute. left. reflexivity.
    + reflexivity.
  - destruct D as (_ & _ & D).
    apply (D {| Crawl.history := []; Crawl.content := "NEWS";
                Crawl.content_type := Some "text/html" |}).
    + apply not_elem_of_empty.
    + left. reflexivity.
    + reflexivity.
    + reflexivity.
    + repeat split.
  - apply E. intros i r _. cbn. intros [= <-]. reflexivity.
Defined.

(** C2: the code departs from the claim.  After the raw download of the
  extension branch the loop body goes on to [download_html] with the same
  URL and path: outside retry mode the asset is requested a second time,
  parsed, edited and serialised, and that text replaces the raw bytes in
  the file. *)
Theorem asset_rewritten_by_html_path
        (cfg : Crawl.Config) (env : Crawl.Env) (url : string) (s : Crawl.State)
        (r1 r2 : Crawl.Response) :
  PyStr.contains "?" url = false ->
  Crawl.is_tagcloud_param cfg url = false ->
  url ∉ Crawl.processed_urls s ->
  NtPath.splitext_ext (Crawl.local_path_of cfg url) <> EmptyString ->
  Crawl.web env (length (Crawl.requests s)) url = Crawl.Answered r1 ->
  Crawl.web env (S (length (Crawl.requests s))) url = Crawl.Answered r2 ->
  Crawl.history r2 = [] ->
  Crawl.files (Crawl.worklist_body cfg env false url s) !! Crawl.local_path_of cfg url
  = Some (PyStr.replace "/tagcloud?tag=" "/tagcloud/"
            (Crawl.str_soup env (Dom.structural_edits (Crawl.parse_html env (Crawl.content r2))))).
Proof.
  intros Hq Htag Hnew Hext H1 H2 Hh.
  unfold Crawl.worklist_body, Crawl.cut_query, Crawl.worklist_local_path.
  rewrite Hq, Htag. cbn [andb negb].
  unfold Crawl.mem. rewrite bool_decide_eq_false_2 by exact Hnew.
  apply String.eqb_neq in Hext. rewrite Hext. cbn [andb negb].
  set (lp := Crawl.local_path_of cfg url).
  unfold Crawl.WEB_RETRY_COUNT. cbn [Crawl.raw_attempts]. unfold Crawl.get at 1. rewrite H1.
  unfold Crawl.download_html, Crawl.WEB_RETRY_COUNT. cbn [andb]. cbn [Crawl.html_attempts].
  unfold Crawl.get. cbn [Crawl.requests Crawl.with_processed Crawl.with_retry Crawl.save
                         Crawl.with_files length].
  rewrite H2, Hh. unfold Crawl.save_html, Crawl.record_result.
  cbn [Crawl.files Crawl.with_processed Crawl.with_page_links Crawl.with_retry Crawl.save
       Crawl.with_files].
  rewrite lookup_insert_ne by (intros E; symmetry in E; exact (metadata_path_differs lp E)).
  apply lookup_insert_eq.
Qed.

Lemma asset_rewritten_by_html_path_witness :
  Crawl.files (Crawl.worklist_body Demo.cfg (Demo.env Demo.tagged_asset Demo.feed) false
                 "https://ex.com/a.png" (Crawl.initial ∅)) !! ".\mirror\a.png"
  = Some "see /tagcloud/news".
Proof.
  apply (asset_rewritten_by_html_path Demo.cfg (Demo.env Demo.tagged_asset Demo.feed)
           "https://ex.com/a.png" (Crawl.initial ∅)
           {| Crawl.history := []; Crawl.content := "see /tagcloud?tag=news";
              Crawl.content_type := Some "text/plain" |}
           {| Crawl.history := []; Crawl.content := "see /tagcloud?tag=news";
              Crawl.content_type := Some "text/plain" |}).
  - reflexivity.
  - reflexivity.
  - apply not_elem_of_empty.
  - discriminate.
  - reflexivity.
  - reflexivity.
  - reflexivity.
Defined.

(** on the HTML path a redirected reply is recorded as skipped, nothing is
  written, and no links come back *)
Lemma download_html_redirect cfg env url local_path recursive s r :
  Crawl.web env (length (Crawl.requests s)) url = Crawl.Answered r ->
  Crawl.history r <> [] ->
  exists s',
    Crawl.download_html cfg env url local_path false recursive s = (None, s') /\
    Crawl.files s' = Crawl.files s /\
    Crawl.processed_urls s' = Crawl.processed_urls s /\
    url ∈ Crawl.skipped_urls s'.
Proof.
  intros Hweb Hh. unfold Crawl.download_html, Crawl.WEB_RETRY_COUNT.
  cbn [andb Crawl.html_attempts]. unfold Crawl.get. rewrite Hweb.
  destruct (Crawl.history r) as [| h hs]; [congruence |].
  eexists. split; [reflexivity |]. cbn. repeat split.
  unfold Crawl.add. apply elem_of_union_l, elem_of_singleton. reflexivity.
Qed.

(** C4: the code departs from the claim on the extension branch.  Its raw
  download never looks at the response history: the redirected asset is
  written to disk and recorded as processed (the fetch by [download_html]
  that follows then records it as skipped as well). *)
Theorem redirected_asset_saved_and_processed :
  let s := Crawl.worklist_body Demo.cfg (Demo.env Demo.moved_png Demo.feed) false
             "https://ex.com/a.png" (Crawl.initial ∅) in
  Crawl.files s !! ".\mirror\a.png" = Some "PNG" /\
  Crawl.mem "https://ex.com/a.png" (Crawl.processed_urls s) = true /\
  Crawl.mem "https://ex.com/a.png" (Crawl.skipped_urls s) = true.
Proof. repeat split; vm_compute; reflexivity. Qed.

(** ** The upload pass *)

(** C6: the code departs from the claim.  The handler of a failed upload
  names [retry_file], not the set [retry_files], and raises in its turn:
  the first failed upload ends the walk, the second page is never offered
  to the store, and nothing reaches the retry set. *)
Theorem upload_failure_ends_batch :
  Upload.upload_pass DemoUpload.bucket DemoUpload.fs DemoUpload.refuse_a DemoUpload.tree
  = Upload.Crashed {| Upload.retry_files := ∅; Upload.uploaded := [];
                      Upload.log := [Upload.ErrorUpload ".\bkt\a.html" "a.html"];
                      Upload.processed_files := 0 |}.
Proof. vm_compute. reflexivity. Qed.

Example upload_all_accepted :
  exists s, Upload.upload_pass DemoUpload.bucket DemoUpload.fs DemoUpload.accept_all DemoUpload.tree
            = Upload.Finished s /\
            map Upload.obj_key (Upload.uploaded s) = ["b.html"; "a.html"].
Proof. eexists. split; vm_compute; reflexivity. Qed.

(** whatever the state and the file, an upload that raises ends the walk
  and leaves the retry set as it was *)
Lemma visit_upload_failure bucket fs upload_file retry_mode root file s s' :
  Upload.visit bucket fs upload_file retry_mode root file s = inr s' ->
  Upload.retry_files s' = Upload.retry_files s /\ Upload.uploaded s' = Upload.uploaded s.
Proof.
  unfold Upload.visit. repeat (match goal with
  | |- context [if ?b then _ else _] => destruct b
  | |- context [match ?o with Some _ => _ | None => _ end] => destruct o
  end; try discriminate).
  intros [= <-]. split; reflexivity.
Qed.

Lemma load_sitemap_absent_lastmod_empties_feed_witness :
  fst (Crawl.load_sitemap
         (Demo.env Demo.png [Demo.entry_of "https://ex.com/a" (Some "2024-01-01T00:00:00+0900");
                             Demo.entry_of "https://ex.com/b" None])
         "https://ex.com/sitemap.xml" (Crawl.initial ∅)) = [].
Proof.
  apply (load_sitemap_absent_lastmod_empties_feed
           (Demo.env Demo.png [Demo.entry_of "https://ex.com/a" (Some "2024-01-01T00:00:00+0900");
                               Demo.entry_of "https://ex.com/b" None])
           "https://ex.com/sitemap.xml" (Crawl.initial ∅)
           {| Crawl.history := []; Crawl.content := "FEED";
              Crawl.content_type := Some "application/xml" |}
           [Demo.entry_of "https://ex.com/a" (Some "2024-01-01T00:00:00+0900");
            Demo.entry_of "https://ex.com/b" None]
           (Demo.entry_of "https://ex.com/b" None)).
  - reflexivity.
  - reflexivity.
  - right. left. reflexivity.
  - reflexivity.
Defined.

Example load_sitemap_with_lastmod :
  map Crawl.loc (fst (Crawl.load_sitemap
         (Demo.env Demo.png [Demo.entry_of "https://ex.com/b" (Some "2024-01-02T00:00:00+0900");
                             Demo.entry_of "https://ex.com/a" (Some "2024-01-01T00:00:00+0900")])
         "https://ex.com/sitemap.xml" (Crawl.initial ∅)))
  = [Some "https://ex.com/a"; Some "https://ex.com/b"].
Proof. reflexivity. Qed.

(** the test for the site is a test on the leading characters of the URL *)
Example same_origin_is_a_prefix_test :
  Crawl.same_origin Demo.cfg "https://other.com/x" = false /\
  Crawl.same_origin Demo.cfg "https://ex.com/p" = true /\
  Crawl.same_origin Demo.cfg "https://ex.com.evil.org/x" = true.
Proof. repeat split; reflexivity. Qed.

(** a sidecar file is never offered to the store *)
Lemma visit_metadata_skipped bucket fs upload_file retry_mode root file s :
  PyStr.endswith file ".metadata" = true ->
  Upload.visit bucket fs upload_file retry_mode root file s = inl s.
Proof. intros H. unfold Upload.visit. rewrite H. reflexivity. Qed.

(** a file whose sidecar has no [Content-Type] line is passed over with a
  warning and the walk goes on *)
Lemma visit_without_content_type bucket fs upload_file root file s text :
  PyStr.endswith file ".metadata" = false ->
  fs !! (NtPath.join root file ++ ".metadata") = Some text ->
  Upload.read_content_type (PyStr.file_lines text) = None ->
  Upload.visit bucket fs upload_file false root file s
  = inl (Upload.logged (Upload.WarnNoContentType (NtPath.join root file ++ ".metadata")) s).
Proof.
  intros Hm Hfs Hct. unfold Upload.visit. rewrite Hm. cbn [andb]. rewrite Hfs, Hct. reflexivity.
Qed.

(** a fetch on the HTML path that hands back links has left the skipped set alone *)
Lemma html_attempts_links_keep_skipped cfg env todo url local_path recursive :
  forall s links s',
    Crawl.html_attempts cfg env todo url local_path recursive s = (Some links, s') ->
    Crawl.skipped_urls s' = Crawl.skipped_urls s.
Proof.
  induction todo as [| k IH]; intros s links s' H; cbn in H; [discriminate |].
  destruct (Crawl.web env (length (Crawl.requests s)) url) as [| r].
  - apply IH in H. rewrite H. destruct (Nat.eqb k 0); reflexivity.
  - destruct (Crawl.history r); [| discriminate].
    unfold Crawl.save_html in H. injection H as _ <-. reflexivity.
Qed.

(** * Further properties of the two scripts *)

(** ** [sorted] *)

Module SortFacts.

Section Keyed.
Context {A : Type} (key : A -> string).

Local Abbreviation key_le := (PySort.key_le key).

Lemma insert_by_perm x l : Permutation (PySort.insert_by key x l) (x :: l).
Proof.
  induction l as [| y l IH]; cbn; [reflexivity |].
  destruct (String.leb (key y) (key x)); [| reflexivity].
  rewrite IH. apply perm_swap.
Qed.

Lemma sort_by_perm l : Permutation (PySort.sort_by key l) l.
Proof.
  unfold PySort.sort_by.
  assert (forall acc, Permutation (fold_left (fun a x => PySort.insert_by key x a) l acc)
                                  (l ++ acc)%list) as H.
  { induction l as [| x l IH]; intros acc; cbn; [reflexivity |].
    rewrite IH, insert_by_perm. symmetry. apply Permutation_middle. }
  rewrite H, app_nil_r. reflexivity.
Qed.

Lemma insert_by_hd x y l :
  key_le y x -> HdRel key_le y l -> HdRel key_le y (PySort.insert_by key x l).
Proof.
  intros Hyx Hl. destruct l as [| z l]; cbn; [constructor; exact Hyx |].
  destruct (String.leb (key z) (key x)); constructor; [| exact Hyx].
  inversion Hl; assumption.
Qed.

Lemma insert_by_sorted x l : Sorted key_le l -> Sorted key_le (PySort.insert_by key x l).
Proof.
  induction 1 as [| y l Hs IH Hhd]; cbn; [repeat constructor |].
  destruct (String.leb (key y) (key x)) eqn:E.
  - constructor; [exact IH |]. apply insert_by_hd; [exact E | exact Hhd].
  - constructor; [constructor; assumption |]. constructor.
    destruct (String.leb_total (key x) (key y)) as [H | H]; [exact H | congruence].
Qed.

Lemma sort_by_sorted l : Sorted key_le (PySort.sort_by key l).
Proof.
  unfold PySort.sort_by.
  assert (forall acc, Sorted key_le acc ->
                      Sorted key_le (fold_left (fun a x => PySort.insert_by key x a) l acc)) as H.
  { induction l as [| x l IH]; intros acc Hacc; cbn; [exact Hacc |].
    apply IH, insert_by_sorted, Hacc. }
  apply H. constructor.
Qed.

End Keyed.

End SortFacts.

(** [sorted] (and the keyed sort of the sitemap) returns its input in
    ascending order of the keys, and neither drops nor repeats an element. *)
Theorem sort_by_sorted_permutation {A : Type} (key : A -> string) (l : list A) :
  Sorted (PySort.key_le key) (PySort.sort_by key l) /\
  Permutation (PySort.sort_by key l) l.
Proof. split; [apply SortFacts.sort_by_sorted | apply SortFacts.sort_by_perm]. Qed.

(** ** Text files: lines and blanks *)

Module TextFacts.

Definition LF : ascii := "010"%char.

Lemma append_nil_r (s : string) : s ++ EmptyString = s.
Proof. induction s as [| c s IH]; [reflexivity |]. rewrite StrFacts.app_cons, IH. reflexivity. Qed.

Lemma append_assoc (a b c : string) : (a ++ b) ++ c = a ++ (b ++ c).
Proof.
  induction a as [| x a IH]; [reflexivity |]. rewrite !StrFacts.app_cons, IH. reflexivity.
Qed.

Lemma concat_cons (x : string) (xs : list string) :
  String.concat EmptyString (x :: xs) = x ++ String.concat EmptyString xs.
Proof. destruct xs; cbn; [symmetry; apply append_nil_r | reflexivity]. Qed.

(** a line without a line feed, followed by one, is read back as one line *)
Lemma contains_cons c d s :
  PyStr.contains c (String d s) = if Ascii.eqb c d then true else PyStr.contains c s.
Proof. reflexivity. Qed.

Lemma lines_from_cons cur c s :
  PyStr.lines_from cur (String c s)
  = if Ascii.eqb c LF
    then (cur ++ String c EmptyString) :: PyStr.lines_from EmptyString s
    else PyStr.lines_from (cur ++ String c EmptyString) s.
Proof. reflexivity. Qed.

Lemma lines_from_line u : forall cur rest,
  PyStr.contains LF u = false ->
  PyStr.lines_from cur (u ++ Dom.newline ++ rest)
  = (cur ++ u ++ Dom.newline) :: PyStr.lines_from EmptyString rest.
Proof.
  induction u as [| c u IH]; intros cur rest H.
  - reflexivity.
  - rewrite StrFacts.app_cons, lines_from_cons. rewrite contains_cons in H.
    rewrite Ascii.eqb_sym. destruct (Ascii.eqb LF c); [discriminate |].
    rewrite (IH _ _ H), append_assoc. reflexivity.
Qed.

Definition CR : ascii := "013"%char.

Lemma text_write_cons c s :
  PyStr.text_write (String c s)
  = if Ascii.eqb c LF then String CR (String LF (PyStr.text_write s))
    else String c (PyStr.text_write s).
Proof. reflexivity. Qed.

(** a text without carriage returns is read as it was written *)
Lemma read_back (t : string) :
  PyStr.contains CR t = false -> PyStr.universal (PyStr.text_write t) = t.
Proof.
  induction t as [| c t IH]; intros H; [reflexivity |].
  rewrite contains_cons in H. destruct (Ascii.eqb CR c) eqn:Ec; [discriminate |].
  rewrite text_write_cons. destruct (Ascii.eqb c LF) eqn:El.
  - apply Ascii.eqb_eq in El. subst c. cbn. fold LF. rewrite (IH H). reflexivity.
  - cbn [PyStr.universal]. fold CR. rewrite Ascii.eqb_sym, Ec, (IH H). reflexivity.
Qed.

Lemma contains_lines c (us : list string) :
  Ascii.eqb c LF = false ->
  Forall (fun u => PyStr.contains c u = false) us ->
  PyStr.contains c (String.concat EmptyString (map (fun u => u ++ Dom.newline) us)) = false.
Proof.
  intros Hc. induction 1 as [| u us Hu _ IH]; [reflexivity |].
  cbn [map]. rewrite concat_cons, !StrFacts.contains_app, Hu, IH.
  unfold Dom.newline. rewrite contains_cons. fold LF. rewrite Hc. reflexivity.
Qed.

Lemma file_lines_written (us : list string) :
  Forall (fun u => PyStr.contains LF u = false) us ->
  Forall (fun u => PyStr.contains CR u = false) us ->
  PyStr.file_lines (String.concat EmptyString (map (fun u => u ++ Dom.newline) us))
  = map (fun u => u ++ Dom.newline) us.
Proof.
  intros Hlf Hcr. unfold PyStr.file_lines.
  rewrite read_back by (apply contains_lines; [reflexivity | exact Hcr]).
  clear Hcr. induction Hlf as [| u us Hu _ IH]; [reflexivity |].
  cbn [map]. rewrite concat_cons, append_assoc, (lines_from_line u _ _ Hu), IH. reflexivity.
Qed.

Lemma rstrip_space_newline (s : string) :
  PyStr.rstrip_space (s ++ Dom.newline) = PyStr.rstrip_space s.
Proof.
  induction s as [| c s IH]; [reflexivity |].
  rewrite StrFacts.app_cons. cbn. rewrite IH. reflexivity.
Qed.

Lemma strip_newline (s : string) : PyStr.strip (s ++ Dom.newline) = PyStr.strip s.
Proof.
  unfold PyStr.strip. induction s as [| c s IH]; [reflexivity |].
  rewrite StrFacts.app_cons. cbn. destruct (PyStr.is_space c); [exact IH |].
  change (String c (s ++ Dom.newline)) with (String c s ++ Dom.newline).
  apply rstrip_space_newline.
Qed.

End TextFacts.

(** ** The retry ledger between two runs *)

Module LedgerFacts.
Import Crawl.

Lemma sorted_perm (l : list string) : Permutation (PySort.sorted l) l.
Proof. apply SortFacts.sort_by_perm. Qed.

Lemma one_line_plain u :
  PyStr.one_line u = true ->
  PyStr.contains TextFacts.LF u = false /\ PyStr.contains TextFacts.CR u = false.
Proof.
  unfold PyStr.one_line. intros H. apply andb_prop in H. destruct H as [H Hcr].
  apply andb_prop in H. destruct H as [_ Hlf].
  apply negb_true_iff in Hcr, Hlf. split; assumption.
Qed.

(** the set read back from the text that [write_lines] produced *)
Lemma read_written_lines (urls : gset string) :
  (forall u, u ∈ urls -> PyStr.one_line u = true /\ PyStr.strip u = u) ->
  list_to_set (map PyStr.strip
                 (PyStr.file_lines
                    (String.concat EmptyString
                       (map (fun u => u ++ Dom.newline) (PySort.sorted (elements urls))))))
  = urls.
Proof.
  intros Hok.
  assert (Forall (fun u => PyStr.one_line u = true /\ PyStr.strip u = u)
                 (PySort.sorted (elements urls))) as HF.
  { apply Forall_forall. intros u Hu. apply list_elem_of_In in Hu.
    apply Hok, elem_of_elements, list_elem_of_In.
    eapply Permutation_in; [apply sorted_perm | exact Hu]. }
  rewrite TextFacts.file_lines_written.
  - rewrite map_map.
    assert (map (fun u => PyStr.strip (u ++ Dom.newline)) (PySort.sorted (elements urls))
            = PySort.sorted (elements urls)) as ->.
    { induction HF as [| u us [_ Hu] _ IH]; [reflexivity |].
      cbn [map]. rewrite TextFacts.strip_newline, Hu, IH. reflexivity. }
    rewrite (list_to_set_perm_L _ _ (sorted_perm (elements urls))).
    apply list_to_set_elements_L.
  - eapply Forall_impl; [exact HF |]. intros u [Hu _]. apply one_line_plain, Hu.
  - eapply Forall_impl; [exact HF |]. intros u [Hu _]. apply one_line_plain, Hu.
Qed.

End LedgerFacts.

(** X1: the ledger that a run leaves behind is the ledger the next run
    starts from.  When failures remain the next run is in retry mode with
    exactly the same set of URLs, provided each of them is ASCII text without
    a line break and without outer blanks; when none remain the file is gone
    and the next run is a full crawl. *)
Theorem ledger_round_trip (cfg : Crawl.Config) (s : Crawl.State) :
  (forall u, u ∈ Crawl.retry_urls s -> PyStr.one_line u = true /\ PyStr.strip u = u) ->
  let next := Crawl.load_ledger cfg (Crawl.initial (Crawl.files (Crawl.persist_ledger cfg s))) in
  (Crawl.retry_urls s = ∅ -> fst next = false /\ Crawl.retry_urls (snd next) = ∅) /\
  (Crawl.retry_urls s <> ∅ -> fst next = true /\ Crawl.retry_urls (snd next) = Crawl.retry_urls s).
Proof.
  intros Hok next. subst next. unfold Crawl.load_ledger.
  destruct (RunFacts.persist_ledger_file cfg s) as [Hgone Hkept].
  cbn [Crawl.files Crawl.initial]. split; intros H.
  - rewrite (Hgone H). split; reflexivity.
  - rewrite (Hkept H). cbn [fst snd Crawl.retry_urls Crawl.with_retry]. split; [reflexivity |].
    apply LedgerFacts.read_written_lines, Hok.
Qed.

Lemma ledger_round_trip_witness :
  Crawl.retry_urls
    (snd (Crawl.load_ledger Demo.cfg
            (Crawl.initial (Crawl.files (Crawl.persist_ledger Demo.cfg Demo.retry_state)))))
  = Crawl.retry_urls Demo.retry_state.
Proof.
  apply (ledger_round_trip Demo.cfg Demo.retry_state).
  - intros u Hu. cbn in Hu. apply elem_of_singleton in Hu. subst u. split; reflexivity.
  - intros H. apply (f_equal (fun X => Crawl.mem "https://ex.com/q" X)) in H.
    vm_compute in H. discriminate H.
Defined.

(** ** The sidecar between the crawl and the upload *)

Lemma substring_all (s : string) : String.substring 0 (String.length s) s = s.
Proof. induction s as [| c s IH]; [reflexivity |]. cbn. rewrite IH. reflexivity. Qed.

Lemma metadata_line_lines (ct : string) :
  PyStr.contains TextFacts.LF ct = false ->
  PyStr.contains TextFacts.CR ct = false ->
  PyStr.file_lines (Crawl.metadata_line ct) = [Crawl.metadata_line ct].
Proof.
  intros H Hcr.
  pose proof (TextFacts.file_lines_written ["Content-Type: " ++ ct]) as L.
  cbn [map String.concat] in L. rewrite TextFacts.append_assoc in L. apply L.
  - constructor; [| constructor]. rewrite StrFacts.contains_app, H. reflexivity.
  - constructor; [| constructor]. rewrite StrFacts.contains_app, Hcr. reflexivity.
Qed.

(** X2: the sidecar that the crawl writes for a content type is read back
    by the upload pass as that content type, outer blanks removed, whenever
    the content type is ASCII text without a line break. *)
Theorem sidecar_round_trip (ct : string) :
  PyStr.one_line ct = true ->
  Upload.read_content_type (PyStr.file_lines (Crawl.metadata_line ct)) = Some (PyStr.strip ct).
Proof.
  intros H1. destruct (LedgerFacts.one_line_plain ct H1) as [H Hcr].
  rewrite (metadata_line_lines ct H Hcr). unfold Upload.read_content_type.
  assert (Crawl.metadata_line ct
          = "Content-Type:" ++ String " " (ct ++ Dom.newline)) as -> by reflexivity.
  change (PyStr.startswith ("Content-Type:" ++ String " " (ct ++ Dom.newline)) "Content-Type:")
    with true. cbv iota.
  assert (String.substring 13
            (String.length ("Content-Type:" ++ String " " (ct ++ Dom.newline)) - 13)
            ("Content-Type:" ++ String " " (ct ++ Dom.newline))
          = String " " (ct ++ Dom.newline)) as ->.
  { rewrite RunFacts.length_app.
    change (String.length "Content-Type:") with 13.
    replace (13 + String.length (String " " (ct ++ Dom.newline)) - 13)
      with (String.length (String " " (ct ++ Dom.newline))) by lia.
    change (String.substring 13 ?n ("Content-Type:" ++ ?r)) with (String.substring 0 n r).
    apply substring_all. }
  f_equal. change (PyStr.strip (String " " (ct ++ Dom.newline)))
    with (PyStr.strip (ct ++ Dom.newline)).
  apply TextFacts.strip_newline.
Qed.

Lemma sidecar_round_trip_witness :
  Upload.read_content_type (PyStr.file_lines (Crawl.metadata_line "text/html; charset=utf-8"))
  = Some "text/html; charset=utf-8".
Proof. apply (sidecar_round_trip "text/html; charset=utf-8"). reflexivity. Defined.

(** ** One fetch: attempts, results and records *)

Module FetchFacts.
Import Crawl.

Section WithSite.
Variable cfg : Config.
Variable env : Env.

Lemma html_attempts_all_failed url local_path recursive todo : forall s,
  (forall i, i < todo -> web env (length (requests s) + i) url = Failed) ->
  exists s',
    html_attempts cfg env todo url local_path recursive s = (None, s') /\
    retry_urls s' = (if Nat.eqb todo 0 then retry_urls s else {[url]} ∪ retry_urls s) /\
    files s' = files s /\ skipped_urls s' = skipped_urls s /\
    processed_urls s' = processed_urls s /\ page_links s' = page_links s /\
    length (requests s') = length (requests s) + todo.
Proof.
  induction todo as [| k IH]; intros s Hweb.
  - exists s. cbn. repeat split; lia.
  - cbn [html_attempts]. unfold get.
    pose proof (Hweb 0 ltac:(lia)) as H0. rewrite Nat.add_0_r in H0. rewrite H0.
    match goal with |- context [html_attempts _ _ k _ _ _ ?t] => set (s2 := t) end.
    destruct (IH s2) as (s' & E & Hr & Hf & Hs & Hp & Hl & Hn).
    { intros i Hi. subst s2. destruct (Nat.eqb k 0); cbn;
        (replace (S (length (requests s) + i)) with (length (requests s) + S i) by lia);
        apply Hweb; lia. }
    exists s'. split; [exact E |]. subst s2. cbn [Nat.eqb].
    destruct k as [| k']; cbn in Hr, Hf, Hs, Hp, Hl, Hn |- *.
    + rewrite Hr, Hf, Hs, Hp, Hl, Hn. repeat split; lia.
    + rewrite Hr, Hf, Hs, Hp, Hl, Hn. repeat split; lia.
Qed.

Lemma html_attempts_requests url local_path recursive todo : forall s res s',
  html_attempts cfg env todo url local_path recursive s = (res, s') ->
  length (requests s) <= length (requests s') <= length (requests s) + todo.
Proof.
  induction todo as [| k IH]; intros s res s' H; cbn [html_attempts] in H.
  - injection H as _ <-. lia.
  - unfold get in H. destruct (web env (length (requests s)) url) as [| r].
    + apply IH in H. destruct (Nat.eqb k 0); cbn in H; lia.
    + destruct (history r).
      * unfold save_html in H. injection H as _ <-. cbn. lia.
      * injection H as _ <-. cbn. lia.
Qed.

End WithSite.

End FetchFacts.

Lemma not_gated_attempts cfg env url local_path retry_mode recursive s :
  retry_mode = false \/ url ∈ Crawl.retry_urls s ->
  Crawl.download_html cfg env url local_path retry_mode recursive s
  = Crawl.html_attempts cfg env Crawl.WEB_RETRY_COUNT url local_path recursive s.
Proof.
  intros [-> | Hin]; unfold Crawl.download_html; [reflexivity |].
  unfold Crawl.mem. rewrite bool_decide_eq_true_2 by exact Hin.
  rewrite andb_false_r. reflexivity.
Qed.

(** X3: when all three attempts of a fetch fail, [download_html] hands
    back no result, has made exactly three requests, has put the URL into the
    retry ledger and has touched neither the files nor the processed and
    skipped sets. *)
Theorem download_html_exhausted
        (cfg : Crawl.Config) (env : Crawl.Env) (url local_path : string)
        (retry_mode recursive : bool) (s : Crawl.State) :
  retry_mode = false \/ url ∈ Crawl.retry_urls s ->
  (forall i, i < 3 -> Crawl.web env (length (Crawl.requests s) + i) url = Crawl.Failed) ->
  exists s',
    Crawl.download_html cfg env url local_path retry_mode recursive s = (None, s') /\
    Crawl.retry_urls s' = {[url]} ∪ Crawl.retry_urls s /\
    Crawl.files s' = Crawl.files s /\
    Crawl.skipped_urls s' = Crawl.skipped_urls s /\
    Crawl.processed_urls s' = Crawl.processed_urls s /\
    length (Crawl.requests s') = length (Crawl.requests s) + 3.
Proof.
  intros Hg Hweb. rewrite (not_gated_attempts _ _ _ _ _ _ _ Hg).
  destruct (FetchFacts.html_attempts_all_failed cfg env url local_path recursive 3 s Hweb)
    as (s' & E & Hr & Hf & Hs & Hp & _ & Hn).
  exists s'. repeat split; assumption.
Qed.

Lemma download_html_exhausted_witness :
  exists s',
    Crawl.download_html Demo.cfg (DemoFlaky.env 3 "P") "https://ex.com/p" ".\mirror\p\index.html"
      false true (Crawl.initial ∅) = (None, s') /\
    Crawl.retry_urls s' = {["https://ex.com/p"]} ∪ Crawl.retry_urls (Crawl.initial ∅).
Proof.
  destruct (download_html_exhausted Demo.cfg (DemoFlaky.env 3 "P") "https://ex.com/p"
              ".\mirror\p\index.html" false true (Crawl.initial ∅))
    as (s' & E & Hr & _).
  - left. reflexivity.
  - intros i Hi. cbn. destruct i as [| [| [| i]]]; [reflexivity | reflexivity | reflexivity | lia].
  - exists s'. split; assumption.
Defined.

(** X4: a fetch that fails [k] times ([k] below three) and then gets a
    clean answer which the disk takes succeeds on attempt [k + 1]: the edited
    page and its sidecar are on disk, the URL is out of the retry ledger, and
    [k + 1] requests were made, all for the URL. *)
Theorem download_html_later_success
        (cfg : Crawl.Config) (env : Crawl.Env) (disk : CrawlIO.Disk) (url local_path : string)
        (retry_mode recursive : bool) (s : Crawl.State) (k : nat) (r : Crawl.Response) :
  retry_mode = false \/ url ∈ Crawl.retry_urls s ->
  k < 3 ->
  (forall i, i < k -> Crawl.web env (length (Crawl.requests s) + i) url = Crawl.Failed) ->
  Crawl.web env (length (Crawl.requests s) + k) url = Crawl.Answered r ->
  Crawl.history r = [] ->
  TurnSpec.accepts disk (length (Crawl.requests s) + k + 1) (Crawl.files s) local_path
                   (TurnSpec.page_body env r) (default "text/html" (Crawl.content_type r)) ->
  exists links s',
    CrawlIO.download_html cfg env disk url local_path retry_mode recursive s = (Some links, s') /\
    (url ∉ Crawl.retry_urls s') /\
    Crawl.files s' !! local_path
    = Some (PyStr.replace "/tagcloud?tag=" "/tagcloud/"
              (Crawl.str_soup env
                 (Dom.structural_edits (Crawl.parse_html env (Crawl.content r))))) /\
    Crawl.files s' !! (local_path ++ ".metadata")
    = Some (Crawl.metadata_line (default "text/html" (Crawl.content_type r))) /\
    Crawl.requests s' = (repeat url (k + 1) ++ Crawl.requests s)%list.
Proof.
  intros Hg Hk Hfail Hok Hh Hacc. rewrite (IOFacts.not_gated _ _ _ _ _ _ _ _ Hg).
  destruct (IOFacts.html_attempts_later_success cfg env disk url local_path recursive r k
              Crawl.WEB_RETRY_COUNT s Hk Hfail Hok Hh Hacc)
    as (s' & E & Hr & Hf & _ & _ & _ & Hn).
  eexists _, s'. split; [exact E |]. rewrite Hf. repeat split.
  - exact Hr.
  - rewrite lookup_insert_ne
      by (intros Heq; symmetry in Heq; exact (metadata_path_differs local_path Heq)).
    apply lookup_insert_eq.
  - apply lookup_insert_eq.
  - exact Hn.
Qed.

Lemma download_html_later_success_witness :
  exists links s',
    CrawlIO.download_html Demo.cfg (DemoFlaky.env 1 "P") CrawlIO.reliable "https://ex.com/p"
      ".\mirror\p\index.html" false true (Crawl.initial ∅) = (Some links, s') /\
    Crawl.files s' !! ".\mirror\p\index.html" = Some "P".
Proof.
  destruct (download_html_later_success Demo.cfg (DemoFlaky.env 1 "P") CrawlIO.reliable
              "https://ex.com/p" ".\mirror\p\index.html" false true (Crawl.initial ∅) 1
              {| Crawl.history := []; Crawl.content := "P";
                 Crawl.content_type := Some "text/html" |})
    as (links & s' & E & _ & Hf & _).
  - left. reflexivity.
  - lia.
  - intros i Hi. destruct i; [reflexivity | lia].
  - reflexivity.
  - reflexivity.
  - repeat split.
  - exists links, s'. split; [exact E | exact Hf].
Defined.

(** X5: a fetch that hands back no result has marked nothing processed,
    has left the worklist alone and has left a record of the URL: in the
    skipped set (redirect) or in the retry ledger (three failed attempts, of
    the request or of the disk).  No file other than the page and its
    sidecar was touched; one of the two can be left behind by an attempt
    whose write failed half way. *)
Theorem download_html_null_recorded
        (cfg : Crawl.Config) (env : Crawl.Env) (disk : CrawlIO.Disk) (url local_path : string)
        (retry_mode recursive : bool) (s s' : Crawl.State) :
  CrawlIO.download_html cfg env disk url local_path retry_mode recursive s = (None, s') ->
  Crawl.processed_urls s' = Crawl.processed_urls s /\
  Crawl.page_links s' = Crawl.page_links s /\
  (url ∈ Crawl.skipped_urls s' \/ url ∈ Crawl.retry_urls s') /\
  (forall q, q <> local_path -> q <> local_path ++ ".metadata" ->
             Crawl.files s' !! q = Crawl.files s !! q).
Proof.
  intros H.
  pose proof (IOFacts.download_html_fetched _ _ _ _ _ _ _ _ _ _ H) as (A & B & _ & _ & _ & F & _).
  split; [exact B |]. split; [exact A |]. split; [| exact F].
  unfold CrawlIO.download_html in H.
  destruct (retry_mode && negb (Crawl.mem url (Crawl.retry_urls s))); [discriminate |].
  eapply IOFacts.html_attempts_null; [| exact H]. discriminate.
Qed.

Lemma download_html_null_recorded_witness :
  exists s',
    CrawlIO.download_html Demo.cfg (DemoFlaky.env 0 "P") DemoFlaky.no_sidecar "https://ex.com/p"
      ".\mirror\p\index.html" false true (Crawl.initial ∅) = (None, s') /\
    Crawl.files s' !! ".\mirror\p\index.html" = Some "P" /\
    Crawl.processed_urls s' = ∅ /\
    ("https://ex.com/p" ∈ Crawl.skipped_urls s' \/ "https://ex.com/p" ∈ Crawl.retry_urls s').
Proof.
  eexists. split; [reflexivity |]. split; [reflexivity |].
  destruct (download_html_null_recorded Demo.cfg (DemoFlaky.env 0 "P") DemoFlaky.no_sidecar
              "https://ex.com/p" ".\mirror\p\index.html" false true (Crawl.initial ∅) _ eq_refl)
    as (A & _ & C & _).
  split; [exact A | exact C].
Defined.

Module RefusedFacts.
Import Crawl.

(** replies without a redirect on a disk where no directory can be made:
  every attempt is spent *)
Lemma html_attempts_all_refused cfg env disk url lp recursive todo :
  (forall n fs, CrawlIO.makedirs disk n fs lp = false) ->
  forall s,
  (forall i r, i < todo -> web env (length (requests s) + i) url = Answered r ->
               history r = []) ->
  exists s',
    CrawlIO.html_attempts cfg env disk todo url lp recursive s = (None, s') /\
    retry_urls s' = (if Nat.eqb todo 0 then retry_urls s else {[url]} ∪ retry_urls s) /\
    files s' = files s /\ skipped_urls s' = skipped_urls s /\
    processed_urls s' = processed_urls s /\
    requests s' = (repeat url todo ++ requests s)%list.
Proof.
  intros Hd. induction todo as [| k IH]; intros s Hclean.
  - exists s. cbn. repeat split.
  - cbn [CrawlIO.html_attempts]. unfold get.
    assert (exists s',
      CrawlIO.html_attempts cfg env disk k url lp recursive
        (CrawlIO.note_failure k url
           {| page_links := page_links s; processed_urls := processed_urls s;
              skipped_urls := skipped_urls s; retry_urls := retry_urls s;
              files := files s; requests := url :: requests s |}) = (None, s') /\
      retry_urls s' = {[url]} ∪ retry_urls s /\
      files s' = files s /\ skipped_urls s' = skipped_urls s /\
      processed_urls s' = processed_urls s /\
      requests s' = (repeat url (S k) ++ requests s)%list) as Hnext.
    { match goal with |- context [CrawlIO.html_attempts _ _ _ k _ _ _ ?t] => set (s2 := t) end.
      destruct (IH s2) as (s' & E & Hr & Hf & Hs & Hp & Hn).
      { intros i r Hi Hw. apply (Hclean (S i) r); [lia |].
        replace (length (requests s) + S i) with (length (requests s2) + i); [exact Hw |].
        subst s2. unfold CrawlIO.note_failure. destruct (Nat.eqb k 0); cbn; lia. }
      exists s'. split; [exact E |]. subst s2. unfold CrawlIO.note_failure in *.
      destruct k as [| k']; cbn in Hr, Hf, Hs, Hp, Hn |- *.
      - rewrite Hr, Hf, Hs, Hp, Hn. unfold add. repeat split.
      - rewrite Hr, Hf, Hs, Hp, Hn. do 4 (split; [reflexivity |]).
        f_equal. change (url :: repeat url k' ++ requests s)%list
          with ((url :: repeat url k') ++ requests s)%list.
        rewrite (repeat_cons k' url), <- app_assoc. reflexivity. }
    pose proof (Hclean 0) as H0. rewrite Nat.add_0_r in H0.
    destruct (web env (length (requests s)) url) as [| r]; [exact Hnext |].
    rewrite (H0 r) by (lia || reflexivity).
    unfold CrawlIO.save_html, CrawlIO.save. rewrite Hd. exact Hnext.
Qed.

End RefusedFacts.

(** X23: when the directory of the page cannot be made (its parent is a
    file, say) no reply is ever saved: without a redirect among the replies
    the fetch asks three times, hands back no result and puts the URL into
    the retry ledger; files, processed set and skipped set stay as they
    were. *)
Theorem download_html_directory_refused
        (cfg : Crawl.Config) (env : Crawl.Env) (disk : CrawlIO.Disk) (url local_path : string)
        (retry_mode recursive : bool) (s : Crawl.State) :
  retry_mode = false \/ url ∈ Crawl.retry_urls s ->
  (forall n fs, CrawlIO.makedirs disk n fs local_path = false) ->
  (forall i r, i < 3 ->
               Crawl.web env (length (Crawl.requests s) + i) url = Crawl.Answered r ->
               Crawl.history r = []) ->
  exists s',
    CrawlIO.download_html cfg env disk url local_path retry_mode recursive s = (None, s') /\
    Crawl.retry_urls s' = {[url]} ∪ Crawl.retry_urls s /\
    Crawl.files s' = Crawl.files s /\
    Crawl.skipped_urls s' = Crawl.skipped_urls s /\
    Crawl.processed_urls s' = Crawl.processed_urls s /\
    Crawl.requests s' = (repeat url 3 ++ Crawl.requests s)%list.
Proof.
  intros Hg Hd Hclean. rewrite (IOFacts.not_gated _ _ _ _ _ _ _ _ Hg).
  exact (RefusedFacts.html_attempts_all_refused cfg env disk url local_path recursive 3 Hd s
           Hclean).
Qed.

Lemma download_html_directory_refused_witness :
  exists s',
    CrawlIO.download_html Demo.cfg (Demo.env Demo.png Demo.feed) DemoFlaky.no_directory
      "https://ex.com/p" ".\mirror\p\index.html" false true (Crawl.initial ∅) = (None, s') /\
    Crawl.retry_urls s' = {["https://ex.com/p"]} ∪ ∅ /\
    Crawl.files s' = ∅.
Proof.
  destruct (download_html_directory_refused Demo.cfg (Demo.env Demo.png Demo.feed)
              DemoFlaky.no_directory "https://ex.com/p" ".\mirror\p\index.html" false true
              (Crawl.initial ∅))
    as (s' & E & Hr & Hf & _).
  - left. reflexivity.
  - reflexivity.
  - intros i r _. cbn. intros [= <-]. reflexivity.
  - exists s'. repeat split; assumption.
Defined.

(** ** What a run never undoes *)

Module GrowFacts.
Import Crawl CrawlOrder.

Lemma grows_refl s : grows s s.
Proof. unfold grows. repeat split; reflexivity. Qed.

Lemma grows_trans s1 s2 s3 : grows s1 s2 -> grows s2 s3 -> grows s1 s3.
Proof.
  intros (A & B & C) (A' & B' & C'). repeat split; etransitivity; eassumption.
Qed.

Ltac grows_same := unfold grows; cbn; repeat split; reflexivity.

Lemma dom_save local_path body ct (fs : gmap string string) :
  dom fs ⊆ dom (<[local_path ++ ".metadata" := metadata_line ct]> (<[local_path := body]> fs)).
Proof. rewrite !dom_insert_L. clear. set_solver. Qed.

Section WithSite.
Variable cfg : Config.
Variable env : Env.

Lemma html_attempts_grows url local_path recursive todo : forall s res s',
  html_attempts cfg env todo url local_path recursive s = (res, s') -> grows s s'.
Proof.
  induction todo as [| k IH]; intros s res s' H; cbn [html_attempts] in H.
  - injection H as _ <-. apply grows_refl.
  - unfold get in H. destruct (web env (length (requests s)) url) as [| r].
    + apply IH in H. eapply grows_trans; [| exact H].
      destruct (Nat.eqb k 0); grows_same.
    + destruct (history r).
      * unfold save_html in H. injection H as _ <-. unfold grows; cbn.
        repeat split; try reflexivity. apply dom_save.
      * injection H as _ <-. unfold grows, add; cbn.
        repeat split; try reflexivity. apply union_subseteq_r.
Qed.

Lemma download_html_grows url local_path retry_mode recursive s res s' :
  download_html cfg env url local_path retry_mode recursive s = (res, s') -> grows s s'.
Proof.
  unfold download_html. destruct (retry_mode && negb (mem url (retry_urls s))).
  - intros [= _ <-]. apply grows_refl.
  - apply html_attempts_grows.
Qed.

Lemma raw_attempts_grows url local_path todo : forall s,
  grows s (raw_attempts env todo url local_path s).
Proof.
  induction todo as [| k IH]; intros s; cbn [raw_attempts]; [apply grows_refl |].
  unfold get. destruct (web env (length (requests s)) url) as [| r].
  - eapply grows_trans; [| apply IH]. destruct (Nat.eqb k 0); grows_same.
  - unfold grows, add; cbn. repeat split; try reflexivity.
    + apply union_subseteq_r.
    + apply dom_save.
Qed.

Lemma record_result_grows url merge res s0 s :
  grows s0 s -> grows s0 (record_result url merge (res, s)).
Proof.
  intros H. eapply grows_trans; [exact H |]. destruct res as [links |]; [| apply grows_refl].
  destruct merge; unfold record_result, grows, add; cbn; repeat split; try reflexivity;
    apply union_subseteq_r.
Qed.

Lemma worklist_body_grows retry_mode popped s :
  grows s (worklist_body cfg env retry_mode popped s).
Proof.
  unfold worklist_body, cut_query.
  set (cut := PyStr.contains "?" popped && negb (is_tagcloud_param cfg popped)).
  assert (exists url s1, (if cut then (PyStr.split_head "?" popped, with_skipped (add popped) s)
                          else (popped, s)) = (url, s1) /\ grows s s1) as (url & s1 & -> & H1).
  { destruct cut; eexists _, _; (split; [reflexivity |]); [| apply grows_refl].
    unfold grows, add; cbn. repeat split; try reflexivity. apply union_subseteq_r. }
  destruct (mem url (processed_urls s1)); [exact H1 |].
  set (lp := worklist_local_path cfg popped url).
  destruct (negb (String.eqb (NtPath.splitext_ext lp) EmptyString)
            && negb (is_tagcloud_param cfg popped)).
  - destruct (download_html cfg env url lp retry_mode true
                (raw_attempts env WEB_RETRY_COUNT url lp s1)) as [res s3] eqn:E.
    apply record_result_grows. eapply grows_trans; [exact H1 |].
    eapply grows_trans; [apply raw_attempts_grows |]. eapply download_html_grows, E.
  - destruct (download_html cfg env url (NtPath.join lp (index_file_name cfg)) retry_mode true s1)
      as [res s3] eqn:E.
    apply record_result_grows. eapply grows_trans; [exact H1 |]. eapply download_html_grows, E.
Qed.

Lemma sitemap_step_grows retry_mode url s : grows s (sitemap_step cfg env retry_mode url s).
Proof.
  unfold sitemap_step. destruct (mem url (processed_urls s)); [apply grows_refl |].
  match goal with |- context [download_html ?c ?e ?u ?l ?r ?b ?t] =>
    destruct (download_html c e u l r b t) as [res s1] eqn:E end.
  apply record_result_grows. eapply download_html_grows, E.
Qed.

Lemma sitemap_pass_grows retry_mode entries : forall s s',
  sitemap_pass cfg env retry_mode entries s = Some s' -> grows s s'.
Proof.
  induction entries as [| e rest IH]; intros s s' H; cbn in H.
  - injection H as <-. apply grows_refl.
  - destruct (loc e) as [url |]; [| discriminate].
    eapply grows_trans; [apply sitemap_step_grows | apply IH, H].
Qed.

Lemma turns_grows retry_mode s s' : turns cfg env retry_mode s s' -> grows s s'.
Proof.
  induction 1 as [s | s url s' _ _ IH]; [apply grows_refl |].
  eapply grows_trans; [| exact IH].
  eapply grows_trans; [| apply worklist_body_grows]. grows_same.
Qed.

Lemma raw_attempts_requests url local_path todo : forall s,
  length (requests (raw_attempts env todo url local_path s)) <= length (requests s) + todo.
Proof.
  induction todo as [| k IH]; intros s; cbn [raw_attempts]; [lia |].
  unfold get. destruct (web env (length (requests s)) url) as [| r].
  - etransitivity; [apply IH |]. destruct (Nat.eqb k 0); cbn; lia.
  - cbn. lia.
Qed.

Lemma download_html_requests url local_path retry_mode recursive s res s' :
  download_html cfg env url local_path retry_mode recursive s = (res, s') ->
  length (requests s') <= length (requests s) + 3.
Proof.
  unfold download_html. destruct (retry_mode && negb (mem url (retry_urls s))).
  - intros [= _ <-]. lia.
  - intros H. apply FetchFacts.html_attempts_requests in H. unfold WEB_RETRY_COUNT in H. lia.
Qed.

Lemma record_result_requests url merge res s :
  requests (record_result url merge (res, s)) = requests s.
Proof. destruct res; [destruct merge |]; reflexivity. Qed.

End WithSite.

End GrowFacts.

(** X6: while the worklist is drained and the sitemap entries are
    applied, no URL leaves the processed set or the skipped set and no file
    of the mirror is removed. *)
Theorem crawl_only_grows (cfg : Crawl.Config) (env : Crawl.Env) (retry_mode : bool)
        (entries : list Crawl.SitemapEntry) (s s1 s2 : Crawl.State) :
  Crawl.turns cfg env retry_mode s s1 ->
  Crawl.sitemap_pass cfg env retry_mode entries s1 = Some s2 ->
  Crawl.processed_urls s ⊆ Crawl.processed_urls s2 /\
  Crawl.skipped_urls s ⊆ Crawl.skipped_urls s2 /\
  dom (Crawl.files s) ⊆ dom (Crawl.files s2).
Proof.
  intros Ht Hs.
  exact (GrowFacts.grows_trans _ _ _ (GrowFacts.turns_grows cfg env retry_mode _ _ Ht)
           (GrowFacts.sitemap_pass_grows cfg env retry_mode entries _ _ Hs)).
Qed.

Lemma crawl_only_grows_witness :
  Crawl.processed_urls (Crawl.initial ∅)
    ⊆ Crawl.processed_urls
        (Crawl.sitemap_step Demo.cfg (Demo.env Demo.png Demo.feed) false "https://ex.com/p"
           (Crawl.initial ∅)).
Proof.
  apply (crawl_only_grows Demo.cfg (Demo.env Demo.png Demo.feed) false
           [ {| Crawl.loc := Some "https://ex.com/p"; Crawl.lastmod := None;
                Crawl.changefreq := "never"; Crawl.priority := QArith_base.Qmake 1 2 |} ]
           (Crawl.initial ∅) (Crawl.initial ∅)).
  - apply Crawl.turns_here.
  - reflexivity.
Defined.

(** X7: one turn of the worklist loop issues at most six requests (three
    raw attempts and three attempts of [download_html]) and one sitemap entry
    at most three. *)
Theorem requests_per_item (cfg : Crawl.Config) (env : Crawl.Env) (retry_mode : bool)
        (url : string) (s : Crawl.State) :
  length (Crawl.requests (Crawl.worklist_body cfg env retry_mode url s))
    <= length (Crawl.requests s) + 6 /\
  length (Crawl.requests (Crawl.sitemap_step cfg env retry_mode url s))
    <= length (Crawl.requests s) + 3.
Proof.
  split.
  - unfold Crawl.worklist_body, Crawl.cut_query.
    set (cut := PyStr.contains "?" url && negb (Crawl.is_tagcloud_param cfg url)).
    assert (exists u s1, (if cut then (PyStr.split_head "?" url,
                                       Crawl.with_skipped (Crawl.add url) s)
                          else (url, s)) = (u, s1) /\ Crawl.requests s1 = Crawl.requests s)
      as (u & s1 & -> & H1) by (destruct cut; eexists _, _; split; reflexivity).
    destruct (Crawl.mem u (Crawl.processed_urls s1)); [rewrite H1; lia |].
    set (lp := Crawl.worklist_local_path cfg url u).
    destruct (negb (String.eqb (NtPath.splitext_ext lp) EmptyString)
              && negb (Crawl.is_tagcloud_param cfg url)).
    + destruct (Crawl.download_html cfg env u lp retry_mode true
                  (Crawl.raw_attempts env Crawl.WEB_RETRY_COUNT u lp s1)) as [res s3] eqn:E.
      rewrite GrowFacts.record_result_requests.
      apply GrowFacts.download_html_requests in E.
      pose proof (GrowFacts.raw_attempts_requests env u lp Crawl.WEB_RETRY_COUNT s1) as Hr.
      unfold Crawl.WEB_RETRY_COUNT in Hr, E. rewrite H1 in Hr. lia.
    + destruct (Crawl.download_html cfg env u (NtPath.join lp (Crawl.index_file_name cfg))
                  retry_mode true s1) as [res s3] eqn:E.
      rewrite GrowFacts.record_result_requests.
      apply GrowFacts.download_html_requests in E. rewrite H1 in E. lia.
  - unfold Crawl.sitemap_step. destruct (Crawl.mem url (Crawl.processed_urls s)); [lia |].
    match goal with |- context [Crawl.download_html ?c ?e ?u ?l ?r ?b ?t] =>
      destruct (Crawl.download_html c e u l r b t) as [res s1] eqn:E end.
    rewrite GrowFacts.record_result_requests.
    apply GrowFacts.download_html_requests in E. exact E.
Qed.

(** ** The sitemap pass and retry mode *)

Module PassFacts.
Import Crawl.

Section WithSite.
Variable cfg : Config.
Variable env : Env.

Lemma sitemap_step_gated url s :
  url ∉ retry_urls s ->
  sitemap_step cfg env true url s
  = if mem url (processed_urls s) then s else with_processed (add url) s.
Proof.
  intros H. unfold sitemap_step. destruct (mem url (processed_urls s)); [reflexivity |].
  rewrite (CrawlFacts.download_html_gate cfg env url _ false s H). reflexivity.
Qed.

Lemma omap_loc_cons e (rest : list SitemapEntry) :
  omap loc (e :: rest)
  = match loc e with Some u => u :: omap loc rest | None => omap loc rest end.
Proof. reflexivity. Qed.

Lemma sitemap_pass_gated entries : forall s s',
  retry_urls s = ∅ ->
  sitemap_pass cfg env true entries s = Some s' ->
  requests s' = requests s /\ files s' = files s /\ retry_urls s' = ∅ /\
  skipped_urls s' = skipped_urls s /\ page_links s' = page_links s /\
  processed_urls s' = processed_urls s ∪ list_to_set (omap loc entries).
Proof.
  induction entries as [| e rest IH]; intros s s' Hr H; cbn [sitemap_pass] in H.
  - injection H as <-. cbn. repeat split; try assumption.
    symmetry. apply (right_id_L ∅ (∪)).
  - destruct (loc e) as [url |] eqn:El; [| discriminate].
    rewrite sitemap_step_gated in H by (rewrite Hr; apply not_elem_of_empty).
    rewrite omap_loc_cons, El, list_to_set_cons.
    assert (forall X : gset string, X ∪ ({[url]} ∪ list_to_set (omap loc rest))
                                    = ({[url]} ∪ X) ∪ list_to_set (omap loc rest)) as Hassoc
        by (intros X; clear; set_solver).
    unfold mem in H. destruct (bool_decide (url ∈ processed_urls s)) eqn:Hm.
    + apply IH in H; [| exact Hr]. destruct H as (A & B & C & D & E & F).
      repeat split; try assumption. rewrite F, Hassoc. f_equal.
      apply bool_decide_eq_true in Hm. clear - Hm. set_solver.
    + apply IH in H; [| exact Hr]. cbn in H. destruct H as (A & B & C & D & E & F).
      repeat split; try assumption. rewrite F, Hassoc. reflexivity.
Qed.

Lemma sitemap_pass_noop retry_mode entries s :
  Forall (fun e => exists u, loc e = Some u /\ u ∈ processed_urls s) entries ->
  sitemap_pass cfg env retry_mode entries s = Some s.
Proof.
  induction 1 as [| e rest (u & El & Hu) _ IH]; cbn [sitemap_pass]; [reflexivity |].
  rewrite El. unfold sitemap_step, mem. rewrite bool_decide_eq_true_2 by exact Hu. exact IH.
Qed.

Lemma load_sitemap_state url s :
  snd (load_sitemap env url s)
  = {| page_links := page_links s; processed_urls := processed_urls s;
       skipped_urls := skipped_urls s; retry_urls := retry_urls s;
       files := files s; requests := url :: requests s |}.
Proof.
  unfold load_sitemap, get. destruct (web env (length (requests s)) url) as [| r]; [reflexivity |].
  destruct (parse_sitemap env (content r)); [| reflexivity].
  destruct (read_entries env l); reflexivity.
Qed.

Lemma drains_from_empty retry_mode s s' :
  page_links s = ∅ -> drains cfg env retry_mode s s' -> s' = s.
Proof.
  intros He Hd. destruct Hd as [s _ | s url s' Hin _]; [reflexivity |].
  rewrite He in Hin. apply not_elem_of_empty in Hin. destruct Hin.
Qed.

Lemma persist_ledger_requests s : requests (persist_ledger cfg s) = requests s.
Proof. unfold persist_ledger. destruct (bool_decide _); reflexivity. Qed.

Lemma finish_requests sitemap_data s final :
  finish cfg env sitemap_data s = Some final ->
  requests final = requests s /\ retry_urls final = retry_urls s /\
  exists s1, final = persist_ledger cfg s1 /\ retry_urls s1 = retry_urls s.
Proof.
  unfold finish, build_output.
  destruct (output_entries cfg env sitemap_data _) as [xs |]; [| discriminate].
  destruct (pretty_xml env _) as [pretty |]; [| discriminate].
  intros [= <-].
  match goal with |- context [write_logs cfg ?x] => set (X := x) end.
  assert (requests (write_logs cfg X) = requests s /\
          retry_urls (write_logs cfg X) = retry_urls s) as [A B].
  { unfold write_logs. destruct (bool_decide _); split; reflexivity. }
  split; [rewrite persist_ledger_requests; exact A |].
  split; [rewrite RunFacts.persist_ledger_retry; exact B |].
  exists (write_logs cfg X). split; [reflexivity | exact B].
Qed.

End WithSite.

End PassFacts.

(** a sitemap pass over entries that are all processed already
    changes nothing: no request, no file, no record. *)
Theorem sitemap_pass_processed_noop (cfg : Crawl.Config) (env : Crawl.Env) (retry_mode : bool)
        (entries : list Crawl.SitemapEntry) (s : Crawl.State) :
  Forall (fun e => exists u, Crawl.loc e = Some u /\ u ∈ Crawl.processed_urls s) entries ->
  Crawl.sitemap_pass cfg env retry_mode entries s = Some s.
Proof. apply PassFacts.sitemap_pass_noop. Qed.

(** X8: in retry mode with an empty ledger the sitemap pass makes no
    request and writes no file; every entry is taken for done and its
    location joins the processed set. *)
Theorem sitemap_pass_empty_ledger (cfg : Crawl.Config) (env : Crawl.Env)
        (entries : list Crawl.SitemapEntry) (s s' : Crawl.State) :
  Crawl.retry_urls s = ∅ ->
  Crawl.sitemap_pass cfg env true entries s = Some s' ->
  Crawl.requests s' = Crawl.requests s /\
  Crawl.files s' = Crawl.files s /\
  Crawl.skipped_urls s' = Crawl.skipped_urls s /\
  Crawl.processed_urls s' = Crawl.processed_urls s ∪ list_to_set (omap Crawl.loc entries).
Proof.
  intros Hr H. destruct (PassFacts.sitemap_pass_gated cfg env entries s s' Hr H)
    as (A & B & _ & D & _ & F).
  repeat split; assumption.
Qed.

(** X9: an empty ledger file found at start switches the crawl off.  The
    run is in retry mode with nothing to retry: the feed is the only URL
    requested, and at the end the ledger file is removed. *)
Theorem empty_ledger_file_disables_crawl (cfg : Crawl.Config) (env : Crawl.Env)
        (fs : gmap string string) (final : Crawl.State) :
  fs !! Crawl.retry_file_path cfg = Some EmptyString ->
  Crawl.completes cfg env fs final ->
  Crawl.requests final = [Crawl.sitemap_url cfg] /\
  Crawl.files final !! Crawl.retry_file_path cfg = None.
Proof.
  intros Hfs (retry_mode & sitemap_data & s0 & s1 & s2 & Hprep & Hd & Hs & Hfin).
  unfold Crawl.prepare in Hprep.
  pose proof (PassFacts.load_sitemap_state env (Crawl.sitemap_url cfg) (Crawl.initial fs)) as Hls.
  destruct (Crawl.load_sitemap env (Crawl.sitemap_url cfg) (Crawl.initial fs)) as [sm sl].
  cbn [snd] in Hls. subst sl. destruct sm as [| e sm]; [discriminate |].
  unfold Crawl.load_ledger in Hprep. cbn [Crawl.files Crawl.initial] in Hprep.
  rewrite Hfs in Hprep. injection Hprep as <- <- <-.
  unfold Crawl.seed in Hd.
  rewrite (CrawlFacts.download_html_gate cfg env)
    in Hd by (cbn; apply not_elem_of_empty).
  apply PassFacts.drains_from_empty in Hd; [| reflexivity]. subst s1.
  apply PassFacts.sitemap_pass_gated in Hs; [| reflexivity].
  destruct Hs as (Hreq & _ & Hret & _).
  apply PassFacts.finish_requests in Hfin.
  destruct Hfin as (Hreq' & _ & s3 & -> & Hret3).
  split; [rewrite Hreq', Hreq; reflexivity |].
  apply RunFacts.persist_ledger_file. rewrite Hret3. exact Hret.
Qed.

Lemma sitemap_pass_processed_noop_witness :
  Crawl.sitemap_pass Demo.cfg (Demo.env Demo.png Demo.feed) false
    [ {| Crawl.loc := Some "https://ex.com"; Crawl.lastmod := None;
         Crawl.changefreq := "never"; Crawl.priority := QArith_base.Qmake 1 2 |} ]
    (Crawl.with_processed (Crawl.add "https://ex.com") (Crawl.initial ∅))
  = Some (Crawl.with_processed (Crawl.add "https://ex.com") (Crawl.initial ∅)).
Proof.
  apply (sitemap_pass_processed_noop Demo.cfg (Demo.env Demo.png Demo.feed) false).
  constructor; [| constructor].
  exists "https://ex.com". split; [reflexivity |].
  cbn. unfold Crawl.add. apply elem_of_union_l, elem_of_singleton. reflexivity.
Defined.

Lemma sitemap_pass_empty_ledger_witness :
  Crawl.requests
    (Crawl.sitemap_step Demo.cfg (Demo.env Demo.png Demo.feed) true "https://ex.com/p"
       (Crawl.initial ∅))
  = Crawl.requests (Crawl.initial ∅).
Proof.
  apply (sitemap_pass_empty_ledger Demo.cfg (Demo.env Demo.png Demo.feed)
           [ {| Crawl.loc := Some "https://ex.com/p"; Crawl.lastmod := None;
                Crawl.changefreq := "never"; Crawl.priority := QArith_base.Qmake 1 2 |} ]
           (Crawl.initial ∅)).
  - reflexivity.
  - reflexivity.
Defined.

Lemma empty_ledger_file_disables_crawl_witness :
  exists final,
    Crawl.completes Demo.cfg (Demo.env Demo.png Demo.feed)
      {[ Crawl.retry_file_path Demo.cfg := EmptyString ]} final /\
    Crawl.requests final = [Crawl.sitemap_url Demo.cfg].
Proof.
  destruct (Crawl.run_first Demo.cfg (Demo.env Demo.png Demo.feed) 10
              {[ Crawl.retry_file_path Demo.cfg := EmptyString ]}) as [final |] eqn:E;
    [| vm_compute in E; discriminate E].
  exists final.
  pose proof (RunFacts.run_first_completes _ _ _ _ _ E) as Hc.
  split; [exact Hc |].
  apply (empty_ledger_file_disables_crawl Demo.cfg (Demo.env Demo.png Demo.feed)
           {[ Crawl.retry_file_path Demo.cfg := EmptyString ]} final).
  - apply lookup_singleton_eq.
  - exact Hc.
Defined.

(** ** The sitemap that is written *)

Module OutputFacts.
Import Crawl.

Lemma lastmod_for_none env sitemap_data url e :
  In e sitemap_data -> loc e = Some url ->
  (forall e', In e' sitemap_data -> loc e' = Some url -> lastmod e' = None) ->
  lastmod_for env sitemap_data url = None.
Proof.
  induction sitemap_data as [| x rest IH]; intros Hin Hl Hall; [destruct Hin |].
  cbn [lastmod_for]. destruct (bool_decide (loc x = Some url)) eqn:Hx.
  - apply bool_decide_eq_true in Hx. apply Hall; [left; reflexivity | exact Hx].
  - destruct Hin as [-> | Hin].
    + apply bool_decide_eq_false in Hx. contradiction.
    + apply IH; [exact Hin | exact Hl |]. intros e' He'. apply Hall. right. exact He'.
Qed.

Lemma output_entries_none cfg env sitemap_data urls u :
  In u urls -> output_entry cfg env sitemap_data u = None ->
  output_entries cfg env sitemap_data urls = None.
Proof.
  intros Hin Hu. induction urls as [| x rest IH]; [destruct Hin |].
  cbn [output_entries]. destruct Hin as [-> | Hin].
  - rewrite Hu. reflexivity.
  - destruct (output_entry cfg env sitemap_data x); [| reflexivity].
    rewrite (IH Hin). reflexivity.
Qed.

End OutputFacts.

(** X10: a processed URL whose sitemap entries carry no timestamp (an
    empty [<lastmod/>] in the feed) stops the end of the run: there is no
    timestamp to format, the output sitemap is not built, and neither the
    logs nor the retry ledger are written. *)
Theorem finish_stops_without_lastmod
        (cfg : Crawl.Config) (env : Crawl.Env) (sitemap_data : list Crawl.SitemapEntry)
        (s : Crawl.State) (url : string) (e : Crawl.SitemapEntry) :
  url ∈ Crawl.processed_urls s ->
  In e sitemap_data -> Crawl.loc e = Some url ->
  (forall e', In e' sitemap_data -> Crawl.loc e' = Some url -> Crawl.lastmod e' = None) ->
  Crawl.build_output cfg env sitemap_data s = None /\
  Crawl.finish cfg env sitemap_data s = None.
Proof.
  intros Hp Hin Hl Hall.
  assert (Crawl.build_output cfg env sitemap_data s = None) as Hb.
  { unfold Crawl.build_output.
    rewrite (OutputFacts.output_entries_none cfg env sitemap_data _ url); [reflexivity | |].
    - eapply Permutation_in; [symmetry; apply LedgerFacts.sorted_perm |].
      apply list_elem_of_In, elem_of_elements, Hp.
    - unfold Crawl.output_entry.
      rewrite (OutputFacts.lastmod_for_none env sitemap_data url e Hin Hl Hall). reflexivity. }
  split; [exact Hb |]. unfold Crawl.finish. rewrite Hb. reflexivity.
Qed.

Lemma finish_stops_without_lastmod_witness :
  Crawl.finish Demo.cfg (Demo.env Demo.png Demo.feed)
    [ {| Crawl.loc := Some "https://ex.com"; Crawl.lastmod := None;
         Crawl.changefreq := "never"; Crawl.priority := QArith_base.Qmake 1 2 |} ]
    (Crawl.with_processed (Crawl.add "https://ex.com") (Crawl.initial ∅)) = None.
Proof.
  apply (finish_stops_without_lastmod Demo.cfg (Demo.env Demo.png Demo.feed) _ _
           "https://ex.com"
           {| Crawl.loc := Some "https://ex.com"; Crawl.lastmod := None;
              Crawl.changefreq := "never"; Crawl.priority := QArith_base.Qmake 1 2 |}).
  - cbn. unfold Crawl.add. apply elem_of_union_l, elem_of_singleton. reflexivity.
  - left. reflexivity.
  - reflexivity.
  - intros e' [<- | []] _. reflexivity.
Defined.

(** ** More on the structural edits *)

Module EditFacts.
Import Dom DomFacts.

Lemma first_some_app_l {A B} (g : A -> option B) (l1 l2 : list A) b :
  first_some g l1 = Some b -> first_some g (l1 ++ l2)%list = Some b.
Proof.
  induction l1 as [| x l1 IH]; cbn; [discriminate |].
  destruct (g x); [tauto | exact IH].
Qed.

Lemma count_zero_not q n : count_node q n = 0 -> q n = false.
Proof. destruct n; cbn; destruct (q _); cbn; intros H; [lia | reflexivity | lia | reflexivity]. Qed.

Lemma find_node_none q n : count_node q n = 0 -> find_node q n = None.
Proof.
  induction n as [s | t a cs IH] using node_forall_ind; intros H.
  - cbn in *. destruct (q (Text s)); [lia | reflexivity].
  - pose proof (count_zero_not q _ H) as Hq. cbn [find_node]. rewrite Hq.
    rewrite count_node_elem, Hq in H. cbn in H. clear Hq.
    induction IH as [| c cs' Hc _ IHcs]; [reflexivity |].
    rewrite count_cons in H. cbn [first_some]. rewrite Hc by lia. apply IHcs. lia.
Qed.

Section FirstHit.
(* the test of [find] and the node it is to find *)
Variable p : node -> bool.
Hypothesis p_shallow : forall t a cs cs', p (Elem t a cs) = p (Elem t a cs').
Variable B : node.
Hypothesis p_B : p B = true.
(* the rewrite that put it there *)
Variable r : node -> bool.
Variable f : node -> list node.
Hypothesis f_head : forall m, exists rest, f m = B :: rest.

Lemma find_B_first rest : first_some (find_node p) (B :: rest) = Some B.
Proof. cbn [first_some]. destruct B; cbn [find_node]; rewrite p_B; reflexivity. Qed.

Lemma find_after_rewrite_node n :
  forall o, (r = p \/ count_node p n = 0) ->
            rewrite_node r f n = Some o -> find p o = Some B.
Proof.
  induction n as [s | t a cs IH] using node_forall_ind; intros o Hc H.
  - cbn in H. destruct (r (Text s)); [| discriminate]. injection H as <-.
    destruct (f_head (Text s)) as [rest ->]. apply find_B_first.
  - cbn [rewrite_node] in H. destruct (r (Elem t a cs)) eqn:Er.
    + injection H as <-. destruct (f_head (Elem t a cs)) as [rest ->]. apply find_B_first.
    + destruct (first_rewrite (rewrite_node r f) cs) as [cs' |] eqn:E1; [| discriminate].
      injection H as <-.
      assert (p (Elem t a cs') = false) as Hp.
      { rewrite (p_shallow t a cs' cs). destruct Hc as [<- | Hc]; [exact Er |].
        apply count_zero_not, Hc. }
      unfold find. cbn [first_some find_node]. rewrite Hp.
      assert (r = p \/ count p cs = 0) as Hc'.
      { destruct Hc as [-> | Hc]; [left; reflexivity | right].
        rewrite count_node_elem in Hc. lia. }
      clear Hc Hp Er.
      assert (first_some (find_node p) cs' = Some B) as ->; [| reflexivity].
      revert cs' E1. induction IH as [| c l Hcn _ IHl]; intros cs' E1; [discriminate |].
      cbn [first_rewrite] in E1. destruct (rewrite_node r f c) as [ro |] eqn:Ec.
      * injection E1 as <-. apply first_some_app_l. apply (Hcn ro); [| reflexivity].
        destruct Hc' as [-> | Hc']; [left; reflexivity | right].
        rewrite count_cons in Hc'. lia.
      * destruct (first_rewrite (rewrite_node r f) l) as [l' |] eqn:El; [| discriminate].
        injection E1 as <-. cbn [first_some].
        assert (find_node p c = None) as ->.
        { apply find_node_none. destruct Hc' as [-> | Hc'].
          - apply (rewrite_node_none p f), Ec.
          - rewrite count_cons in Hc'. lia. }
        apply IHl; [| reflexivity].
        destruct Hc' as [-> | Hc']; [left; reflexivity | right].
        rewrite count_cons in Hc'. lia.
Qed.

Lemma find_after_rewrite_first l l' :
  (r = p \/ count p l = 0) -> rewrite_first r f l = Some l' -> find p l' = Some B.
Proof.
  revert l'. induction l as [| c l IH]; intros l' Hc H; [discriminate |].
  unfold rewrite_first in H. cbn [first_rewrite] in H.
  destruct (rewrite_node r f c) as [ro |] eqn:Ec.
  - injection H as <-. apply first_some_app_l. apply (find_after_rewrite_node c ro); [| exact Ec].
    destruct Hc as [-> | Hc]; [left; reflexivity | right]. rewrite count_cons in Hc. lia.
  - destruct (first_rewrite (rewrite_node r f) l) as [l1 |] eqn:El; [| discriminate].
    injection H as <-. unfold find. cbn [first_some].
    assert (find_node p c = None) as ->.
    { apply find_node_none. destruct Hc as [-> | Hc].
      - apply (rewrite_node_none p f), Ec.
      - rewrite count_cons in Hc. lia. }
    apply IH; [| exact El].
    destruct Hc as [-> | Hc]; [left; reflexivity | right]. rewrite count_cons in Hc. lia.
Qed.

End FirstHit.

Lemma cut_widgets_node_id n : count_node is_ranking_widget n = 0 -> cut_widgets_node n = [n].
Proof.
  induction n as [s | t a cs IH] using node_forall_ind; intros H; [reflexivity |].
  pose proof (count_zero_not _ _ H) as Hq. cbn [cut_widgets_node]. rewrite Hq.
  rewrite count_node_elem, Hq in H. cbn in H. clear Hq.
  assert (flat_map cut_widgets_node cs = cs) as ->; [| reflexivity].
  induction IH as [| c l Hc _ IHl]; [reflexivity |].
  rewrite count_cons in H. cbn [flat_map]. rewrite Hc by lia. cbn. rewrite IHl by lia.
  reflexivity.
Qed.

Lemma cut_widgets_id l : count is_ranking_widget l = 0 -> cut_widgets l = l.
Proof.
  induction l as [| c l IH]; intros H; [reflexivity |].
  rewrite count_cons in H. unfold cut_widgets in *. cbn [flat_map].
  rewrite cut_widgets_node_id by lia. cbn. rewrite IH by lia. reflexivity.
Qed.

End EditFacts.

(** X11: a page with no ranking widget, no [view_sp] item, no
    [headerBanner] and no [bodyGrid] comes out of the structural edits as it
    went in. *)
Theorem structural_edits_leave_plain_pages (d : list Dom.node) :
  Dom.count Dom.is_ranking_widget d = 0 ->
  Dom.count Dom.is_view_sp d = 0 ->
  Dom.count Dom.is_header_banner d = 0 ->
  Dom.count Dom.is_body_grid d = 0 ->
  Dom.structural_edits d = d.
Proof.
  intros Hw Hv Hb Hg. unfold Dom.structural_edits.
  rewrite (EditFacts.cut_widgets_id d Hw). unfold Dom.cut_view_sp.
  rewrite (proj2 (DomFacts.rewrite_first_none Dom.is_view_sp (fun _ => []) d) Hv).
  unfold Dom.place_banner.
  rewrite (proj2 (DomFacts.rewrite_first_none Dom.is_header_banner (fun _ => Dom.new_banner) d) Hb).
  rewrite (proj2 (DomFacts.rewrite_first_none Dom.is_body_grid
                    (fun n => (Dom.new_banner ++ [n])%list) d) Hg).
  reflexivity.
Qed.

Lemma structural_edits_leave_plain_pages_witness :
  Dom.structural_edits [Dom.Elem "p" [] [Dom.Text "hello"]] = [Dom.Elem "p" [] [Dom.Text "hello"]].
Proof.
  apply (structural_edits_leave_plain_pages [Dom.Elem "p" [] [Dom.Text "hello"]]);
    reflexivity.
Defined.

(** X12: when the page, after the two removals, has a [headerBanner] or
    a [bodyGrid], the first [headerBanner] of the edited page is the archive
    notice: a banner of the original page is never the one found first. *)
Theorem archive_banner_comes_first (d : list Dom.node) :
  1 <= Dom.count Dom.is_header_banner (Dom.cut_view_sp (Dom.cut_widgets d))
  \/ 1 <= Dom.count Dom.is_body_grid (Dom.cut_view_sp (Dom.cut_widgets d)) ->
  Dom.find Dom.is_header_banner (Dom.structural_edits d) = head Dom.new_banner.
Proof.
  intros H. unfold Dom.structural_edits.
  set (l := Dom.cut_view_sp (Dom.cut_widgets d)) in *.
  unfold Dom.place_banner.
  destruct (Dom.rewrite_first Dom.is_header_banner (fun _ => Dom.new_banner) l) as [l1 |] eqn:E1.
  - eapply (EditFacts.find_after_rewrite_first Dom.is_header_banner
              (DomFacts.tag_with_id_shallow "div" "headerBanner")
              (hd (Dom.Text EmptyString) Dom.new_banner) eq_refl
              Dom.is_header_banner (fun _ => Dom.new_banner)).
    + intros m. eexists. reflexivity.
    + left. reflexivity.
    + exact E1.
  - apply DomFacts.rewrite_first_none in E1.
    destruct (Dom.rewrite_first Dom.is_body_grid (fun n => (Dom.new_banner ++ [n])%list) l)
      as [l2 |] eqn:E2.
    + eapply (EditFacts.find_after_rewrite_first Dom.is_header_banner
                (DomFacts.tag_with_id_shallow "div" "headerBanner")
              (hd (Dom.Text EmptyString) Dom.new_banner) eq_refl
                Dom.is_body_grid (fun n => (Dom.new_banner ++ [n])%list)).
      * intros m. eexists. reflexivity.
      * right. exact E1.
      * exact E2.
    + apply DomFacts.rewrite_first_none in E2. lia.
Qed.

Lemma archive_banner_comes_first_witness :
  Dom.find Dom.is_header_banner
    (Dom.structural_edits
       [Dom.Elem "div" [("id", "headerBanner")] [Dom.Text "old"];
        Dom.Elem "div" [("id", "bodyGrid")] []])
  = head Dom.new_banner.
Proof.
  apply (archive_banner_comes_first
           [Dom.Elem "div" [("id", "headerBanner")] [Dom.Text "old"];
            Dom.Elem "div" [("id", "bodyGrid")] []]).
  left. cbn. lia.
Defined.

(** ** Normalised links *)

Module NormFacts.

Lemma contains_split_head c s : PyStr.contains c (PyStr.split_head c s) = false.
Proof.
  induction s as [| d s IH]; [reflexivity |]. cbn [PyStr.split_head].
  destruct (Ascii.eqb c d) eqn:E; [reflexivity |].
  rewrite TextFacts.contains_cons, E. exact IH.
Qed.

Lemma contains_prefix c a : forall b,
  String.prefix a b = true -> PyStr.contains c b = false -> PyStr.contains c a = false.
Proof.
  induction a as [| x a IH]; intros b Hp Hb; [reflexivity |].
  destruct b as [| y b]; [discriminate |]. cbn in Hp.
  destruct (ascii_dec x y) as [-> |]; [| discriminate].
  rewrite TextFacts.contains_cons in Hb |- *.
  destruct (Ascii.eqb c y); [discriminate |]. eapply IH; eassumption.
Qed.

Lemma rstrip_cons c d s :
  PyStr.rstrip c (String d s)
  = match PyStr.rstrip c s with
    | EmptyString => if Ascii.eqb c d then EmptyString else String d EmptyString
    | r => String d r
    end.
Proof. reflexivity. Qed.

Lemma endswith_cons s p c :
  PyStr.endswith (String c s) p = if String.eqb (String c s) p then true else PyStr.endswith s p.
Proof. reflexivity. Qed.

Lemma rstrip_no_trailing c s :
  PyStr.endswith (PyStr.rstrip c s) (String c EmptyString) = false.
Proof.
  induction s as [| d s IH]; [reflexivity |]. rewrite rstrip_cons.
  destruct (PyStr.rstrip c s) as [| e r] eqn:E.
  - destruct (Ascii.eqb c d) eqn:Ecd; [reflexivity |].
    rewrite endswith_cons. cbn [String.eqb]. rewrite Ascii.eqb_sym, Ecd. reflexivity.
  - rewrite endswith_cons.
    assert (String.eqb (String d (String e r)) (String c EmptyString) = false) as ->
        by (cbn; destruct (Ascii.eqb d c); reflexivity).
    exact IH.
Qed.

End NormFacts.

(** X13: every anchor target that [download_html] hands to the worklist is
    on the site, carries no fragment and does not end in a slash. *)
Theorem href_link_normalised (cfg : Crawl.Config) (env : Crawl.Env) (url href u : string) :
  Crawl.href_link cfg env url href = Some u ->
  Crawl.same_origin cfg u = true /\
  PyStr.contains "#" u = false /\
  PyStr.endswith u "/" = false.
Proof.
  intros H. split; [eapply CrawlFacts.href_link_same_origin, H |].
  unfold Crawl.href_link in H. destruct (Crawl.candidate cfg href); [| discriminate].
  destruct (Crawl.same_origin cfg _); [| discriminate]. injection H as <-. split.
  - eapply NormFacts.contains_prefix; [apply StrFacts.rstrip_prefix |].
    apply NormFacts.contains_split_head.
  - apply NormFacts.rstrip_no_trailing.
Qed.

Lemma href_link_normalised_witness :
  PyStr.contains "#" "https://ex.com/p?x=1" = false.
Proof.
  apply (href_link_normalised Demo.cfg (Demo.env Demo.png Demo.feed) "https://ex.com/p"
           "https://ex.com/p?x=1#frag" "https://ex.com/p?x=1").
  reflexivity.
Defined.

(** X14: the URL that a turn of the worklist goes on with carries a query
    only when it is a tagcloud URL; whenever the popped URL was cut, the
    uncut URL is in the skipped set. *)
Theorem cut_query_result (cfg : Crawl.Config) (popped : string) (s : Crawl.State) :
  (PyStr.contains "?" (fst (Crawl.cut_query cfg popped s)) = true ->
   Crawl.is_tagcloud_param cfg popped = true /\ fst (Crawl.cut_query cfg popped s) = popped) /\
  (fst (Crawl.cut_query cfg popped s) <> popped ->
   popped ∈ Crawl.skipped_urls (snd (Crawl.cut_query cfg popped s))).
Proof.
  unfold Crawl.cut_query.
  destruct (PyStr.contains "?" popped) eqn:Eq;
    destruct (Crawl.is_tagcloud_param cfg popped) eqn:Et; cbn [andb negb fst snd].
  - split; [intros _; split; reflexivity | congruence].
  - split.
    + rewrite NormFacts.contains_split_head. discriminate.
    + intros _. cbn. unfold Crawl.add. apply elem_of_union_l, elem_of_singleton. reflexivity.
  - split; [congruence | congruence].
  - split; [congruence | congruence].
Qed.

(** ** The upload walk *)

Module UploadFacts.
Import Upload UploadSpec.

Section WithStore.
Variable bucket : string.
Variable fs : gmap string string.
Variable upload_file : string -> string -> string -> bool.
Variable retry_mode : bool.
(* the retry set the walk started from *)
Variable ledger : gset string.

Local Abbreviation inv := (kept bucket fs upload_file retry_mode ledger).

Lemma visit_inv root file s :
  inv s ->
  match visit bucket fs upload_file retry_mode root file s with
  | inl s' => inv s'
  | inr s' => inv s'
  end.
Proof.
  intros (Hs & Hn & Hsub & Hr). unfold visit.
  destruct (PyStr.endswith file ".metadata") eqn:Em; [repeat split; assumption |].
  destruct (retry_mode && negb (bool_decide (NtPath.join root file ∈ retry_files s))) eqn:Eg;
    [repeat split; assumption |].
  destruct (fs !! (NtPath.join root file ++ ".metadata")) as [text |] eqn:Efs;
    [| repeat split; assumption].
  destruct (read_content_type (PyStr.file_lines text)) as [ct |] eqn:Ect;
    [| repeat split; assumption].
  destruct (String.eqb ct EmptyString) eqn:Ee; [repeat split; assumption |].
  destruct (upload_file (NtPath.join root file) (s3_key_of bucket (NtPath.join root file)) ct)
    eqn:Eu; [| repeat split; assumption].
  unfold kept; cbn. repeat split.
  - constructor; [| exact Hs]. exists root, file, text; cbn.
    apply String.eqb_neq in Ee. repeat split; assumption.
  - rewrite Hn. reflexivity.
  - etransitivity; [| exact Hsub]. clear. set_solver.
  - intros Hm. constructor; [| apply Hr, Hm]. cbn.
    rewrite Hm in Eg. cbn in Eg. apply negb_false_iff, bool_decide_eq_true in Eg.
    apply Hsub, Eg.
Qed.

Lemma visit_files_inv root names : forall s,
  inv s ->
  match visit_files bucket fs upload_file retry_mode root names s with
  | inl s' => inv s'
  | inr s' => inv s'
  end.
Proof.
  induction names as [| f rest IH]; intros s Hs; cbn [visit_files]; [exact Hs |].
  pose proof (visit_inv root f s Hs) as Hv.
  destruct (visit bucket fs upload_file retry_mode root f s) as [s1 | s1]; [| exact Hv].
  apply IH, Hv.
Qed.

Lemma walk_inv tree : forall s,
  inv s -> inv (outcome_state (walk bucket fs upload_file retry_mode tree s)).
Proof.
  induction tree as [| [root names] rest IH]; intros s Hs; cbn [walk]; [exact Hs |].
  pose proof (visit_files_inv root names s Hs) as Hv.
  destruct (visit_files bucket fs upload_file retry_mode root names s) as [s1 | s1];
    [apply IH, Hv | exact Hv].
Qed.

Hypothesis accepts : forall p k c, upload_file p k c = true.

Lemma visit_accepted root file s :
  exists s', visit bucket fs upload_file retry_mode root file s = inl s' /\
             retry_files s' ⊆ retry_files s.
Proof.
  unfold visit.
  repeat (match goal with
          | |- context [if ?b then _ else _] => destruct b eqn:?
          | |- context [match ?o with Some _ => _ | None => _ end] => destruct o eqn:?
          end; try (eexists; split; [reflexivity | cbn; clear; set_solver])).
  rewrite accepts in *. discriminate.
Qed.

Lemma visit_files_accepted root names : forall s,
  exists s', visit_files bucket fs upload_file retry_mode root names s = inl s' /\
             retry_files s' ⊆ retry_files s.
Proof.
  induction names as [| f rest IH]; intros s; cbn [visit_files].
  - exists s. split; reflexivity.
  - destruct (visit_accepted root f s) as (s1 & -> & H1).
    destruct (IH s1) as (s2 & -> & H2). exists s2. split; [reflexivity |].
    etransitivity; eassumption.
Qed.

Lemma walk_accepted tree : forall s,
  exists s', walk bucket fs upload_file retry_mode tree s = Finished s' /\
             retry_files s' ⊆ retry_files s.
Proof.
  induction tree as [| [root names] rest IH]; intros s; cbn [walk].
  - exists s. split; reflexivity.
  - destruct (visit_files_accepted root names s) as (s1 & -> & H1).
    destruct (IH s1) as (s2 & -> & H2). exists s2. split; [reflexivity |].
    etransitivity; eassumption.
Qed.

End WithStore.

End UploadFacts.

(** X15: however the upload pass ends, every object it has sent stands
    for a mirrored file that is not a sidecar, went out with the non-empty
    content type read from its sidecar and was accepted by the store; the
    counter of processed files is the number of such objects; and when a
    ledger file was present, only files named in it were sent. *)
Theorem upload_pass_sends_from_sidecars
        (bucket : string) (fs : gmap string string)
        (upload_file : string -> string -> string -> bool)
        (tree : list (string * list string)) :
  let s := UploadSpec.outcome_state (Upload.upload_pass bucket fs upload_file tree) in
  Forall (UploadSpec.from_sidecar bucket fs upload_file) (Upload.uploaded s) /\
  Upload.processed_files s = length (Upload.uploaded s) /\
  (forall text, fs !! Upload.retry_file_path bucket = Some text ->
                Forall (fun o => Upload.obj_file o
                                   ∈ (list_to_set (map PyStr.strip (PyStr.file_lines text))
                                      : gset string))
                       (Upload.uploaded s)).
Proof.
  unfold Upload.upload_pass, Upload.start.
  destruct (fs !! Upload.retry_file_path bucket) as [text |] eqn:E; cbn zeta.
  - match goal with |- context [Upload.walk _ _ _ _ _ ?s0] =>
      pose proof (UploadFacts.walk_inv bucket fs upload_file true
                    (Upload.retry_files s0) tree s0) as H end.
    destruct H as (A & B & _ & D).
    { repeat split; [constructor | reflexivity | constructor]. }
    repeat split; [exact A | exact B |]. intros text' [= <-]. apply D. reflexivity.
  - match goal with |- context [Upload.walk _ _ _ _ _ ?s0] =>
      pose proof (UploadFacts.walk_inv bucket fs upload_file false ∅ tree s0) as H end.
    destruct H as (A & B & _ & _).
    { repeat split; [constructor | reflexivity | discriminate]. }
    repeat split; [exact A | exact B |]. intros text' [=].
Qed.

(** X16: when the store accepts every file the upload walk reaches its
    end, and the retry set it ends with is part of the one it started from. *)
Theorem upload_walk_finishes
        (bucket : string) (fs : gmap string string)
        (upload_file : string -> string -> string -> bool) (retry_mode : bool)
        (tree : list (string * list string)) (s : Upload.State) :
  (forall p k c, upload_file p k c = true) ->
  exists s', Upload.walk bucket fs upload_file retry_mode tree s = Upload.Finished s' /\
             Upload.retry_files s' ⊆ Upload.retry_files s.
Proof. intros H. apply UploadFacts.walk_accepted, H. Qed.

Lemma upload_walk_finishes_witness :
  exists s', Upload.walk DemoUpload.bucket DemoUpload.fs DemoUpload.accept_all false
               DemoUpload.tree
               {| Upload.retry_files := ∅; Upload.uploaded := []; Upload.log := [];
                  Upload.processed_files := 0 |} = Upload.Finished s' /\
             Upload.retry_files s' ⊆ ∅.
Proof.
  apply (upload_walk_finishes DemoUpload.bucket DemoUpload.fs DemoUpload.accept_all false
           DemoUpload.tree).
  reflexivity.
Defined.

(** ** The feed *)

(** X17: a feed whose [<url>] elements all read well and all carry a
    location comes back complete and in ascending order of location: the
    result is a permutation of the entries read, sorted on [loc]. *)
Theorem load_sitemap_sorted_complete
        (env : Crawl.Env) (url : string) (s : Crawl.State) (r : Crawl.Response)
        (us : list Crawl.UrlElem) (es : list Crawl.SitemapEntry) :
  Crawl.web env (length (Crawl.requests s)) url = Crawl.Answered r ->
  Crawl.parse_sitemap env (Crawl.content r) = Some us ->
  Crawl.read_entries env us = Some es ->
  Forall (fun e => is_Some (Crawl.loc e)) es ->
  Sorted (PySort.key_le Crawl.loc_key) (fst (Crawl.load_sitemap env url s)) /\
  Permutation (fst (Crawl.load_sitemap env url s)) es.
Proof.
  intros Hweb Hparse Hread Hloc. unfold Crawl.load_sitemap, Crawl.get.
  rewrite Hweb, Hparse, Hread. cbn [fst]. unfold Crawl.sort_entries.
  destruct es as [| e1 [| e2 es]]; cbn [default].
  - split; [constructor | reflexivity].
  - split; [repeat constructor | reflexivity].
  - assert (forallb (fun e => match Crawl.loc e with Some _ => true | None => false end)
                    (e1 :: e2 :: es) = true) as ->.
    { apply forallb_forall. intros e He. apply list_elem_of_In in He.
      rewrite Forall_forall in Hloc. destruct (Hloc e He) as [l ->]. reflexivity. }
    cbn [default]. split; [apply SortFacts.sort_by_sorted | apply SortFacts.sort_by_perm].
Qed.

Lemma load_sitemap_sorted_complete_witness :
  Permutation
    (fst (Crawl.load_sitemap
            (Demo.env Demo.png
               [Demo.entry_of "https://ex.com/b" (Some "2024-01-02T00:00:00+0900");
                Demo.entry_of "https://ex.com/a" (Some "2024-01-01T00:00:00+0900")])
            "https://ex.com/sitemap.xml" (Crawl.initial ∅)))
    [ {| Crawl.loc := Some "https://ex.com/b"; Crawl.lastmod := Some "2024-01-02T00:00:00+0900";
         Crawl.changefreq := "never"; Crawl.priority := QArith_base.Qmake 1 2 |};
      {| Crawl.loc := Some "https://ex.com/a"; Crawl.lastmod := Some "2024-01-01T00:00:00+0900";
         Crawl.changefreq := "never"; Crawl.priority := QArith_base.Qmake 1 2 |} ].
Proof.
  apply (load_sitemap_sorted_complete
           (Demo.env Demo.png
              [Demo.entry_of "https://ex.com/b" (Some "2024-01-02T00:00:00+0900");
               Demo.entry_of "https://ex.com/a" (Some "2024-01-01T00:00:00+0900")])
           "https://ex.com/sitemap.xml" (Crawl.initial ∅)
           {| Crawl.history := []; Crawl.content := "FEED";
              Crawl.content_type := Some "application/xml" |}
           [Demo.entry_of "https://ex.com/b" (Some "2024-01-02T00:00:00+0900");
            Demo.entry_of "https://ex.com/a" (Some "2024-01-01T00:00:00+0900")]).
  - reflexivity.
  - reflexivity.
  - reflexivity.
  - repeat constructor; eexists; reflexivity.
Defined.

(** X18: when the request for the feed fails, or its body does not parse,
    the script stops before the first page: no run completes. *)
Theorem unreadable_feed_stops_run
        (cfg : Crawl.Config) (env : Crawl.Env) (fs : gmap string string) :
  Crawl.web env 0 (Crawl.sitemap_url cfg) = Crawl.Failed
  \/ (exists r, Crawl.web env 0 (Crawl.sitemap_url cfg) = Crawl.Answered r /\
                Crawl.parse_sitemap env (Crawl.content r) = None) ->
  Crawl.prepare cfg env fs = None /\
  (forall fuel, Crawl.run_first cfg env fuel fs = None) /\
  (forall final, ~ Crawl.completes cfg env fs final).
Proof.
  intros H.
  assert (Crawl.prepare cfg env fs = None) as Hp.
  { unfold Crawl.prepare, Crawl.load_sitemap, Crawl.get. cbn [Crawl.requests Crawl.initial length].
    destruct H as [-> | (r & -> & ->)]; reflexivity. }
  split; [exact Hp |]. split.
  - intros fuel. unfold Crawl.run_first. rewrite Hp. reflexivity.
  - intros final (rm & sm & s0 & s1 & s2 & Hprep & _). congruence.
Qed.

Lemma unreadable_feed_stops_run_witness :
  Crawl.prepare Demo.cfg (DemoFlaky.env 1 "P") ∅ = None.
Proof.
  apply (unreadable_feed_stops_run Demo.cfg (DemoFlaky.env 1 "P") ∅).
  left. reflexivity.
Defined.

(** ** Paths and keys *)

Module PathFacts.

Lemma prefix_single c d s :
  String.prefix (String c EmptyString) (String d s) = if Ascii.eqb c d then true else false.
Proof.
  cbn. destruct (ascii_dec c d) as [-> | Hn].
  - rewrite Ascii.eqb_refl. destruct s; reflexivity.
  - apply Ascii.eqb_neq in Hn. rewrite Hn. reflexivity.
Qed.

Lemma replace_from_cons_single c new d s :
  PyStr.replace_from 0 (String c EmptyString) new (String d s)
  = if Ascii.eqb c d
    then new ++ PyStr.replace_from 0 (String c EmptyString) new s
    else String d (PyStr.replace_from 0 (String c EmptyString) new s).
Proof.
  cbn [PyStr.replace_from]. rewrite prefix_single. destruct (Ascii.eqb c d); reflexivity.
Qed.

(** replacing a character removes it *)
Lemma replace_char_gone c new s :
  PyStr.contains c new = false ->
  PyStr.contains c (PyStr.replace (String c EmptyString) new s) = false.
Proof.
  intros Hn. unfold PyStr.replace. induction s as [| d s IH]; [reflexivity |].
  rewrite replace_from_cons_single. destruct (Ascii.eqb c d) eqn:E.
  - rewrite StrFacts.contains_app, Hn, IH. reflexivity.
  - rewrite TextFacts.contains_cons, E. exact IH.
Qed.

Lemma contains_substring c s : forall n m,
  PyStr.contains c s = false -> PyStr.contains c (String.substring n m s) = false.
Proof.
  induction s as [| d s IH]; intros n m H.
  - destruct n, m; reflexivity.
  - rewrite TextFacts.contains_cons in H. destruct (Ascii.eqb c d) eqn:E; [discriminate |].
    destruct n as [| n]; [destruct m as [| m] |]; cbn [String.substring].
    + reflexivity.
    + rewrite TextFacts.contains_cons, E. apply IH, H.
    + apply IH, H.
Qed.

End PathFacts.

(** X19: the local path of a URL has no forward slash left, and the key
    under which a file goes to the store has no backslash. *)
Theorem paths_and_keys_separators (cfg : Crawl.Config) (url bucket file_path : string) :
  PyStr.contains "/" (Crawl.local_path_of cfg url) = false /\
  PyStr.contains "\" (Upload.s3_key_of bucket file_path) = false.
Proof.
  split.
  - unfold Crawl.local_path_of. apply PathFacts.replace_char_gone. reflexivity.
  - unfold Upload.s3_key_of.
    assert (PyStr.contains "\"
              (PyStr.replace "\" "/" (Upload.relpath file_path (Upload.local_path bucket)))
            = false) as H by (apply PathFacts.replace_char_gone; reflexivity).
    destruct (PyStr.startswith _ "$root/"); [| exact H].
    apply PathFacts.contains_substring, H.
Qed.

(** ** Turns of the driver *)

Module TurnFacts.
Import Crawl.

Lemma no_query_not_tagcloud cfg u :
  PyStr.contains "?" u = false -> is_tagcloud_param cfg u = false.
Proof.
  intros H. unfold is_tagcloud_param, PyStr.startswith.
  destruct (String.prefix (top_page_url cfg ++ "/tagcloud?tag=") u) eqn:E; [| reflexivity].
  pose proof (NormFacts.contains_prefix "?" _ _ E H) as Hc.
  rewrite StrFacts.contains_app in Hc. apply orb_false_elim in Hc.
  destruct Hc as [_ Hc]. discriminate Hc.
Qed.

Lemma append_inj_l (a b c : string) : a ++ b = a ++ c -> b = c.
Proof.
  induction a as [| x a IH]; intros H; [exact H |].
  rewrite !StrFacts.app_cons in H. injection H as H. apply IH, H.
Qed.

Lemma log_paths_differ cfg :
  processed_file_path cfg <> skipped_file_path cfg /\
  processed_file_path cfg <> retry_file_path cfg.
Proof.
  unfold processed_file_path, skipped_file_path, retry_file_path.
  split; intros H; apply append_inj_l, append_inj_l in H; discriminate H.
Qed.

End TurnFacts.

(** X20: a turn of the worklist on a page URL (no query, no extension,
    not yet processed) whose first reply is clean and is taken by the disk,
    outside retry mode: the page is saved as the index document of its
    directory with its sidecar, the URL is processed and out of the ledger,
    the links of the page join the worklist, and one request was made. *)
Theorem worklist_page_turn
        (cfg : Crawl.Config) (env : Crawl.Env) (disk : CrawlIO.Disk) (url : string)
        (s : Crawl.State) (r : Crawl.Response) :
  PyStr.contains "?" url = false ->
  url ∉ Crawl.processed_urls s ->
  NtPath.splitext_ext (Crawl.local_path_of cfg url) = EmptyString ->
  Crawl.web env (length (Crawl.requests s)) url = Crawl.Answered r ->
  Crawl.history r = [] ->
  let soup := Dom.structural_edits (Crawl.parse_html env (Crawl.content r)) in
  let local_path := NtPath.join (Crawl.local_path_of cfg url) (Crawl.index_file_name cfg) in
  TurnSpec.accepts disk (S (length (Crawl.requests s))) (Crawl.files s) local_path
                   (TurnSpec.page_body env r) (default "text/html" (Crawl.content_type r)) ->
  let s' := CrawlIO.worklist_body cfg env disk false url s in
  Crawl.processed_urls s' = {[url]} ∪ Crawl.processed_urls s /\
  Crawl.page_links s' = Crawl.page_links s ∪ Crawl.collect_links cfg env url soup /\
  Crawl.files s'
  = <[local_path ++ ".metadata"
      := Crawl.metadata_line (default "text/html" (Crawl.content_type r))]>
      (<[local_path := PyStr.replace "/tagcloud?tag=" "/tagcloud/" (Crawl.str_soup env soup)]>
         (Crawl.files s)) /\
  (url ∉ Crawl.retry_urls s') /\
  Crawl.skipped_urls s' = Crawl.skipped_urls s /\
  Crawl.requests s' = url :: Crawl.requests s.
Proof.
  intros Hq Hnew Hext Hweb Hh soup local_path Hacc s'. subst s' soup.
  unfold CrawlIO.worklist_body, Crawl.cut_query, Crawl.worklist_local_path.
  rewrite (TurnFacts.no_query_not_tagcloud cfg url Hq), Hq. cbn [andb negb].
  unfold Crawl.mem. rewrite bool_decide_eq_false_2 by exact Hnew.
  rewrite Hext. cbn [String.eqb negb andb]. fold local_path.
  unfold CrawlIO.download_html, Crawl.WEB_RETRY_COUNT. cbn [andb CrawlIO.html_attempts].
  unfold Crawl.get. rewrite Hweb, Hh. unfold CrawlIO.save_html.
  fold (TurnSpec.page_body env r).
  rewrite IOFacts.save_accepted by exact Hacc.
  unfold Crawl.record_result.
  cbn [Crawl.processed_urls Crawl.page_links Crawl.files Crawl.retry_urls Crawl.skipped_urls
       Crawl.requests Crawl.with_processed Crawl.with_page_links Crawl.with_retry
       Crawl.with_files].
  repeat split.
  unfold Crawl.remove. intros Hin. apply elem_of_difference in Hin.
  destruct Hin as [_ Hin]. apply Hin, elem_of_singleton. reflexivity.
Qed.

Lemma worklist_page_turn_witness :
  Crawl.files (CrawlIO.worklist_body Demo.cfg (Demo.env Demo.png Demo.feed) CrawlIO.reliable
                 false "https://ex.com/p" (Crawl.initial ∅))
  = <[".\mirror\p\index.html.metadata" := Crawl.metadata_line "text/html"]>
      (<[".\mirror\p\index.html" := "P"]> ∅).
Proof.
  apply (worklist_page_turn Demo.cfg (Demo.env Demo.png Demo.feed) CrawlIO.reliable
           "https://ex.com/p" (Crawl.initial ∅)
           {| Crawl.history := []; Crawl.content := "P"; Crawl.content_type := Some "text/html" |}).
  - reflexivity.
  - apply not_elem_of_empty.
  - reflexivity.
  - reflexivity.
  - reflexivity.
  - repeat split.
Defined.

(** X21: a top page that fails three times does not stop the run: the
    crawl goes on with an empty worklist, the top page is not processed and
    is in the retry ledger. *)
Theorem seed_failure_not_fatal (cfg : Crawl.Config) (env : Crawl.Env) (s : Crawl.State) :
  (forall i, i < 3 ->
             Crawl.web env (length (Crawl.requests s) + i) (Crawl.top_page_url cfg) = Crawl.Failed) ->
  let s' := Crawl.seed cfg env false s in
  Crawl.page_links s' = ∅ /\
  Crawl.processed_urls s' = Crawl.processed_urls s /\
  Crawl.top_page_url cfg ∈ Crawl.retry_urls s' /\
  Crawl.drains cfg env false s' s'.
Proof.
  intros Hweb s'. subst s'. unfold Crawl.seed, Crawl.download_html. cbn [andb].
  destruct (FetchFacts.html_attempts_all_failed cfg env (Crawl.top_page_url cfg)
              (Crawl.top_local_file cfg) true 3 s Hweb) as (s1 & E & Hr & _ & _ & Hp & _ & _).
  unfold Crawl.WEB_RETRY_COUNT. rewrite E. cbn.
  repeat split.
  - exact Hp.
  - rewrite Hr. cbn. apply elem_of_union_l, elem_of_singleton. reflexivity.
  - constructor. reflexivity.
Qed.

Lemma seed_failure_not_fatal_witness :
  Crawl.page_links (Crawl.seed Demo.cfg (DemoFlaky.env 3 "P") false (Crawl.initial ∅)) = ∅.
Proof.
  apply (seed_failure_not_fatal Demo.cfg (DemoFlaky.env 3 "P") (Crawl.initial ∅)).
  intros i Hi. destruct i as [| [| [| i]]]; [reflexivity | reflexivity | reflexivity | lia].
Defined.

(** X22: a run that completes has counted the feed URL as processed and
    has written the processed log: every processed URL, sorted, one per
    line. *)
Theorem processed_log_written (cfg : Crawl.Config) (env : Crawl.Env)
        (fs : gmap string string) (final : Crawl.State) :
  Crawl.completes cfg env fs final ->
  Crawl.sitemap_url cfg ∈ Crawl.processed_urls final /\
  Crawl.files final !! Crawl.processed_file_path cfg
  = Some (String.concat EmptyString
            (map (fun u => u ++ Dom.newline)
                 (PySort.sorted (elements (Crawl.processed_urls final))))).
Proof.
  intros (retry_mode & sitemap_data & s0 & s1 & s2 & _ & _ & _ & Hfin).
  unfold Crawl.finish, Crawl.build_output in Hfin.
  destruct (Crawl.output_entries cfg env sitemap_data _) as [xs |]; [| discriminate].
  destruct (Crawl.pretty_xml env _) as [pretty |]; [| discriminate].
  injection Hfin as <-.
  destruct (TurnFacts.log_paths_differ cfg) as [Hps Hpr].
  unfold Crawl.persist_ledger, Crawl.write_logs, Crawl.write_lines.
  repeat (match goal with |- context [bool_decide ?P] => destruct (bool_decide P) end);
    cbn [Crawl.processed_urls Crawl.files Crawl.skipped_urls Crawl.retry_urls
         Crawl.with_files Crawl.with_processed];
    (split; [unfold Crawl.add; apply elem_of_union_l, elem_of_singleton; reflexivity |]);
    repeat first [ rewrite lookup_delete_ne by congruence
                 | rewrite lookup_insert_ne by congruence ];
    apply lookup_insert_eq.
Qed.

Lemma processed_log_written_witness :
  exists final,
    Crawl.completes Demo.cfg (Demo.env Demo.png Demo.feed) ∅ final /\
    Crawl.sitemap_url Demo.cfg ∈ Crawl.processed_urls final.
Proof.
  destruct (Crawl.run_first Demo.cfg (Demo.env Demo.png Demo.feed) 10 ∅) as [final |] eqn:E;
    [| vm_compute in E; discriminate E].
  exists final.
  pose proof (RunFacts.run_first_completes _ _ _ _ _ E) as Hc.
  split; [exact Hc |].
  apply (processed_log_written Demo.cfg (Demo.env Demo.png Demo.feed) ∅ final Hc).
Defined.
